(** * django-pandas-forms: the row cleaner, the column checks and the
      validity verdict of [pandas.py], embedded in Rocq.

    The embedding follows [pandas.py] class by class: [PandasForm]
    ([_clean_data], [add_error], [is_valid]), the checks [IsInCheck] and
    [LengthCheck], [PandasValidationColumn] and [PandasValidationFrame].
    Python dictionaries whose iteration order is observed (rows, cleaned
    rows, the frame's columns) are association lists in insertion order;
    the error dictionaries are finite maps.  The operations of the pandas
    library that the checks call are modelled in [Module Pd]. *)

From Stdlib Require Import ZArith Lia.
From stdpp Require Import base option list strings gmap pretty.

Local Open Scope string_scope.
Local Open Scope list_scope.
Local Open Scope Z_scope.

(** ** Python values *)

(** The values a row may hold: [None], integers and strings. *)
Inductive Value : Type :=
  | VNone
  | VInt (z : Z)
  | VStr (s : string).

#[global] Instance Value_eq_dec : EqDecision Value.
Proof. solve_decision. Defined.

(** Python truthiness, as tested by [if values[item]]. *)
Definition truthy (v : Value) : bool :=
  match v with
  | VNone => false
  | VInt z => negb (Z.eqb z 0)
  | VStr s => negb (String.eqb s "")
  end.

(** A Python [dict] with string keys whose insertion order is kept. *)
Module PyDict.
Definition t (V : Type) : Type := list (string * V).

Fixpoint get {V} (k : string) (d : t V) : option V :=
  match d with
  | [] => None
  | (k', v) :: d' => if String.eqb k' k then Some v else get k d'
  end.

(** [d[k] = v]: an existing key keeps its place, a new one goes last. *)
Fixpoint set {V} (k : string) (v : V) (d : t V) : t V :=
  match d with
  | [] => [(k, v)]
  | (k', v') :: d' =>
      if String.eqb k' k then (k', v) :: d' else (k', v') :: set k v d'
  end.

Definition keys {V} (d : t V) : list string := map fst d.
End PyDict.

(** ** Errors *)

(** [django.core.exceptions.ValidationError], reduced to its message. *)
Record ValidationError : Type := mkValidationError { message : string }.

#[global] Instance ValidationError_eq_dec : EqDecision ValidationError.
Proof. solve_decision. Defined.

(** The exceptions of Python and pandas that no code of [pandas.py]
    catches. *)
Inductive PyExc : Type :=
  | KeyError
  | AttributeError.

Inductive Result (A : Type) : Type :=
  | Ok (a : A)
  | Raise (e : PyExc).
Arguments Ok {A} a.
Arguments Raise {A} e.

#[global] Instance Result_ret : MRet Result := λ A a, Ok a.
#[global] Instance Result_bind : MBind Result := λ A B k r,
  match r with
  | Ok a => k a
  | Raise e => Raise e
  end.

(** [{field: [errors]}], the per-row dictionary of an error map. *)
Abbreviation FieldErrors := (gmap string (list ValidationError)).

(** An error dictionary.  Its keys are row indices, whose values are
    [FieldErrors], and the string ['__all__'], whose value is a list. *)
Record ErrorMap : Type := mkErrorMap {
  em_rows : gmap Z FieldErrors;
  em_all : option (list ValidationError)
}.

Definition empty_errors : ErrorMap := mkErrorMap ∅ None.

(** [self.errors[idx][item].append(e)] when the field has a list,
    [self.errors[idx][item] = [e]] otherwise; [idx] must be a key. *)
Definition append_field_error (item : string) (e : ValidationError)
    (row : FieldErrors) : FieldErrors :=
  match row !! item with
  | Some l => <[item := l ++ [e]]> row
  | None => <[item := [e]]> row
  end.

(** [if idx not in errors: errors[idx] = {}] *)
Definition ensure_row (idx : Z) (rows : gmap Z FieldErrors)
    : gmap Z FieldErrors :=
  match rows !! idx with
  | Some _ => rows
  | None => <[idx := ∅]> rows
  end.


(** ** The pandas operations used by the checks *)

(** Frames as [is_valid] builds them: string labels, cells that are
    [None], integers or strings, and a [RangeIndex] from 0.  A frame
    indexed by a mask carries the labels that remain. *)
Module Pd.

(** A cell of a [DataFrame]: the float [NaN], the object [None], a
    number or a string. *)
Inductive Cell : Type :=
  | NaN
  | PyNone
  | Int (z : Z)
  | Str (s : string).

Inductive Index : Type :=
  | RangeIndex (start stop : Z)
  | Int64Index (labels : list Z).

(** A frame, row by row; every row lists its cells in the order of
    [columns]. *)
Record DataFrame : Type := mkDataFrame {
  columns : list string;
  index : Index;
  rows : list (list Cell)
}.

Definition labels_of (i : Index) : list Z :=
  match i with
  | RangeIndex start stop => seqZ start (stop - start)
  | Int64Index l => l
  end.

Fixpoint position (k : string) (l : list string) : option nat :=
  match l with
  | [] => None
  | k' :: l' =>
      if String.eqb k' k then Some O else S <$> position k l'
  end.

(** [df[name]]: the column as a list of cells, [KeyError] when the
    frame has no such column. *)
Definition getitem (name : string) (df : DataFrame) : Result (list Cell) :=
  match position name (columns df) with
  | Some j => Ok (map (λ r, nth j r NaN) (rows df))
  | None => Raise KeyError
  end.

Definition cell_isnull (c : Cell) : bool :=
  match c with
  | NaN | PyNone => true
  | Int _ | Str _ => false
  end.

(** Membership of a cell in a list of Python values: a number or a
    string when the list holds it, [None] when the list holds [None];
    [NaN] is in no list of [Value]s. *)
Definition cell_isin (values : list Value) (c : Cell) : bool :=
  match c with
  | NaN => false
  | PyNone => bool_decide (VNone ∈ values)
  | Int z => bool_decide (VInt z ∈ values)
  | Str s => bool_decide (VStr s ∈ values)
  end.

(** [Series.isin(values)] and [Series.isnull()]. *)
Definition isin (values : list Value) (col : list Cell) : list bool :=
  map (cell_isin values) col.
Definition isnull (col : list Cell) : list bool := map cell_isnull col.

Definition is_str (c : Cell) : bool :=
  match c with Str _ => true | _ => false end.
Definition is_pynone (c : Cell) : bool :=
  match c with PyNone => true | _ => false end.

(** The [.str] accessor is refused ([AttributeError]) on a column that
    holds numbers or [NaN] and no string. *)
Definition str_accessor_ok (col : list Cell) : bool :=
  existsb is_str col || forallb is_pynone col.

(** [len(s)] for a Python string counts its characters (code points).
    A [string] holds the UTF-8 bytes of the text: a character is one
    byte that is no continuation byte ([10xxxxxx]) followed by its
    continuation bytes, and the first byte of a text starts a
    character. *)
Definition is_continuation (a : Ascii.ascii) : bool :=
  match a with
  | Ascii.Ascii _ _ _ _ _ _ b6 b7 => b7 && negb b6
  end.

Fixpoint count_chars (s : string) : nat :=
  match s with
  | EmptyString => O
  | String a s' => (if is_continuation a then O else 1%nat) + count_chars s'
  end.

Definition py_len (s : string) : nat :=
  match s with
  | EmptyString => O
  | String _ s' => S (count_chars s')
  end.

(** [len] of one cell under [.str.len()]: [NaN] (here [None]) for what
    is not a string, the number of characters for a string. *)
Definition cell_str_len (c : Cell) : option Z :=
  match c with
  | Str s => Some (Z.of_nat (py_len s))
  | _ => None
  end.

Definition str_len (col : list Cell) : Result (list (option Z)) :=
  if str_accessor_ok col then Ok (map cell_str_len col)
  else Raise AttributeError.

(** [series <= n] for a number [n]; a comparison with [NaN] is false. *)
Definition le_scalar (n : Z) (lens : list (option Z)) : list bool :=
  map (λ o, match o with Some k => k <=? n | None => false end) lens.

(** [series <= other] for a boolean series [other], [True] counting
    as 1 and [False] as 0. *)
Definition le_series (lens : list (option Z)) (other : list bool)
    : list bool :=
  zip_with (λ o b, match o with
                   | Some k => k <=? Z.b2z b
                   | None => false
                   end) lens other.

(** [a & b] on two boolean series of one frame. *)
Definition and_series (a b : list bool) : list bool := zip_with andb a b.

(** [n & series] for an integer [n] and a boolean series: the bitwise
    and of [n] with 1 or 0, read back as a boolean. *)
Definition rand_int (n : Z) (s : list bool) : list bool :=
  map (λ b, negb (Z.eqb (Z.land n (Z.b2z b)) 0)) s.

Fixpoint select {A} (mask : list bool) (l : list A) : list A :=
  match mask, l with
  | b :: mask', x :: l' =>
      if b then x :: select mask' l' else select mask' l'
  | _, _ => []
  end.

(** [df[mask]] for a boolean series [mask]: the rows where it holds. *)
Definition getitem_mask (mask : list bool) (df : DataFrame) : DataFrame :=
  {| columns := columns df;
     index := Int64Index (select mask (labels_of (index df)));
     rows := select mask (rows df) |}.

(** Iterating a frame yields its column labels. *)
Definition iter_frame (df : DataFrame) : list string := columns df.

(** *** [pd.DataFrame(records)] for a list of dictionaries *)

Definition add_key (acc : list string) (k : string) : list string :=
  if bool_decide (k ∈ acc) then acc else acc ++ [k].

Definition record_columns (records : list (PyDict.t Value)) : list string :=
  fold_left (λ acc r, fold_left add_key (PyDict.keys r) acc) records [].

(** The integers of a column that holds a missing value are stored as
    [float64]: an integer is rounded to the nearest number with 53
    significant bits, ties to the even one. *)
Definition round_double (z : Z) : Z :=
  let a := Z.abs z in
  if a <=? 2 ^ 53 then z
  else
    let e := Z.log2 a - 52 in
    let q := Z.shiftr a e in
    let r := Z.land a (Z.ones e) in
    let half := Z.shiftl 1 (e - 1) in
    let q' := if (half <? r) || ((r =? half) && Z.odd q) then q + 1 else q in
    Z.sgn z * Z.shiftl q' e.

(** The scan of a column by the constructor, value after value: the
    column stays a column of objects when it holds a string, an integer
    outside 64 bits, or, before any [None], both a negative integer and
    one from [2^63] on.  [null_] records a [None] seen, [uint_] and
    [sint_] an integer from [2^63] on and a negative one seen before
    it. *)
Fixpoint object_column (null_ uint_ sint_ : bool) (raw : list (option Value))
    : bool :=
  match raw with
  | [] => false
  | None :: raw' => object_column null_ uint_ sint_ raw'
  | Some VNone :: raw' => object_column true uint_ sint_ raw'
  | Some (VStr _) :: _ => true
  | Some (VInt z) :: raw' =>
      let uint' := uint_ || (negb null_ && (2 ^ 63 <=? z)) in
      let sint' := sint_ || (negb null_ && (z <? 0)) in
      if (uint' && sint') || (2 ^ 64 <=? z) || (z <? - 2 ^ 63) then true
      else object_column null_ uint' sint' raw'
  end.

Definition is_missing (o : option Value) : bool :=
  match o with None => true | _ => false end.
Definition is_none (o : option Value) : bool :=
  match o with Some VNone => true | _ => false end.
Definition is_int (o : option Value) : bool :=
  match o with Some (VInt _) => true | _ => false end.

(** A column is a [float64] column when it is no column of objects and
    a record lacks the key (a missing key is [NaN]), or one holds
    [None] and another a number. *)
Definition float_column (raw : list (option Value)) : bool :=
  negb (object_column false false false raw)
  && (existsb is_missing raw || (existsb is_none raw && existsb is_int raw)).

(** The cell of a value: in a [float64] column [None] is [NaN] and an
    integer is rounded; elsewhere the value is kept as it is. *)
Definition to_cell (float : bool) (o : option Value) : Cell :=
  match o with
  | None => NaN
  | Some VNone => if float then NaN else PyNone
  | Some (VInt z) => Int (if float then round_double z else z)
  | Some (VStr s) => Str s
  end.

Definition from_records (records : list (PyDict.t Value)) : DataFrame :=
  let cols := record_columns records in
  let float k := float_column (map (PyDict.get k) records) in
  {| columns := cols;
     index := RangeIndex 0 (Z.of_nat (List.length records));
     rows := map (λ r, map (λ k, to_cell (float k) (PyDict.get k r)) cols)
                 records |}.

End Pd.

(** ** Checks *)

Inductive Check : Type :=
  | IsInCheck (field_name : string) (cached_list : list Value)
  | LengthCheck (field_name : string) (len : Z).

(** The constructor of [LengthCheck]: the length is the second positional
    argument when there is one, else 0. *)
Definition LengthCheck_init (field_name : string) (rest : list Z) : Check :=
  match rest with
  | [] => LengthCheck field_name 0
  | n :: _ => LengthCheck field_name n
  end.

Definition field_name (c : Check) : string :=
  match c with
  | IsInCheck f _ | LengthCheck f _ => f
  end.

(** What [validate] returns: a boolean series, or (with [nullable]) the
    frame indexed by a mask. *)
Inductive Validation : Type :=
  | VSeries (s : list bool)
  | VFrame (df : Pd.DataFrame).

Definition IsInCheck_validate (f : string) (cached_list : list Value)
    (df : Pd.DataFrame) (nullable : bool) : Result Validation :=
  if nullable then
    col ← Pd.getitem f df;
    col' ← Pd.getitem f df;
    Ok (VFrame (Pd.getitem_mask
                  (Pd.and_series (Pd.isin cached_list col) (Pd.isnull col'))
                  df))
  else
    col ← Pd.getitem f df;
    Ok (VSeries (Pd.isin cached_list col)).

(** In the nullable branch [&] binds tighter than [<=]: the lengths are
    compared with [self.length & isnull]. *)
Definition LengthCheck_validate (f : string) (len : Z)
    (df : Pd.DataFrame) (nullable : bool) : Result Validation :=
  if nullable then
    col ← Pd.getitem f df;
    lens ← Pd.str_len col;
    col' ← Pd.getitem f df;
    Ok (VFrame (Pd.getitem_mask
                  (Pd.le_series lens (Pd.rand_int len (Pd.isnull col')))
                  df))
  else
    col ← Pd.getitem f df;
    lens ← Pd.str_len col;
    Ok (VSeries (Pd.le_scalar len lens)).

Definition Check_validate (c : Check) (df : Pd.DataFrame) (nullable : bool)
    : Result Validation :=
  match c with
  | IsInCheck f l => IsInCheck_validate f l df nullable
  | LengthCheck f n => LengthCheck_validate f n df nullable
  end.

Definition get_error (c : Check) : ValidationError :=
  match c with
  | IsInCheck _ _ =>
      mkValidationError
        "Komórka zawiera dane które nie zgadzają się z możliwymi wartościami!"
  | LengthCheck _ n =>
      mkValidationError
        ("Komórka przekracza maksymalną długość (" +:+ pretty n +:+ " znaków)!")
  end.

(** [enumerate(validation)] as the column validator reads it: for each
    position, whether the item is truthy.  A series yields its booleans,
    a frame its column labels, which are truthy unless empty. *)
Definition truth_items (v : Validation) : list bool :=
  match v with
  | VSeries s => s
  | VFrame df => map (λ k, negb (String.eqb k "")) (Pd.iter_frame df)
  end.

(** ** PandasValidationColumn *)

Module PandasValidationColumn.

(** The attribute [df] is never read and is left out. *)
Record t : Type := mk {
  name : string;
  checks : list Check;
  errors : gmap Z FieldErrors;
  coerce : bool;
  nullable : bool
}.

Definition init (name : string) (checks : list Check)
    (coerce nullable : bool) : t :=
  mk name checks ∅ coerce nullable.

Definition set_errors (col : t) (errs : gmap Z FieldErrors) : t :=
  mk (name col) (checks col) errs (coerce col) (nullable col).

Definition handle_error (col : t) (check : Check) (index : Z) : t :=
  let err_string := get_error check in
  match errors col !! index with
  | None => set_errors col (<[index := {[name col := [err_string]]}]> (errors col))
  | Some row =>
      set_errors col
        (<[index := append_field_error (name col) err_string row]> (errors col))
  end.

(** The inner loop: [handle_error] at every position whose item is
    falsy, the positions counted from [index]. *)
Fixpoint handle_items (col : t) (check : Check) (index : Z)
    (items : list bool) : t :=
  match items with
  | [] => col
  | row :: items' =>
      handle_items (if row then col else handle_error col check index)
                   check (index + 1) items'
  end.

Fixpoint validate_checks (col : t) (cs : list Check) (pandas_data : Pd.DataFrame)
    : Result t :=
  match cs with
  | [] => Ok col
  | check :: cs' =>
      validation ← Check_validate check pandas_data (nullable col);
      validate_checks (handle_items col check 0 (truth_items validation))
                      cs' pandas_data
  end.

Definition validate (col : t) (pandas_data : Pd.DataFrame) : Result t :=
  validate_checks col (checks col) pandas_data.

End PandasValidationColumn.

(** ** PandasValidationFrame *)

Module PandasValidationFrame.

Record t : Type := mk {
  cached_fields : PyDict.t PandasValidationColumn.t;
  errors : ErrorMap;
  valid : bool
}.

Definition init (cached_fields : PyDict.t PandasValidationColumn.t) : t :=
  mk cached_fields empty_errors true.

(** [self.errors[idx][key] = val] for every row and field of [errors];
    [KeyError] when [idx] is no key of [self.errors].  In the source the
    bound [val] is the column's own list object; here the list is
    copied, which gives the same dictionaries as long as no list is
    appended to between two runs of [validate] on the same validators. *)
Definition bind_row (idx : Z) (curr : FieldErrors)
    (acc : Result (gmap Z FieldErrors)) : Result (gmap Z FieldErrors) :=
  map_fold (λ key val acc',
              rows ← acc';
              match rows !! idx with
              | Some fe => Ok (<[idx := <[key := val]> fe]> rows)
              | None => Raise KeyError
              end) acc curr.

Definition bind_errors (rows : gmap Z FieldErrors)
    (errors : gmap Z FieldErrors) : Result (gmap Z FieldErrors) :=
  map_fold bind_row (Ok rows) errors.

(** The loop over the columns; the validated columns are gathered in
    [done], in their order. *)
Fixpoint validate_fields (done todo : PyDict.t PandasValidationColumn.t)
    (rows : gmap Z FieldErrors) (valid : bool) (pandas_data : Pd.DataFrame)
    : Result (PyDict.t PandasValidationColumn.t * gmap Z FieldErrors * bool) :=
  match todo with
  | [] => Ok (done, rows, valid)
  | (name, field) :: todo' =>
      field' ← PandasValidationColumn.validate field pandas_data;
      if bool_decide (PandasValidationColumn.errors field' = ∅) then
        validate_fields (done ++ [(name, field')]) todo' rows valid pandas_data
      else
        rows' ← bind_errors rows (PandasValidationColumn.errors field');
        validate_fields (done ++ [(name, field')]) todo' rows' false pandas_data
  end.

Definition init_errors (start stop : Z) (rows : gmap Z FieldErrors)
    : gmap Z FieldErrors :=
  fold_left (λ acc val, ensure_row val acc) (seqZ start (stop - start)) rows.

(** [index.start] and [index.stop] exist on a [RangeIndex] only. *)
Definition validate (frame : t) (pandas_data : Pd.DataFrame) : Result t :=
  match Pd.index pandas_data with
  | Pd.Int64Index _ => Raise AttributeError
  | Pd.RangeIndex start stop =>
      let rows := init_errors start stop (em_rows (errors frame)) in
      '(fields, rows', valid') ←
        validate_fields [] (cached_fields frame) rows (valid frame) pandas_data;
      Ok (mk fields (mkErrorMap rows' (em_all (errors frame))) valid')
  end.

End PandasValidationFrame.

(** ** PandasForm *)

(** What a [clean_<field>] hook does: it returns the cleaned value or
    raises a [ValidationError]. *)
Inductive HookResult : Type :=
  | Returns (v : Value)
  | Raises (e : ValidationError).

(** What a subclass of [PandasForm] fixes: [Meta.fields], the method
    [handle_default] and the [clean_<field>] hooks, looked up by field
    name.  A hook reads [self.row_data], the cleaned row so far. *)
Record FormClass : Type := mkFormClass {
  Meta_fields : list string;
  handle_default : string → Value;
  clean_hook : string → option (PyDict.t Value → HookResult)
}.

(** [PandasForm.handle_default] returns [None]. *)
Definition PandasForm_handle_default (item : string) : Value := VNone.

Module PandasForm.

(** The state of an instance.  After [_clean_data] on a form with a
    schema, [self.errors] is the schema's dictionary itself:
    [errors_is_schema] records the alias and [own_errors] is the
    dictionary the form holds otherwise.  [cached_valid] is [None],
    [True] or [False].  [hook_calls] counts the hook invocations. *)
Record t : Type := mk {
  fields : list string;
  cached_valid : option bool;
  data : list (PyDict.t Value);
  schema : option PandasValidationFrame.t;
  pandas_data : option Pd.DataFrame;
  own_errors : ErrorMap;
  errors_is_schema : bool;
  cleaned_data : option (list (PyDict.t Value));
  row_data : PyDict.t Value;
  hook_calls : nat
}.

(** [self.errors] *)
Definition errors (f : t) : ErrorMap :=
  match errors_is_schema f, schema f with
  | true, Some s => PandasValidationFrame.errors s
  | _, _ => own_errors f
  end.

(** A write through [self.errors] *)
Definition with_errors (f : t) (em : ErrorMap) : t :=
  match errors_is_schema f, schema f with
  | true, Some s =>
      mk (fields f) (cached_valid f) (data f)
         (Some (PandasValidationFrame.mk
                  (PandasValidationFrame.cached_fields s) em
                  (PandasValidationFrame.valid s)))
         (pandas_data f) (own_errors f) true (cleaned_data f) (row_data f)
         (hook_calls f)
  | _, _ =>
      mk (fields f) (cached_valid f) (data f) (schema f) (pandas_data f)
         em (errors_is_schema f) (cleaned_data f) (row_data f) (hook_calls f)
  end.

Definition init (cls : FormClass) (data : list (PyDict.t Value)) : t :=
  {| fields := Meta_fields cls;
     cached_valid := Some true;
     data := data;
     schema := None;
     pandas_data := None;
     own_errors := empty_errors;
     errors_is_schema := false;
     cleaned_data := None;
     row_data := [];
     hook_calls := O |}.

(** *** [_clean_data] *)

(** The except branch: the error goes to [errors[idx][item]]. *)
Definition record_error (idx : Z) (item : string) (e : ValidationError)
    (em : ErrorMap) : ErrorMap :=
  mkErrorMap
    (alter (append_field_error item e) idx (ensure_row idx (em_rows em)))
    (em_all em).

(** What the loops of [_clean_data] change: the row being filled
    ([cleaned_data[idx]], which [row_data] aliases), the error map, the
    flag and the count of hook calls. *)
Record CleanState : Type := mkCleanState {
  cs_row : PyDict.t Value;
  cs_errors : ErrorMap;
  cs_valid : option bool;
  cs_calls : nat
}.

Definition raw_truthy (item : string) (values : PyDict.t Value) : bool :=
  match PyDict.get item values with
  | Some v => truthy v
  | None => false
  end.

(** The value of the field before its hook runs. *)
Definition assigned (cls : FormClass) (values : PyDict.t Value)
    (item : string) : Value :=
  match PyDict.get item values with
  | Some v => if truthy v then v else handle_default cls item
  | None => handle_default cls item
  end.

(** The first two statements of the [try] block: the default, then
    the raw value when the row holds a truthy one. *)
Definition pre_hook_row (cls : FormClass) (values : PyDict.t Value)
    (row : PyDict.t Value) (item : string) : PyDict.t Value :=
  let row1 := PyDict.set item (handle_default cls item) row in
  if raw_truthy item values then
    match PyDict.get item values with
    | Some v => PyDict.set item v row1
    | None => row1
    end
  else row1.

(** The body of the loop over the fields. *)
Definition clean_field (cls : FormClass) (idx : Z) (values : PyDict.t Value)
    (st : CleanState) (item : string) : CleanState :=
  let row2 := pre_hook_row cls values (cs_row st) item in
  match clean_hook cls item with
  | None => mkCleanState row2 (cs_errors st) (cs_valid st) (cs_calls st)
  | Some func =>
      match func row2 with
      | Returns v =>
          mkCleanState (PyDict.set item v row2) (cs_errors st) (cs_valid st)
                       (S (cs_calls st))
      | Raises e =>
          mkCleanState row2 (record_error idx item e (cs_errors st))
                       (Some false) (S (cs_calls st))
      end
  end.

(** One row: [cleaned_data[idx] = {}], then every field. *)
Definition clean_row (cls : FormClass) (fields : list string) (idx : Z)
    (values : PyDict.t Value) (em : ErrorMap) (valid : option bool)
    (calls : nat) : CleanState :=
  fold_left (clean_field cls idx values) fields
            (mkCleanState [] em valid calls).

(** The loop over [enumerate(self.data)], from index [idx] on; the
    cleaned rows are gathered in order. *)
Fixpoint clean_rows (cls : FormClass) (fields : list string) (idx : Z)
    (rows : list (PyDict.t Value)) (cleaned : list (PyDict.t Value))
    (em : ErrorMap) (valid : option bool) (calls : nat)
    : list (PyDict.t Value) * ErrorMap * option bool * nat :=
  match rows with
  | [] => (cleaned, em, valid, calls)
  | values :: rows' =>
      let st := clean_row cls fields idx values em valid calls in
      clean_rows cls fields (idx + 1) rows' (cleaned ++ [cs_row st])
                 (cs_errors st) (cs_valid st) (cs_calls st)
  end.

Definition _clean_data (cls : FormClass) (f : t) : t :=
  let em0 :=
    match schema f with
    | Some s => PandasValidationFrame.errors s
    | None => empty_errors
    end in
  let '(cleaned, em, valid, calls) :=
    clean_rows cls (fields f) 0 (data f) [] em0 (cached_valid f)
               (hook_calls f) in
  match schema f with
  | Some s =>
      mk (fields f) valid (data f)
         (Some (PandasValidationFrame.mk
                  (PandasValidationFrame.cached_fields s) em
                  (PandasValidationFrame.valid s)))
         (pandas_data f) (own_errors f) true (Some cleaned) [] calls
  | None =>
      mk (fields f) valid (data f) None (pandas_data f) em false
         (Some cleaned) [] calls
  end.

(** *** [add_error] *)

(** [if field] and [if row]: [None], the empty string and 0 are falsy. *)
Definition field_truthy (field : option string) : bool :=
  match field with
  | Some s => negb (String.eqb s "")
  | None => false
  end.
Definition row_truthy (row : option Z) : bool :=
  match row with
  | Some z => negb (Z.eqb z 0)
  | None => false
  end.

Definition row_key (row : option Z) : option Z :=
  if row_truthy row then row else None.

Definition add_error_map (field : option string) (error : string)
    (row : option Z) (em : ErrorMap) : ErrorMap :=
  let curr_field :=
    match field with
    | Some s => if field_truthy field then s else "__all__"
    | None => "__all__"
    end in
  let parsed_err := mkValidationError error in
  match row_key row with
  | Some r =>
      mkErrorMap
        (alter (append_field_error curr_field parsed_err) r
               (ensure_row r (em_rows em)))
        (em_all em)
  | None =>
      match em_all em with
      | Some l => mkErrorMap (em_rows em) (Some (l ++ [parsed_err]))
      | None => mkErrorMap (em_rows em) (Some [parsed_err])
      end
  end.

Definition add_error (f : t) (field : option string) (error : string)
    (row : option Z) : t :=
  with_errors f (add_error_map field error row (errors f)).

(** *** [is_valid] *)

(** The returned object is [None], [True] or [False]:
    [schema.valid and cached_valid] is [cached_valid] when the frame is
    valid. *)
Definition is_valid (cls : FormClass) (f : t) : Result (option bool * t) :=
  match cached_valid f with
  | Some b => Ok (Some b, f)
  | None =>
      let f1 := _clean_data cls f in
      match schema f1 with
      | Some s =>
          let df := Pd.from_records (default [] (cleaned_data f1)) in
          s' ← PandasValidationFrame.validate s df;
          let f2 :=
            mk (fields f1) (cached_valid f1) (data f1) (Some s') (Some df)
               (own_errors f1) (errors_is_schema f1) (cleaned_data f1)
               (row_data f1) (hook_calls f1) in
          Ok (if PandasValidationFrame.valid s' then cached_valid f1
              else Some false, f2)
      | None => Ok (Some false, f1)
      end
  end.

End PandasForm.

(** ** PandasModelForm *)

(** The constructor, given [validation_fields] as
    [init_validation_types] leaves it (the derivation from the Django
    model is outside this file): a schema is attached when that
    dictionary is not empty. *)
Definition PandasModelForm_init (cls : FormClass)
    (validation_fields : PyDict.t PandasValidationColumn.t)
    (data : list (PyDict.t Value)) : PandasForm.t :=
  let f := PandasForm.init cls data in
  PandasForm.mk (PandasForm.fields f) (PandasForm.cached_valid f)
    (PandasForm.data f)
    (match validation_fields with
     | [] => None
     | _ :: _ => Some (PandasValidationFrame.init validation_fields)
     end)
    None empty_errors false None (PandasForm.row_data f)
    (PandasForm.hook_calls f).

(** ** Sequences of calls on one instance *)

Inductive Op : Type :=
  | OpCleanData
  | OpAddError (field : option string) (error : string) (row : option Z)
  | OpIsValid.

Definition step (cls : FormClass) (f : PandasForm.t) (op : Op)
    : Result PandasForm.t :=
  match op with
  | OpCleanData => Ok (PandasForm._clean_data cls f)
  | OpAddError field error row => Ok (PandasForm.add_error f field error row)
  | OpIsValid => r ← PandasForm.is_valid cls f; Ok r.2
  end.

Fixpoint run (cls : FormClass) (ops : list Op) (f : PandasForm.t)
    : Result PandasForm.t :=
  match ops with
  | [] => Ok f
  | op :: ops' => f' ← step cls f op; run cls ops' f'
  end.

Definition is_clean_op (op : Op) : bool :=
  match op with OpCleanData => true | _ => false end.

(** The error list of one cell of an error dictionary, empty when the
    row or the field has no entry. *)
Definition cell_errors (rows : gmap Z FieldErrors) (idx : Z) (item : string)
    : list ValidationError :=
  default [] (rows !! idx ≫= λ fe, fe !! item).

(** ** Notions used by the statements *)

(** While the error map of a pass that started empty stays empty, the
    flag is the one the pass started with; once an error is recorded
    the flag is [False]. *)
Definition flag_tracks (v0 : option bool) (em : ErrorMap)
    (valid : option bool) : Prop :=
  (em_rows em = ∅ ∧ valid = v0) ∨ (em_rows em ≠ ∅ ∧ valid = Some false).

(** [self.schema.errors if self.schema else {}] *)
Definition schema_errors (f : PandasForm.t) : ErrorMap :=
  match PandasForm.schema f with
  | Some s => PandasValidationFrame.errors s
  | None => empty_errors
  end.

(** A cleaning pass over the rows of a new instance records an error of
    a hook. *)
Definition hook_failure (cls : FormClass)
    (validation_fields : PyDict.t PandasValidationColumn.t)
    (data : list (PyDict.t Value)) : Prop :=
  em_rows (PandasForm.errors
             (PandasForm._clean_data cls
                (PandasModelForm_init cls validation_fields data))) ≠ ∅.

(** What every instance reached from a new one satisfies: the fields and
    the rows are the constructor's, and [cached_valid] is a boolean,
    [False] exactly when a cleaning pass ([seen]) recorded an error of
    a hook. *)
Definition reached (cls : FormClass)
    (validation_fields : PyDict.t PandasValidationColumn.t)
    (data : list (PyDict.t Value)) (seen : bool) (f : PandasForm.t) : Prop :=
  PandasForm.fields f = Meta_fields cls
  ∧ PandasForm.data f = data
  ∧ ∃ v : bool,
      PandasForm.cached_valid f = Some v
      ∧ (v = false ↔ seen = true ∧ hook_failure cls validation_fields data).

(** An error is recorded in an error map: some cell of some row, or the
    list under ['__all__'], holds one. *)
Definition error_recorded (em : ErrorMap) : Prop :=
  (∃ idx item e, e ∈ cell_errors (em_rows em) idx item)
  ∨ (∃ l e, em_all em = Some l ∧ e ∈ l).

(** A form over one field ["email"], without hooks. *)
Definition email_form : FormClass :=
  mkFormClass ["email"] PandasForm_handle_default (λ _, None).

(** The cell of row [i] in the column [name]. *)
Definition cell_at (df : Pd.DataFrame) (name : string) (i : nat)
    : option Pd.Cell :=
  match Pd.position name (Pd.columns df) with
  | Some j => (λ r, nth j r Pd.NaN) <$> Pd.rows df !! i
  | None => None
  end.

(** The position of row [j] in a series enumerated from [index] holds
    a falsy item. *)
Definition fails_at (items : list bool) (index j : Z) : bool :=
  bool_decide (index ≤ j ∧ items !! Z.to_nat (j - index) = Some false).

(** The messages of the checks whose vector is false at row [j], in
    the order of the checks. *)
Fixpoint failures (cs : list Check) (vs : list Validation) (j : Z)
    : list ValidationError :=
  match cs, vs with
  | c :: cs', v :: vs' =>
      (if fails_at (truth_items v) 0 j then [get_error c] else [])
      ++ failures cs' vs' j
  | _, _ => []
  end.

(** The messages expected at row [j] from the pass/fail vectors [ss] of
    the checks [cs]: the message of every check whose vector holds
    [False] at position [j], in the order of the checks.  The vectors
    are read as they are, position by position. *)
Fixpoint vector_failures (cs : list Check) (ss : list (list bool)) (j : Z)
    : list ValidationError :=
  match cs, ss with
  | c :: cs', s :: ss' =>
      (if bool_decide (0 ≤ j ∧ s !! Z.to_nat j = Some false)
       then [get_error c] else [])
      ++ vector_failures cs' ss' j
  | _, _ => []
  end.

(** The cleaned row of [values] once the fields [fields] are done; it
    is what a hook called next reads as [self.row_data], before the
    value of its own field is assigned. *)
Definition cleaned_row (cls : FormClass) (values : PyDict.t Value)
    (fields : list string) : PyDict.t Value :=
  PandasForm.cs_row
    (PandasForm.clean_row cls fields 0 values empty_errors None O).

(** The hook of [item] raises [e] when it is called for the row
    [values], the fields [before] being done. *)
Definition hook_raises (cls : FormClass) (values : PyDict.t Value)
    (before : list string) (item : string) (e : ValidationError) : Prop :=
  ∃ func,
    clean_hook cls item = Some func
    ∧ func (PandasForm.pre_hook_row cls values
              (cleaned_row cls values before) item) = Raises e.

(** A form over the fields ["name"] and ["total"] whose hook for
    ["total"] rejects the row when the name is ["x"]. *)
Definition total_form : FormClass :=
  mkFormClass ["name"; "total"] PandasForm_handle_default
    (λ item,
       if String.eqb item "total" then
         Some (λ row_data,
                 match PyDict.get "name" row_data with
                 | Some (VStr "x") => Raises (mkValidationError "bad total")
                 | _ => Returns (VInt 0)
                 end)
       else None).

Definition total_rows : list (PyDict.t Value) :=
  [[("name", VStr "a"); ("total", VInt 7)];
   [("name", VStr "x"); ("total", VInt 9)];
   [("name", VStr "b")]].

(** The frame has what a check reads: its column, which for a
    [LengthCheck] the [.str] accessor must take. *)
Definition check_applies (df : Pd.DataFrame) (c : Check) : Prop :=
  match c with
  | IsInCheck f _ => ∃ col, Pd.getitem f df = Ok col
  | LengthCheck f _ =>
      ∃ col, Pd.getitem f df = Ok col ∧ Pd.str_accessor_ok col = true
  end.

(** A column validator as constructed, without [nullable], whose checks
    all apply to the frame. *)
Definition column_applies (df : Pd.DataFrame) (col : PandasValidationColumn.t)
    : Prop :=
  PandasValidationColumn.errors col = ∅
  ∧ PandasValidationColumn.nullable col = false
  ∧ Forall (check_applies df) (PandasValidationColumn.checks col).

(** ** The datasets of the scenarios *)

(** Three rows with the codes 1, 3 and 2; with 1, [None] and 3. *)
Definition code_rows : list (PyDict.t Value) :=
  [[("code", VInt 1)]; [("code", VInt 3)]; [("code", VInt 2)]].
Definition code_null_rows : list (PyDict.t Value) :=
  [[("code", VInt 1)]; [("code", VNone)]; [("code", VInt 3)]].

(** Two rows with the names ["abc"] and ["abcdef"]. *)
Definition name_rows : list (PyDict.t Value) :=
  [[("name", VStr "abc")]; [("name", VStr "abcdef")]].

(** The column ["code"] checked against the candidates 1 and 2. *)
Definition code_column (nullable : bool) : PandasValidationColumn.t :=
  PandasValidationColumn.init "code" [IsInCheck "code" [VInt 1; VInt 2]]
    false nullable.

(** The column ["name"] with the maximum length 5. *)
Definition name_column (nullable : bool) : PandasValidationColumn.t :=
  PandasValidationColumn.init "name" [LengthCheck "name" 5] false nullable.

(** The column ["name"] with two checks. *)
Definition name_column_two_checks : PandasValidationColumn.t :=
  PandasValidationColumn.init "name"
    [IsInCheck "name" [VStr "abc"]; LengthCheck "name" 5] false false.

(** The same column with [nullable] set. *)
Definition name_column_two_checks_nullable : PandasValidationColumn.t :=
  PandasValidationColumn.init "name"
    [IsInCheck "name" [VStr "abc"]; LengthCheck "name" 5] false true.

Definition code_frame (nullable : bool) : PandasValidationFrame.t :=
  PandasValidationFrame.init [("code", code_column nullable)].

(** The frame after [validate], as it is when [validate] returns. *)
Definition validated (frame : PandasValidationFrame.t) (df : Pd.DataFrame)
    : PandasValidationFrame.t :=
  match PandasValidationFrame.validate frame df with
  | Ok frame' => frame'
  | Raise _ => frame
  end.

(** ** Further notions *)

(** The key [add_error] files an error under: the field, or ['__all__']
    when the field is [None] or empty. *)
Definition error_key (field : option string) : string :=
  match field with
  | Some s => if String.eqb s "" then "__all__" else s
  | None => "__all__"
  end.

(** The value a field ends with in the cleaned row: what its hook
    returns, or the value assigned before the hook when there is no hook
    or the hook raises. *)
Definition final_value (cls : FormClass) (values : PyDict.t Value)
    (before : list string) (item : string) : Value :=
  match clean_hook cls item with
  | None => PandasForm.assigned cls values item
  | Some func =>
      match func (PandasForm.pre_hook_row cls values
                    (cleaned_row cls values before) item) with
      | Returns v => v
      | Raises _ => PandasForm.assigned cls values item
      end
  end.

(** The error the hook of [item] raises for the row [values], if any. *)
Definition raised (cls : FormClass) (values : PyDict.t Value)
    (before : list string) (item : string) : list ValidationError :=
  match clean_hook cls item with
  | None => []
  | Some func =>
      match func (PandasForm.pre_hook_row cls values
                    (cleaned_row cls values before) item) with
      | Returns _ => []
      | Raises e => [e]
      end
  end.

(** The number of listed fields that have a hook. *)
Definition hooked_fields (cls : FormClass) (fields : list string) : nat :=
  length (List.filter (λ item, bool_decide (is_Some (clean_hook cls item)))
                      fields).

(** A form as [is_valid] would find it had the constructor left
    [cached_valid] at [None]. *)
Definition uncomputed_form (cls : FormClass) (data : list (PyDict.t Value))
    : PandasForm.t :=
  PandasForm.mk (Meta_fields cls) None data None None empty_errors false None
    [] O.

(** The cell is the empty string. *)
Definition is_empty_str (c : Pd.Cell) : bool :=
  match c with
  | Pd.Str s => String.eqb s ""
  | _ => false
  end.

(** Two names, the first of them empty. *)
Definition empty_name_rows : list (PyDict.t Value) :=
  [[("name", VStr "")]; [("name", VStr "abc")]].

(** The column ["name"] with a first check on a column the frame of
    names lacks. *)
Definition name_column_bad_check : PandasValidationColumn.t :=
  PandasValidationColumn.init "name"
    [IsInCheck "name" [VStr "abc"]; LengthCheck "title" 5;
     LengthCheck "name" 5] false false.

(** What the loop over the validated columns makes of one row entry
    [fe] of the merged map: the lists of each column for row [j] are
    written over it, column after column. *)
Fixpoint merge_columns (cols : PyDict.t PandasValidationColumn.t) (j : Z)
    (fe : FieldErrors) : FieldErrors :=
  match cols with
  | [] => fe
  | nc :: cols' =>
      merge_columns cols' j
        (default ∅ (PandasValidationColumn.errors nc.2 !! j) ∪ fe)
  end.

(** Every row of [errs] that holds a field has an entry in [rows]. *)
Definition rows_present (rows errs : gmap Z FieldErrors) : Prop :=
  ∀ idx curr, errs !! idx = Some curr → curr ≠ ∅ → is_Some (rows !! idx).

(** A frame over the columns ["code"] and ["name"], whose error map
    already holds an error of a hook for the code of row 1. *)
Definition two_column_frame : PandasValidationFrame.t :=
  PandasValidationFrame.mk
    [("code", code_column false); ("name", name_column false)]
    (mkErrorMap {[1 := {["code" := [mkValidationError "from a hook"]]}]} None)
    true.

Definition two_column_rows : list (PyDict.t Value) :=
  [[("code", VInt 1); ("name", VStr "abcdef")];
   [("code", VInt 3); ("name", VStr "abc")]].

(** A value that a [float64] column holds exactly: a number of at most
    53 bits, and everything that is no number. *)
Definition exact_as_float (v : Value) : bool :=
  match v with
  | VInt z => Z.abs z <=? 2 ^ 53
  | _ => true
  end.

(** ** PandasModelForm: the validation fields *)

(** What [get_field], [handle_type], [handle_relation] and
    [handle_default] read of a field of the Django model: [attname] is
    the name of the attribute that holds the value, the name itself but
    for a [ForeignKey], where it is the name followed by [_id]; [label]
    is [str(field)], [default] is [None] for [NOT_PROVIDED], [choices]
    is empty when the field has none, and [related_ids] is what the
    query for the ids of the related model returns. *)
Module Field.
Record t : Type := mk {
  name : string;
  attname : string;
  label : string;
  type_name : string;
  max_length : option Z;
  choices : list (Value * string);
  null : bool;
  blank : bool;
  default : option Value;
  related_ids : list Value
}.
End Field.

(** [self.model._meta.get_field(item)] over the forward fields of the
    model, in their order: a field answers to its name and to its
    attribute name, and of two fields that answer to [item] the later
    one is found, as in the dictionary Django fills field after field.
    [None] stands for the exception [FieldDoesNotExist]. *)
Definition answers_to (item : string) (fld : Field.t) : bool :=
  String.eqb (Field.name fld) item || String.eqb (Field.attname fld) item.

Definition get_field (model : list Field.t) (item : string) : option Field.t :=
  List.find (answers_to item) (rev model).

(** [list(dict(choices).keys())]: the keys, each once, in the order of
    their first occurrence. *)
Definition choice_keys (choices : list (Value * string)) : list Value :=
  fold_left (λ acc kv, if bool_decide (kv.1 ∈ acc) then acc else acc ++ [kv.1])
            choices [].

Definition is_relation (fld : Field.t) : bool :=
  bool_decide (Field.type_name fld ∈ ["ForeignKey"; "ManyToManyField"]).

(** [handle_relation], with [cached_relations] passed along. *)
Definition handle_relation (cached_relations : PyDict.t (list Check))
    (curr_field : Field.t) : list Check * PyDict.t (list Check) :=
  match PyDict.get (Field.label curr_field) cached_relations with
  | Some cs => (cs, cached_relations)
  | None =>
      let cs := [IsInCheck (Field.name curr_field)
                           (Field.related_ids curr_field)] in
      (cs, PyDict.set (Field.label curr_field) cs cached_relations)
  end.

Definition handle_type (cached_relations : PyDict.t (list Check))
    (curr_field : Field.t)
    : PandasValidationColumn.t * PyDict.t (list Check) :=
  let checks1 :=
    match Field.max_length curr_field with
    | Some n =>
        if Z.eqb n 0 then [] else [LengthCheck (Field.name curr_field) n]
    | None => []
    end in
  let '(rel, cache) :=
    if is_relation curr_field then handle_relation cached_relations curr_field
    else ([], cached_relations) in
  let checks2 := checks1 ++ rel in
  let checks3 :=
    match Field.choices curr_field with
    | [] => checks2
    | _ :: _ =>
        checks2 ++ [IsInCheck (Field.name curr_field)
                              (choice_keys (Field.choices curr_field))]
    end in
  let coerce :=
    bool_decide (Field.type_name curr_field
                 ∈ ["DecimalField"; "ForeignKey"; "ManyToManyField"]) in
  (PandasValidationColumn.init (Field.name curr_field) checks3 coerce
     (Field.null curr_field || Field.blank curr_field),
   cache).

(** The loop of [init_validation_types], from the dictionary and the
    cache built so far. *)
Fixpoint validation_types (model : list Field.t) (fields : list string)
    (cache_dict : PyDict.t PandasValidationColumn.t)
    (cached_relations : PyDict.t (list Check))
    : option (PyDict.t PandasValidationColumn.t * PyDict.t (list Check)) :=
  match fields with
  | [] => Some (cache_dict, cached_relations)
  | item :: fields' =>
      match get_field model item with
      | None => None
      | Some curr_field =>
          let '(col, cache) := handle_type cached_relations curr_field in
          validation_types model fields' (PyDict.set item col cache_dict) cache
      end
  end.

Definition init_validation_types (model : list Field.t) (fields : list string)
    : option (PyDict.t PandasValidationColumn.t * PyDict.t (list Check)) :=
  validation_types model fields [] [].

(** [PandasModelForm.handle_default]: the default of the field when one
    is provided, [None] otherwise.  For a name that is no field of the
    model the source raises; the constructor has raised before for such
    a name among the fields. *)
Definition PandasModelForm_handle_default (model : list Field.t)
    (item : string) : Value :=
  match get_field model item with
  | Some curr_field =>
      match Field.default curr_field with
      | Some d => d
      | None => VNone
      end
  | None => VNone
  end.

(** The constructor of a [PandasModelForm] over a model, with
    [Meta.fields] and the hooks of the subclass; [None] when
    [init_validation_types] raises. *)
Definition PandasModelForm_new (model : list Field.t) (fields : list string)
    (hooks : string → option (PyDict.t Value → HookResult))
    (data : list (PyDict.t Value)) : option PandasForm.t :=
  match init_validation_types model fields with
  | Some (validation_fields, _) =>
      Some (PandasModelForm_init
              (mkFormClass fields (PandasModelForm_handle_default model) hooks)
              validation_fields data)
  | None => None
  end.

(** The entries of the dictionary built by the loop: a key [k] holds the
    column of the field that [k] resolves to, named after that field. *)
Definition columns_named (model : list Field.t)
    (cache_dict : PyDict.t PandasValidationColumn.t) : Prop :=
  ∀ k col, PyDict.get k cache_dict = Some col →
    ∃ fld, get_field model k = Some fld
           ∧ PandasValidationColumn.name col = Field.name fld
           ∧ PandasValidationColumn.errors col = ∅
           ∧ PandasValidationColumn.nullable col
             = Field.null fld || Field.blank fld.

(** The checks the cache holds target the field they were made for. *)
Definition cache_targets (model : list Field.t)
    (cache : PyDict.t (list Check)) : Prop :=
  ∀ lbl cs, PyDict.get lbl cache = Some cs →
    ∃ fld, fld ∈ model ∧ Field.label fld = lbl
           ∧ Forall (λ c, field_name c = Field.name fld) cs.

(** A model with a title of at most 5 characters, a status with two
    choices and an owner that refers to the users 7 and 8. *)
Definition book_model : list Field.t :=
  [Field.mk "title" "title" "shop.Book.title" "CharField" (Some 5) []
     false false None [];
   Field.mk "status" "status" "shop.Book.status" "CharField" (Some 1)
     [(VStr "d", "Draft"); (VStr "p", "Published")] false true
     (Some (VStr "d")) [];
   Field.mk "owner" "owner_id" "shop.Book.owner" "ForeignKey" None [] true
     false None [VInt 7; VInt 8]].

(** A row of a book without status. *)
Definition book_rows : list (PyDict.t Value) :=
  [[("title", VStr "Emma"); ("status", VStr "")]].

(** * Properties *)

(** ** [add_error] *)

Lemma ensure_row_lookup (idx j : Z) (rows : gmap Z FieldErrors) :
  ensure_row idx rows !! j
  = if decide (idx = j) then Some (default ∅ (rows !! idx)) else rows !! j.
Proof.
  unfold ensure_row. destruct (rows !! idx) as [fe|] eqn:E.
  - case_decide; subst; simpl; by rewrite ?E.
  - rewrite lookup_insert. by case_decide.
Qed.

Lemma append_field_error_lookup (item k : string) (e : ValidationError)
    (row : FieldErrors) :
  append_field_error item e row !! k
  = if decide (item = k) then Some (default [] (row !! item) ++ [e])
    else row !! k.
Proof.
  unfold append_field_error. destruct (row !! item) as [l|] eqn:E;
    rewrite lookup_insert; case_decide; subst; by rewrite ?E.
Qed.

Lemma record_error_cell (idx j : Z) (item k : string) (e : ValidationError)
    (em : ErrorMap) :
  cell_errors (em_rows (PandasForm.record_error idx item e em)) j k
  = if decide (idx = j ∧ item = k) then cell_errors (em_rows em) j k ++ [e]
    else cell_errors (em_rows em) j k.
Proof.
  unfold cell_errors, PandasForm.record_error. simpl.
  rewrite lookup_alter.
  destruct (decide (idx = j)) as [->|Hne].
  - rewrite ensure_row_lookup, decide_True by done. simpl.
    rewrite append_field_error_lookup.
    destruct (decide (item = k)) as [->|Hk].
    + rewrite decide_True by done. by destruct (em_rows em !! j).
    + rewrite decide_False by tauto.
      destruct (em_rows em !! j); simpl; [done|]. by rewrite lookup_empty.
  - rewrite ensure_row_lookup, !decide_False by tauto. done.
Qed.

(** With a row index other than 0 the error is appended to the list of
    [errors[row][field]], the entries being created when missing. *)
Lemma add_error_appends (f : PandasForm.t) (field : string) (error : string)
    (row : Z) :
  row ≠ 0 → field ≠ "" →
  let f' := PandasForm.add_error f (Some field) error (Some row) in
  cell_errors (em_rows (PandasForm.errors f')) row field
  = cell_errors (em_rows (PandasForm.errors f)) row field
    ++ [mkValidationError error].
Proof.
  intros Hrow Hfield. simpl.
  assert (Hw : ∀ em, PandasForm.errors (PandasForm.with_errors f em) = em).
  { intros em. unfold PandasForm.errors, PandasForm.with_errors.
    destruct (PandasForm.errors_is_schema f) eqn:E1;
      destruct (PandasForm.schema f) eqn:E2; simpl; by rewrite ?E1, ?E2. }
  unfold PandasForm.add_error. rewrite Hw.
  unfold PandasForm.add_error_map, PandasForm.row_key, PandasForm.row_truthy,
    PandasForm.field_truthy.
  destruct (Z.eqb_spec row 0) as [|_]; [done|].
  destruct (String.eqb_spec field "") as [|_]; [done|]. simpl.
  pose proof (record_error_cell row row field field (mkValidationError error)
                (PandasForm.errors f)) as H.
  unfold PandasForm.record_error in H. simpl in H. rewrite H.
  by rewrite decide_True.
Qed.

(** C2 (row index 0).  [add_error("email", "bad format", row=0)] followed
    by [add_error("email", "also bad", row=0)] on a new form leaves row 0
    without any entry: both messages are in the list under ['__all__'],
    because [if row] is false for the index 0. *)
Theorem add_error_row_zero (cls : FormClass) (data : list (PyDict.t Value)) :
  let f0 := PandasForm.init cls data in
  let f1 := PandasForm.add_error f0 (Some "email") "bad format" (Some 0) in
  let f2 := PandasForm.add_error f1 (Some "email") "also bad" (Some 0) in
  em_rows (PandasForm.errors f2) !! 0 = None
  ∧ cell_errors (em_rows (PandasForm.errors f2)) 0 "email" = []
  ∧ em_all (PandasForm.errors f2)
    = Some [mkValidationError "bad format"; mkValidationError "also bad"].
Proof. simpl. repeat split; reflexivity. Qed.

(** The same two calls with the row index 1 give the list the claim
    describes. *)
Example add_error_row_one (cls : FormClass) (data : list (PyDict.t Value)) :
  let f0 := PandasForm.init cls data in
  let f1 := PandasForm.add_error f0 (Some "email") "bad format" (Some 1) in
  let f2 := PandasForm.add_error f1 (Some "email") "also bad" (Some 1) in
  cell_errors (em_rows (PandasForm.errors f2)) 1 "email"
  = [mkValidationError "bad format"; mkValidationError "also bad"].
Proof.
  intros f0 f1 f2. unfold f2, f1.
  rewrite !add_error_appends by done. reflexivity.
Qed.

(** ** [is_valid] on a new instance *)

Lemma PandasModelForm_init_no_fields (cls : FormClass)
    (data : list (PyDict.t Value)) :
  PandasModelForm_init cls [] data = PandasForm.init cls data.
Proof. reflexivity. Qed.

(** C1.  A new form has [cached_valid = True], so [is_valid] returns
    [True] at once, whatever the rows, the fields and the hooks are, and
    although no schema is attached; the instance is left as it was. *)
Theorem is_valid_new_form_true (cls : FormClass) (data : list (PyDict.t Value)) :
  PandasForm.schema (PandasForm.init cls data) = None
  ∧ PandasForm.is_valid cls (PandasForm.init cls data)
    = Ok (Some true, PandasForm.init cls data)
  ∧ PandasForm.is_valid cls (PandasModelForm_init cls [] data)
    = Ok (Some true, PandasModelForm_init cls [] data).
Proof. repeat split. Qed.

(** The branch written for a form without schema: were [cached_valid]
    [None], the verdict would be [False]. *)
Lemma is_valid_uncomputed_no_schema (cls : FormClass) (f : PandasForm.t) :
  PandasForm.cached_valid f = None →
  PandasForm.schema f = None →
  PandasForm.is_valid cls f = Ok (Some false, PandasForm._clean_data cls f).
Proof.
  intros Hc Hs. unfold PandasForm.is_valid. rewrite Hc.
  unfold PandasForm._clean_data. rewrite Hs.
  by destruct (PandasForm.clean_rows _ _ _ _ _ _ _ _) as [[[? ?] ?] ?].
Qed.

(** ** The flag kept by [_clean_data] *)

Section CleaningFlag.
Variable cls : FormClass.

(** Two runs of the loop body on the same cleaned row take the same
    branch: both raise or none does. *)
Lemma clean_field_sim (idx idx' : Z) (values : PyDict.t Value)
    (st st' : PandasForm.CleanState) (item : string) :
  PandasForm.cs_row st = PandasForm.cs_row st' →
  ∃ b : bool,
    PandasForm.cs_row (PandasForm.clean_field cls idx values st item)
    = PandasForm.cs_row (PandasForm.clean_field cls idx' values st' item)
    ∧ PandasForm.cs_valid (PandasForm.clean_field cls idx values st item)
      = (if b then Some false else PandasForm.cs_valid st)
    ∧ PandasForm.cs_valid (PandasForm.clean_field cls idx' values st' item)
      = (if b then Some false else PandasForm.cs_valid st').
Proof.
  intros Hrow. unfold PandasForm.clean_field. rewrite Hrow.
  destruct (clean_hook cls item) as [func|]; [|by exists false].
  destruct (func _); [by exists false | by exists true].
Qed.

Lemma clean_fields_sim (idx idx' : Z) (values : PyDict.t Value)
    (fields : list string) (st st' : PandasForm.CleanState) :
  PandasForm.cs_row st = PandasForm.cs_row st' →
  ∃ b : bool,
    PandasForm.cs_row (fold_left (PandasForm.clean_field cls idx values) fields st)
    = PandasForm.cs_row
        (fold_left (PandasForm.clean_field cls idx' values) fields st')
    ∧ PandasForm.cs_valid
        (fold_left (PandasForm.clean_field cls idx values) fields st)
      = (if b then Some false else PandasForm.cs_valid st)
    ∧ PandasForm.cs_valid
        (fold_left (PandasForm.clean_field cls idx' values) fields st')
      = (if b then Some false else PandasForm.cs_valid st').
Proof.
  revert st st'. induction fields as [|item fields IH]; intros st st' Hrow.
  - by exists false.
  - destruct (clean_field_sim idx idx' values st st' item Hrow)
      as (b1 & Hr & Hv & Hv').
    destruct (IH _ _ Hr) as (b2 & Hr2 & Hv2 & Hv2').
    exists (b1 || b2). simpl. rewrite Hr2, Hv2, Hv2', Hv, Hv'.
    by destruct b1, b2.
Qed.

Lemma clean_rows_sim (fields : list string) (rows : list (PyDict.t Value)) :
  ∀ (idx idx' : Z) (cleaned : list (PyDict.t Value)) (em em' : ErrorMap)
    (valid valid' : option bool) (calls calls' : nat),
  ∃ b : bool,
    (PandasForm.clean_rows cls fields idx rows cleaned em valid calls).1.1.1
    = (PandasForm.clean_rows cls fields idx' rows cleaned em' valid' calls').1.1.1
    ∧ (PandasForm.clean_rows cls fields idx rows cleaned em valid calls).1.2
      = (if b then Some false else valid)
    ∧ (PandasForm.clean_rows cls fields idx' rows cleaned em' valid' calls').1.2
      = (if b then Some false else valid').
Proof.
  induction rows as [|values rows IH]; intros.
  - by exists false.
  - simpl. unfold PandasForm.clean_row.
    destruct (clean_fields_sim idx idx' values fields
                (PandasForm.mkCleanState [] em valid calls)
                (PandasForm.mkCleanState [] em' valid' calls') eq_refl)
      as (b1 & Hr & Hv & Hv').
    rewrite Hr.
    edestruct IH as (b2 & Hc & Hv2 & Hv2').
    exists (b1 || b2). rewrite Hc, Hv2, Hv2', Hv, Hv'. simpl.
    by destruct b1, b2.
Qed.

Lemma record_error_nonempty (idx : Z) (item : string) (e : ValidationError)
    (em : ErrorMap) :
  em_rows (PandasForm.record_error idx item e em) ≠ ∅.
Proof.
  intros H. apply (f_equal (λ m, m !! idx)) in H. revert H.
  unfold PandasForm.record_error. simpl.
  rewrite lookup_alter_eq, ensure_row_lookup, decide_True by done.
  by rewrite lookup_empty.
Qed.

Lemma clean_field_tracks (v0 : option bool) (idx : Z)
    (values : PyDict.t Value) (st : PandasForm.CleanState) (item : string) :
  flag_tracks v0 (PandasForm.cs_errors st) (PandasForm.cs_valid st) →
  flag_tracks v0
    (PandasForm.cs_errors (PandasForm.clean_field cls idx values st item))
    (PandasForm.cs_valid (PandasForm.clean_field cls idx values st item)).
Proof.
  intros H. unfold PandasForm.clean_field.
  destruct (clean_hook cls item) as [func|]; [|done].
  destruct (func _); [done|]. right. simpl.
  split; [apply record_error_nonempty | done].
Qed.

Lemma clean_fields_tracks (v0 : option bool) (idx : Z)
    (values : PyDict.t Value) (fields : list string)
    (st : PandasForm.CleanState) :
  flag_tracks v0 (PandasForm.cs_errors st) (PandasForm.cs_valid st) →
  flag_tracks v0
    (PandasForm.cs_errors
       (fold_left (PandasForm.clean_field cls idx values) fields st))
    (PandasForm.cs_valid
       (fold_left (PandasForm.clean_field cls idx values) fields st)).
Proof.
  revert st. induction fields as [|item fields IH]; intros st H; [done|].
  simpl. apply IH. by apply clean_field_tracks.
Qed.

Lemma clean_rows_tracks (v0 : option bool) (fields : list string)
    (rows : list (PyDict.t Value)) :
  ∀ (idx : Z) (cleaned : list (PyDict.t Value)) (em : ErrorMap)
    (valid : option bool) (calls : nat),
  flag_tracks v0 em valid →
  flag_tracks v0
    (PandasForm.clean_rows cls fields idx rows cleaned em valid calls).1.1.2
    (PandasForm.clean_rows cls fields idx rows cleaned em valid calls).1.2.
Proof.
  induction rows as [|values rows IH]; intros idx cleaned em valid calls H;
    [done|].
  simpl. apply IH. unfold PandasForm.clean_row.
  by apply clean_fields_tracks.
Qed.

End CleaningFlag.

(** ** Instances reached from a constructor *)

Lemma with_errors_errors (f : PandasForm.t) (em : ErrorMap) :
  PandasForm.errors (PandasForm.with_errors f em) = em.
Proof.
  unfold PandasForm.errors, PandasForm.with_errors.
  destruct (PandasForm.errors_is_schema f) eqn:E1;
    destruct (PandasForm.schema f) eqn:E2; simpl; by rewrite ?E1, ?E2.
Qed.

Lemma with_errors_keeps (f : PandasForm.t) (em : ErrorMap) :
  PandasForm.fields (PandasForm.with_errors f em) = PandasForm.fields f
  ∧ PandasForm.data (PandasForm.with_errors f em) = PandasForm.data f
  ∧ PandasForm.cached_valid (PandasForm.with_errors f em)
    = PandasForm.cached_valid f
  ∧ PandasForm.hook_calls (PandasForm.with_errors f em)
    = PandasForm.hook_calls f
  ∧ PandasValidationFrame.cached_fields
      <$> PandasForm.schema (PandasForm.with_errors f em)
    = PandasValidationFrame.cached_fields <$> PandasForm.schema f.
Proof.
  unfold PandasForm.with_errors.
  destruct (PandasForm.errors_is_schema f);
    destruct (PandasForm.schema f) eqn:E; simpl; by rewrite ?E.
Qed.

Lemma clean_data_spec (cls : FormClass) (f : PandasForm.t) :
  let r := PandasForm.clean_rows cls (PandasForm.fields f) 0 (PandasForm.data f)
             [] (schema_errors f) (PandasForm.cached_valid f)
             (PandasForm.hook_calls f) in
  PandasForm.fields (PandasForm._clean_data cls f) = PandasForm.fields f
  ∧ PandasForm.data (PandasForm._clean_data cls f) = PandasForm.data f
  ∧ PandasForm.cached_valid (PandasForm._clean_data cls f) = r.1.2
  ∧ PandasForm.errors (PandasForm._clean_data cls f) = r.1.1.2
  ∧ PandasForm.cleaned_data (PandasForm._clean_data cls f) = Some r.1.1.1
  ∧ PandasForm.hook_calls (PandasForm._clean_data cls f) = r.2.
Proof.
  unfold PandasForm._clean_data, schema_errors, PandasForm.errors.
  destruct (PandasForm.schema f) as [s|];
    destruct (PandasForm.clean_rows _ _ _ _ _ _ _ _) as [[[? ?] ?] ?];
    simpl; done.
Qed.

Section Reachable.
Variable cls : FormClass.
Variable validation_fields : PyDict.t PandasValidationColumn.t.
Variable data : list (PyDict.t Value).

(** The new instance; without validation fields it is a plain
    [PandasForm]. *)
Local Abbreviation f0 := (PandasModelForm_init cls validation_fields data).

Lemma schema_errors_f0 : schema_errors f0 = empty_errors.
Proof. unfold schema_errors. simpl. by destruct validation_fields. Qed.

Lemma clean_data_flag (f : PandasForm.t) :
  PandasForm.fields f = PandasForm.fields f0 →
  PandasForm.data f = PandasForm.data f0 →
  (hook_failure cls validation_fields data →
   PandasForm.cached_valid (PandasForm._clean_data cls f) = Some false)
  ∧ (¬ hook_failure cls validation_fields data →
     PandasForm.cached_valid (PandasForm._clean_data cls f)
     = PandasForm.cached_valid f).
Proof.
  intros Hf Hd. unfold hook_failure.
  destruct (clean_data_spec cls f) as (_ & _ & Hv & _).
  destruct (clean_data_spec cls f0) as (_ & _ & Hv0 & He0 & _).
  rewrite Hv, He0, Hf, Hd. clear Hv He0.
  edestruct (clean_rows_sim cls (PandasForm.fields f0) (PandasForm.data f0)
               0 0 [] (schema_errors f) (schema_errors f0)
               (PandasForm.cached_valid f) (PandasForm.cached_valid f0)
               (PandasForm.hook_calls f) (PandasForm.hook_calls f0))
    as (b & _ & Hb & Hb0).
  rewrite Hb.
  pose proof (clean_rows_tracks cls (Some true) (PandasForm.fields f0)
                (PandasForm.data f0) 0 [] (schema_errors f0)
                (PandasForm.cached_valid f0) (PandasForm.hook_calls f0)) as Ht.
  rewrite schema_errors_f0 in *.
  destruct Ht as [[He Hv']|[He Hv']]; [by left| |].
  - rewrite Hb0 in Hv'. destruct b; [done|]. split; [by rewrite He|done].
  - rewrite Hb0 in Hv'. destruct b; [done|]. done.
Qed.

Lemma reached_f0 : reached cls validation_fields data false f0.
Proof.
  repeat split. exists true. split; [done|]. split; [done|]. by intros [? _].
Qed.

Lemma reached_is_valid (seen : bool) (f : PandasForm.t) :
  reached cls validation_fields data seen f →
  ∃ v : bool, PandasForm.is_valid cls f = Ok (Some v, f)
              ∧ (v = false ↔
                 seen = true ∧ hook_failure cls validation_fields data).
Proof.
  intros (_ & _ & v & Hv & Hiff). exists v. split; [|done].
  unfold PandasForm.is_valid. by rewrite Hv.
Qed.

Lemma reached_step (seen : bool) (f : PandasForm.t) (op : Op) :
  reached cls validation_fields data seen f →
  ∃ f', step cls f op = Ok f'
        ∧ reached cls validation_fields data (seen || is_clean_op op) f'.
Proof.
  intros Hr. destruct op as [|field error row|]; simpl.
  - eexists; split; [done|]. destruct Hr as (Hf & Hd & v & Hv & Hiff).
    destruct (clean_data_spec cls f) as (Hf' & Hd' & _).
    destruct (clean_data_flag f Hf Hd) as [Hyes Hno].
    rewrite orb_true_r. split; [congruence|]. split; [congruence|].
    destruct (decide (em_rows (PandasForm.errors
                                 (PandasForm._clean_data cls f0)) = ∅))
      as [He|He].
    + exists v. split; [by rewrite Hno, Hv by (by intros H)|].
      rewrite Hiff. unfold hook_failure. tauto.
    + exists false. split; [by apply Hyes|]. done.
  - eexists; split; [done|]. rewrite orb_false_r.
    destruct Hr as (Hf & Hd & Hv).
    unfold reached, PandasForm.add_error.
    destruct (with_errors_keeps f
                (PandasForm.add_error_map field error row
                   (PandasForm.errors f))) as (-> & -> & -> & _).
    done.
  - destruct (reached_is_valid seen f Hr) as (v & -> & _). simpl.
    eexists; split; [done|]. by rewrite orb_false_r.
Qed.

Lemma reached_run (ops : list Op) :
  ∀ (seen : bool) (f : PandasForm.t),
  reached cls validation_fields data seen f →
  ∃ f', run cls ops f = Ok f'
        ∧ reached cls validation_fields data (seen || existsb is_clean_op ops) f'.
Proof.
  induction ops as [|op ops IH]; intros seen f Hr; simpl.
  - exists f. by rewrite orb_false_r.
  - destruct (reached_step seen f op Hr) as (f1 & -> & Hr1). simpl.
    destruct (IH _ _ Hr1) as (f' & Hrun & Hr').
    exists f'. split; [done|]. by rewrite orb_assoc.
Qed.

(** Calls other than [_clean_data] invoke no hook and leave the flag
    and the column validators as they are. *)
Lemma public_run_keeps (ops : list Op) :
  ∀ (seen : bool) (f : PandasForm.t),
  reached cls validation_fields data seen f →
  existsb is_clean_op ops = false →
  ∃ f', run cls ops f = Ok f'
        ∧ PandasForm.cached_valid f' = PandasForm.cached_valid f
        ∧ PandasForm.hook_calls f' = PandasForm.hook_calls f
        ∧ PandasValidationFrame.cached_fields <$> PandasForm.schema f'
          = PandasValidationFrame.cached_fields <$> PandasForm.schema f.
Proof.
  induction ops as [|op ops IH]; intros seen f Hr Hops; simpl.
  - by exists f.
  - simpl in Hops. apply orb_false_iff in Hops as [Hop Hops].
    destruct (reached_step seen f op Hr) as (f1 & Hstep & Hr1).
    rewrite Hstep. simpl.
    destruct (IH _ _ Hr1 Hops) as (f' & Hrun & Hv & Hc & Hs).
    exists f'. split; [done|]. rewrite Hv, Hc, Hs.
    destruct op as [|field error row|]; [done| |].
    + simpl in Hstep. injection Hstep as <-. unfold PandasForm.add_error.
      destruct (with_errors_keeps f
                  (PandasForm.add_error_map field error row
                     (PandasForm.errors f))) as (_ & _ & -> & -> & ->).
      done.
    + simpl in Hstep.
      destruct (reached_is_valid seen f Hr) as (v & Hv' & _).
      rewrite Hv' in Hstep. simpl in Hstep. by injection Hstep as <-.
Qed.

End Reachable.

(** C3 (an error added by hand).  On every new instance, whatever the
    fields, the hooks, the column validators and the rows,
    [add_error(field, error, row)] records the error in the error map,
    under its row or under ['__all__'], and [is_valid] then returns
    [True]: [add_error] leaves [cached_valid] as the constructor set
    it, where the [except] branch of [_clean_data], which records an
    error of a hook, lowers it. *)
Theorem is_valid_true_after_add_error (cls : FormClass)
    (validation_fields : PyDict.t PandasValidationColumn.t)
    (data : list (PyDict.t Value))
    (field : option string) (error : string) (row : option Z) :
  let f := PandasForm.add_error
             (PandasModelForm_init cls validation_fields data)
             field error row in
  error_recorded (PandasForm.errors f)
  ∧ PandasForm.is_valid cls f = Ok (Some true, f).
Proof.
  cbv zeta. split.
  - unfold PandasForm.add_error. rewrite with_errors_errors.
    unfold PandasForm.add_error_map.
    destruct (PandasForm.row_key row) as [r|].
    + left. eexists r, _, (mkValidationError error).
      pose proof (record_error_cell r r) as H.
      unfold PandasForm.record_error in H. rewrite H.
      rewrite decide_True by done.
      apply elem_of_app. right. by apply list_elem_of_singleton.
    + right. destruct (em_all (PandasForm.errors _)) as [l|]; simpl.
      * eexists _, (mkValidationError error). split; [done|].
        apply elem_of_app. right. by apply list_elem_of_singleton.
      * eexists _, (mkValidationError error). split; [done|].
        by apply list_elem_of_singleton.
  - unfold PandasForm.is_valid, PandasForm.add_error.
    by destruct (with_errors_keeps
                   (PandasModelForm_init cls validation_fields data)
                   (PandasForm.add_error_map field error row
                      (PandasForm.errors
                         (PandasModelForm_init cls validation_fields data))))
      as (_ & _ & -> & _).
Qed.

(** The instance of the scenario: after
    [add_error("email", "bad format", row=1)] on a new form the error map
    holds an error, and [is_valid] returns [True]. *)
Lemma verdict_ignores_added_error :
  let f := PandasForm.add_error
             (PandasForm.init email_form [[("email", VStr "a@b")]])
             (Some "email") "bad format" (Some 1) in
  ¬ (∀ v f', PandasForm.is_valid email_form f = Ok (v, f') →
             (v = Some false ↔ error_recorded (PandasForm.errors f'))).
Proof.
  intros f H. specialize (H (Some true) f eq_refl).
  assert (Some true = Some false) as Habs; [|done].
  apply H. left. exists 1, "email", (mkValidationError "bad format").
  unfold f. rewrite add_error_appends by done.
  apply elem_of_app. right. by apply list_elem_of_singleton.
Qed.

(** A failure of a column check never reaches the verdict either: on a
    new model form whose rows hold the code 3, which the column's check
    refuses, [is_valid] returns [True] and leaves the instance as it
    was, the rows not cleaned and the checks not run. *)
Example column_failure_never_checked :
  let f := PandasModelForm_init (mkFormClass ["code"] PandasForm_handle_default
                                   (λ _, None))
             [("code", code_column false)] code_rows in
  PandasForm.is_valid (mkFormClass ["code"] PandasForm_handle_default
                         (λ _, None)) f
  = Ok (Some true, f)
  ∧ PandasForm.cleaned_data f = None
  ∧ PandasForm.errors f = empty_errors.
Proof. by vm_compute. Qed.

(** What the flag does follow.  After any sequence of calls of
    [_clean_data], [add_error] and [is_valid] on a new instance,
    [is_valid] returns a boolean, and it returns [False] exactly when
    [_clean_data] has been called and a cleaning pass over the rows
    records an error raised by a hook. *)
Theorem is_valid_false_iff_hook_error (cls : FormClass)
    (validation_fields : PyDict.t PandasValidationColumn.t)
    (data : list (PyDict.t Value)) (ops : list Op) :
  ∃ (f : PandasForm.t) (v : bool),
    run cls ops (PandasModelForm_init cls validation_fields data) = Ok f
    ∧ PandasForm.is_valid cls f = Ok (Some v, f)
    ∧ (v = false ↔
       OpCleanData ∈ ops ∧ hook_failure cls validation_fields data).
Proof.
  destruct (reached_run cls validation_fields data ops false _
              (reached_f0 cls validation_fields data)) as (f & Hrun & Hr).
  destruct (reached_is_valid cls validation_fields data _ f Hr)
    as (v & Hv & Hiff).
  exists f, v. split; [done|]. split; [done|]. rewrite Hiff. simpl.
  assert (existsb is_clean_op ops = true ↔ OpCleanData ∈ ops) as ->; [|done].
  rewrite existsb_exists. split.
  - intros (op & Hin & Hop). destruct op; try done.
    by apply list_elem_of_In.
  - intros Hin. exists OpCleanData. split; [by apply list_elem_of_In|done].
Qed.

(** C4.  On every instance reached from a constructor by calls of
    [_clean_data], [add_error] and [is_valid], [is_valid] returns a
    boolean [b] and leaves the whole instance as it was: a second call
    returns [b] again, the count of hook calls and the column validators
    being untouched.  The same [b] is returned after any further calls
    of [add_error] and [is_valid], none of which invokes a hook. *)
Theorem is_valid_twice_same (cls : FormClass)
    (validation_fields : PyDict.t PandasValidationColumn.t)
    (data : list (PyDict.t Value)) (ops : list Op) :
  ∃ (f : PandasForm.t) (b : bool),
    run cls ops (PandasModelForm_init cls validation_fields data) = Ok f
    ∧ PandasForm.is_valid cls f = Ok (Some b, f)
    ∧ (r ← PandasForm.is_valid cls f; PandasForm.is_valid cls r.2)
      = Ok (Some b, f)
    ∧ ∀ ops' : list Op,
        existsb is_clean_op ops' = false →
        ∃ f', run cls ops' f = Ok f'
              ∧ PandasForm.is_valid cls f' = Ok (Some b, f')
              ∧ PandasForm.hook_calls f' = PandasForm.hook_calls f
              ∧ PandasValidationFrame.cached_fields <$> PandasForm.schema f'
                = PandasValidationFrame.cached_fields <$> PandasForm.schema f.
Proof.
  destruct (reached_run cls validation_fields data ops false _
              (reached_f0 cls validation_fields data)) as (f & Hrun & Hr).
  destruct (reached_is_valid cls validation_fields data _ f Hr)
    as (b & Hv & _).
  exists f, b. split; [done|]. split; [done|]. split.
  { rewrite Hv. simpl. exact Hv. }
  intros ops' Hops.
  destruct (public_run_keeps cls validation_fields data ops' _ f Hr Hops)
    as (f' & Hrun' & Hc & Hh & Hs).
  exists f'. split; [done|]. split; [|split; assumption].
  destruct Hr as (_ & _ & v & Hcv & _).
  unfold PandasForm.is_valid in *. rewrite Hc. rewrite Hcv in *.
  by injection Hv as ->.
Qed.

(** ** The checks *)

Lemma getitem_cell (df : Pd.DataFrame) (name : string) (col : list Pd.Cell) :
  Pd.getitem name df = Ok col →
  length col = length (Pd.rows df) ∧ ∀ i, col !! i = cell_at df name i.
Proof.
  unfold Pd.getitem, cell_at.
  destruct (Pd.position name (Pd.columns df)) as [j|]; [|done].
  intros [= <-]. split; [by rewrite length_map|].
  intros i. by rewrite list_lookup_fmap.
Qed.

Lemma select_length {A} (mask : list bool) (l : list A) :
  (length (Pd.select mask l) ≤ length l)%nat.
Proof.
  revert l. induction mask as [|b mask IH]; intros [|x l]; simpl; try lia.
  specialize (IH l). destruct b; simpl; lia.
Qed.

(** Without [nullable] a check returns a boolean series with one entry
    per row of the frame. *)
Lemma validate_not_nullable (c : Check) (df : Pd.DataFrame) (v : Validation) :
  Check_validate c df false = Ok v →
  ∃ s, v = VSeries s ∧ truth_items v = s
       ∧ length s = length (Pd.rows df).
Proof.
  destruct c as [f l|f n]; simpl;
    unfold IsInCheck_validate, LengthCheck_validate; simpl;
    destruct (Pd.getitem f df) as [col|] eqn:E; simpl; try done;
    destruct (getitem_cell df f col E) as [Hlen _].
  - intros [= <-]. eexists; split; [done|]. split; [done|].
    unfold Pd.isin. by rewrite length_map.
  - unfold Pd.str_len. destruct (Pd.str_accessor_ok col); simpl; [|done].
    intros [= <-]. eexists; split; [done|]. split; [done|].
    unfold Pd.le_scalar. by rewrite !length_map.
Qed.

(** With [nullable] a check returns the frame indexed by a mask: its
    rows are some of the rows of the frame, and enumerating it visits
    the column labels, one item per column. *)
Lemma validate_nullable (c : Check) (df : Pd.DataFrame) (v : Validation) :
  Check_validate c df true = Ok v →
  ∃ df', v = VFrame df'
         ∧ Pd.columns df' = Pd.columns df
         ∧ (length (Pd.rows df') ≤ length (Pd.rows df))%nat
         ∧ length (truth_items v) = length (Pd.columns df).
Proof.
  destruct c as [f l|f n]; simpl;
    unfold IsInCheck_validate, LengthCheck_validate; simpl;
    destruct (Pd.getitem f df) as [col|] eqn:E; simpl; try done.
  - intros [= <-]. eexists; split; [done|]. simpl.
    split; [done|]. split; [apply select_length|].
    unfold Pd.iter_frame. by rewrite length_map.
  - destruct (Pd.str_len col); simpl; [|done].
    intros [= <-]. eexists; split; [done|]. simpl.
    split; [done|]. split; [apply select_length|].
    unfold Pd.iter_frame. by rewrite length_map.
Qed.

(** [IsInCheck] without [nullable]: the entry of row [i] tells whether
    the cell of that row is in the list, and the check returns whenever
    the frame has the column. *)
Lemma IsInCheck_validate_member (f : string) (l : list Value)
    (df : Pd.DataFrame) :
  is_Some (Pd.position f (Pd.columns df)) →
  ∃ s, Check_validate (IsInCheck f l) df false = Ok (VSeries s)
       ∧ length s = length (Pd.rows df)
       ∧ ∀ i c, cell_at df f i = Some c → s !! i = Some (Pd.cell_isin l c).
Proof.
  intros [j Hj]. simpl. unfold IsInCheck_validate.
  destruct (Pd.getitem f df) as [col|] eqn:E;
    [|unfold Pd.getitem in E; by rewrite Hj in E].
  destruct (getitem_cell df f col E) as [Hlen Hcell]. simpl.
  eexists; split; [done|]. unfold Pd.isin. split; [by rewrite length_map|].
  intros i c Hc. by rewrite list_lookup_fmap, Hcell, Hc.
Qed.

Lemma cell_isin_value (l : list Value) :
  (∀ z, Pd.cell_isin l (Pd.Int z) = true ↔ VInt z ∈ l)
  ∧ (∀ s, Pd.cell_isin l (Pd.Str s) = true ↔ VStr s ∈ l)
  ∧ (Pd.cell_isin l Pd.PyNone = true ↔ VNone ∈ l)
  ∧ Pd.cell_isin l Pd.NaN = false.
Proof. repeat split; simpl; try apply bool_decide_eq_true; done. Qed.

(** [LengthCheck] without [nullable]: when the [.str] accessor takes the
    column, the entry of a string cell tells whether its length is at
    most the maximum, and the entry of any other cell is false. *)
Lemma LengthCheck_validate_length (f : string) (n : Z) (df : Pd.DataFrame)
    (col : list Pd.Cell) :
  Pd.getitem f df = Ok col →
  Pd.str_accessor_ok col = true →
  ∃ s, Check_validate (LengthCheck f n) df false = Ok (VSeries s)
       ∧ length s = length (Pd.rows df)
       ∧ (∀ i str, cell_at df f i = Some (Pd.Str str) →
            s !! i = Some (bool_decide (Z.of_nat (Pd.py_len str) ≤ n)))
       ∧ (∀ i c, cell_at df f i = Some c → Pd.is_str c = false →
            s !! i = Some false).
Proof.
  intros E Hok. simpl. unfold LengthCheck_validate. rewrite E. simpl.
  unfold Pd.str_len. rewrite Hok. simpl.
  destruct (getitem_cell df f col E) as [Hlen Hcell].
  eexists; split; [done|]. unfold Pd.le_scalar.
  split; [by rewrite !length_map|]. split.
  - intros i str Hc. rewrite !list_lookup_fmap, Hcell, Hc. simpl.
    f_equal. destruct (Z.leb_spec (Z.of_nat (Pd.py_len str)) n).
    + by rewrite bool_decide_eq_true_2.
    + rewrite bool_decide_eq_false_2; [done|lia].
  - intros i c Hc Hstr. rewrite !list_lookup_fmap, Hcell, Hc. simpl.
    by destruct c.
Qed.

(** ** The column validator *)

Section ColumnValidator.
Import PandasValidationColumn.

Lemma handle_error_keeps (col : t) (check : Check) (index : Z) :
  name (handle_error col check index) = name col
  ∧ checks (handle_error col check index) = checks col
  ∧ nullable (handle_error col check index) = nullable col.
Proof. unfold handle_error. by destruct (errors col !! index). Qed.

(** [handle_error] appends the message of the check to the cell of
    row [index] and to no other cell of the column. *)
Lemma handle_error_cell (col : t) (check : Check) (index j : Z) :
  cell_errors (errors (handle_error col check index)) j (name col)
  = cell_errors (errors col) j (name col)
    ++ (if decide (j = index) then [get_error check] else []).
Proof.
  unfold handle_error, cell_errors.
  destruct (errors col !! index) as [row|] eqn:E; simpl;
    rewrite lookup_insert; destruct (decide (index = j)) as [<-|Hne].
  - rewrite decide_True, E by done. simpl.
    rewrite append_field_error_lookup, decide_True by done.
    by destruct (row !! name col).
  - rewrite decide_False by done. by rewrite app_nil_r.
  - rewrite decide_True, E by done. simpl. by rewrite lookup_singleton_eq.
  - rewrite decide_False by done. by rewrite app_nil_r.
Qed.

Lemma fails_at_cons (row : bool) (items : list bool) (index j : Z) :
  fails_at (row :: items) index j
  = (bool_decide (j = index) && negb row) || fails_at items (index + 1) j.
Proof.
  unfold fails_at. destruct (decide (j = index)) as [->|Hne].
  - rewrite (bool_decide_eq_true_2 (index = index)) by done.
    rewrite (bool_decide_eq_false_2 (index + 1 ≤ index ∧ _)) by lia.
    rewrite Z.sub_diag. simpl. rewrite orb_false_r.
    destruct row.
    + apply bool_decide_eq_false_2. by intros [_ [=]].
    + apply bool_decide_eq_true_2. split; [lia|done].
  - rewrite (bool_decide_eq_false_2 (j = index)) by done. simpl.
    apply bool_decide_ext. split.
    + intros [Hle Hl]. split; [lia|].
      replace (Z.to_nat (j - index)) with (S (Z.to_nat (j - (index + 1))))
        in Hl by lia. done.
    + intros [Hle Hl]. split; [lia|].
      replace (Z.to_nat (j - index)) with (S (Z.to_nat (j - (index + 1))))
        by lia. done.
Qed.

Lemma handle_items_spec (check : Check) (items : list bool) :
  ∀ (col : t) (index : Z),
  name (handle_items col check index items) = name col
  ∧ checks (handle_items col check index items) = checks col
  ∧ nullable (handle_items col check index items) = nullable col
  ∧ ∀ j, cell_errors (errors (handle_items col check index items)) j (name col)
         = cell_errors (errors col) j (name col)
           ++ (if fails_at items index j then [get_error check] else []).
Proof.
  induction items as [|row items IH]; intros col index; simpl.
  - repeat split. intros j. unfold fails_at.
    rewrite bool_decide_eq_false_2 by (by intros [_ ?]).
    by rewrite app_nil_r.
  - destruct (IH (if row then col else handle_error col check index)
                 (index + 1)) as (Hn & Hc & Hu & Hcell).
    pose proof (handle_error_keeps col check index) as (Hn' & Hc' & Hu').
    assert (name (if row then col else handle_error col check index)
            = name col) as Hname by (by destruct row).
    rewrite Hname in *.
    split; [by rewrite Hn|]. split; [by rewrite Hc; destruct row|].
    split; [by rewrite Hu; destruct row|].
    intros j. rewrite Hcell, fails_at_cons. destruct row; simpl.
    + by rewrite andb_false_r.
    + rewrite handle_error_cell, andb_true_r, <- app_assoc.
      f_equal. destruct (decide (j = index)) as [->|Hne].
      * rewrite bool_decide_eq_true_2 by done. simpl.
        unfold fails_at.
        by rewrite bool_decide_eq_false_2 by lia.
      * by rewrite bool_decide_eq_false_2 by done.
Qed.

Lemma validate_checks_spec (df : Pd.DataFrame) (cs : list Check) :
  ∀ (vs : list Validation) (col : t),
  Forall2 (λ c v, Check_validate c df (nullable col) = Ok v) cs vs →
  ∃ col', validate_checks col cs df = Ok col'
          ∧ name col' = name col
          ∧ checks col' = checks col
          ∧ nullable col' = nullable col
          ∧ ∀ j, cell_errors (errors col') j (name col)
                 = cell_errors (errors col) j (name col) ++ failures cs vs j.
Proof.
  induction cs as [|c cs IH]; intros vs col Hall.
  - inversion Hall; subst. exists col. repeat split.
    intros j. simpl. by rewrite app_nil_r.
  - inversion Hall as [|? v ? vs' Hv Hrest]; subst. simpl. rewrite Hv. simpl.
    destruct (handle_items_spec c (truth_items v) col 0)
      as (Hn & Hc & Hu & Hcell).
    destruct (IH vs' (handle_items col c 0 (truth_items v)))
      as (col' & Hval & Hn' & Hc' & Hu' & Hcell').
    { by rewrite Hu. }
    exists col'. split; [done|]. split; [congruence|].
    split; [congruence|]. split; [congruence|].
    intros j. rewrite <- Hn at 1. rewrite Hcell'. rewrite Hn, Hcell.
    by rewrite <- app_assoc.
Qed.

(** The messages counted from the vectors are those counted from what
    the validator enumerates, when every check returned a vector. *)
Lemma failures_vectors (cs : list Check) (ss : list (list bool)) (j : Z) :
  failures cs (VSeries <$> ss) j = vector_failures cs ss j.
Proof.
  revert ss. induction cs as [|c cs IH]; intros [|s ss]; simpl; try done.
  rewrite IH. unfold fails_at. by rewrite Z.sub_0_r.
Qed.

Lemma validate_vectors_spec (df : Pd.DataFrame) (ss : list (list bool))
    (col : t) :
  Forall2 (λ c s, Check_validate c df (nullable col) = Ok (VSeries s))
          (checks col) ss →
  ∃ col', validate col df = Ok col'
          ∧ name col' = name col
          ∧ checks col' = checks col
          ∧ nullable col' = nullable col
          ∧ ∀ j, cell_errors (errors col') j (name col)
                 = cell_errors (errors col) j (name col)
                   ++ vector_failures (checks col) ss j.
Proof.
  intros Hall.
  destruct (validate_checks_spec df (checks col) (VSeries <$> ss) col)
    as (col' & Hval & Hn & Hc & Hu & Hcell).
  { apply Forall2_fmap_r. by eapply Forall2_impl; [exact Hall|]. }
  exists col'. repeat split; try done.
  intros j. by rewrite Hcell, failures_vectors.
Qed.

End ColumnValidator.

(** X29.  When every check of a column validator returns a pass/fail
    vector, as every check that returns does without [nullable], the
    validator returns too, having run all its checks: the error list of
    row [j] under the column's name is the former list followed by the
    message of every check whose vector is [False] at [j], in the order
    of the checks. *)
Theorem column_validate_vectors (col : PandasValidationColumn.t)
    (df : Pd.DataFrame) (ss : list (list bool)) :
  Forall2 (λ c s, Check_validate c df (PandasValidationColumn.nullable col)
                  = Ok (VSeries s))
          (PandasValidationColumn.checks col) ss →
  ∃ col', PandasValidationColumn.validate col df = Ok col'
          ∧ PandasValidationColumn.name col' = PandasValidationColumn.name col
          ∧ ∀ j, cell_errors (PandasValidationColumn.errors col') j
                             (PandasValidationColumn.name col)
                 = cell_errors (PandasValidationColumn.errors col) j
                               (PandasValidationColumn.name col)
                   ++ vector_failures (PandasValidationColumn.checks col) ss j.
Proof.
  intros Hall.
  destruct (validate_vectors_spec df ss col Hall)
    as (col' & Hval & Hn & _ & _ & Hcell).
  exists col'. by repeat split.
Qed.

(** ** The validation frame *)

Section ValidationFrame.

Lemma bind_row_raise (idx : Z) (curr : FieldErrors) (e : PyExc) :
  PandasValidationFrame.bind_row idx curr (Raise e) = Raise e.
Proof.
  unfold PandasValidationFrame.bind_row.
  by apply (map_fold_weak_ind (λ r _, r = Raise e)); [|intros ???? _ ->].
Qed.

(** Binding the fields of one row: the row [idx] must exist, it takes
    the lists of [curr], and every other row is left alone. *)
Lemma bind_row_ok (idx : Z) (curr : FieldErrors)
    (rows rows' : gmap Z FieldErrors) :
  PandasValidationFrame.bind_row idx curr (Ok rows) = Ok rows' →
  (∀ j, j ≠ idx → rows' !! j = rows !! j)
  ∧ rows' !! idx = (λ fe, curr ∪ fe) <$> rows !! idx.
Proof.
  unfold PandasValidationFrame.bind_row. revert rows'.
  apply (map_fold_weak_ind
           (λ r m, ∀ rows', r = Ok rows' →
              (∀ j, j ≠ idx → rows' !! j = rows !! j)
              ∧ rows' !! idx = (λ fe, m ∪ fe) <$> rows !! idx)).
  - intros rows' [= <-]. split; [done|].
    destruct (rows !! idx); simpl; [|done]. by rewrite (left_id_L ∅ (∪)).
  - intros key val m r Hm IH rows'. destruct r as [rows1|e]; [|done].
    simpl. destruct (IH rows1 eq_refl) as [Hother Hidx].
    destruct (rows1 !! idx) as [fe1|] eqn:E1; [|done].
    intros [= <-]. split.
    + intros j Hj. by rewrite lookup_insert_ne, Hother by done.
    + rewrite lookup_insert_eq.
      destruct (rows !! idx) as [fe0|]; simpl in *; [|done].
      injection Hidx as ->. by rewrite insert_union_l.
Qed.

(** Binding the errors of a column: every row keeps its key, and row
    [j] takes the lists the column holds for [j]. *)
Lemma bind_errors_ok (rows errs rows' : gmap Z FieldErrors) :
  PandasValidationFrame.bind_errors rows errs = Ok rows' →
  ∀ j, rows' !! j = (λ fe, default ∅ (errs !! j) ∪ fe) <$> rows !! j.
Proof.
  unfold PandasValidationFrame.bind_errors. revert rows'.
  apply (map_fold_weak_ind
           (λ r m, ∀ rows', r = Ok rows' →
              ∀ j, rows' !! j = (λ fe, default ∅ (m !! j) ∪ fe) <$> rows !! j)).
  - intros rows' [= <-] j. rewrite lookup_empty. simpl.
    destruct (rows !! j); simpl; [|done]. by rewrite (left_id_L ∅ (∪)).
  - intros idx curr m r Hm IH rows' Hbind.
    destruct r as [rows1|e]; [|by rewrite bind_row_raise in Hbind].
    destruct (bind_row_ok idx curr rows1 rows' Hbind) as [Hother Hidx].
    intros j. destruct (decide (j = idx)) as [->|Hne].
    + rewrite Hidx, (IH rows1 eq_refl), Hm, lookup_insert_eq. simpl.
      destruct (rows !! idx); simpl; [|done].
      by rewrite (left_id_L ∅ (∪)).
    + by rewrite Hother, (IH rows1 eq_refl), lookup_insert_ne by done.
Qed.

Lemma init_errors_lookup (start stop : Z) (rows : gmap Z FieldErrors) (j : Z) :
  PandasValidationFrame.init_errors start stop rows !! j
  = if decide (start ≤ j < stop) then Some (default ∅ (rows !! j))
    else rows !! j.
Proof.
  unfold PandasValidationFrame.init_errors.
  assert (∀ (l : list Z) (m : gmap Z FieldErrors),
            fold_left (λ acc val, ensure_row val acc) l m !! j
            = if decide (j ∈ l) then Some (default ∅ (m !! j)) else m !! j)
    as Hfold.
  { induction l as [|x l IH]; intros m; cbn [fold_left].
    - case_decide as Hin; [by apply not_elem_of_nil in Hin|done].
    - rewrite IH, ensure_row_lookup.
      destruct (decide (x = j)) as [->|Hne].
      + rewrite (decide_True (P := j ∈ j :: l)) by apply list_elem_of_here.
        simpl. by destruct (decide (j ∈ l)).
      + destruct (decide (j ∈ l)) as [Hin|Hnin].
        * rewrite decide_True; [done|]. by apply list_elem_of_further.
        * rewrite decide_False; [done|].
          rewrite elem_of_cons. intros [?|?]; congruence. }
  rewrite Hfold.
  destruct (decide (start ≤ j < stop)) as [Hin|Hout].
  - rewrite decide_True; [done|]. apply elem_of_seqZ. lia.
  - rewrite decide_False; [done|]. rewrite elem_of_seqZ. lia.
Qed.

(** The loop over the columns: the keys of the error map are kept, a
    row for which the validated columns hold nothing is left as it
    was, and the flag falls when a column holds errors. *)
Lemma validate_fields_spec (df : Pd.DataFrame)
    (todo : PyDict.t PandasValidationColumn.t) :
  ∀ (done done' : PyDict.t PandasValidationColumn.t)
    (rows rows' : gmap Z FieldErrors) (valid valid' : bool),
  PandasValidationFrame.validate_fields done todo rows valid df
  = Ok (done', rows', valid') →
  ∃ cols,
    done' = done ++ cols
    ∧ map fst cols = map fst todo
    ∧ (∀ j, is_Some (rows' !! j) ↔ is_Some (rows !! j))
    ∧ (∀ j, (∀ nc, nc ∈ cols → PandasValidationColumn.errors nc.2 !! j = None)
            → rows' !! j = rows !! j)
    ∧ valid'
      = valid && forallb (λ nc, bool_decide
                                  (PandasValidationColumn.errors nc.2 = ∅))
                         cols.
Proof.
  induction todo as [|[name field] todo IH];
    intros done done' rows rows' valid valid'; simpl.
  - intros [= <- <- <-]. exists []. rewrite app_nil_r, andb_true_r.
    by repeat split.
  - destruct (PandasValidationColumn.validate field df) as [field'|];
      simpl; [|done].
    case_bool_decide as Hempty.
    + intros H. destruct (IH _ _ _ _ _ _ H)
        as (cols & -> & Hnames & Hdom & Hsame & ->).
      exists ((name, field') :: cols). rewrite <- app_assoc. simpl.
      split; [done|]. split; [by rewrite Hnames|]. split; [done|].
      split.
      * intros j Hj. apply Hsame. intros nc Hnc. apply Hj.
        by apply list_elem_of_further.
      * by rewrite bool_decide_eq_true_2.
    + destruct (PandasValidationFrame.bind_errors rows
                  (PandasValidationColumn.errors field')) as [rows1|] eqn:Hb;
        simpl; [|done].
      pose proof (bind_errors_ok _ _ _ Hb) as Hrows1.
      intros H. destruct (IH _ _ _ _ _ _ H)
        as (cols & -> & Hnames & Hdom & Hsame & ->).
      exists ((name, field') :: cols). rewrite <- app_assoc. simpl.
      split; [done|]. split; [by rewrite Hnames|]. split.
      { intros j. rewrite Hdom, Hrows1. by rewrite fmap_is_Some. }
      split.
      * intros j Hj. rewrite Hsame, Hrows1.
        -- pose proof (Hj (name, field') (list_elem_of_here _ _)) as Hx.
           simpl in Hx. rewrite Hx. simpl.
           destruct (rows !! j); simpl; [|done].
           by rewrite (left_id_L ∅ (∪)).
        -- intros nc Hnc. apply Hj. by apply list_elem_of_further.
      * rewrite bool_decide_eq_false_2 by done. simpl.
        by rewrite andb_false_r.
Qed.

End ValidationFrame.

(** C8.  When the frame's [validate] returns on a dataset whose index is
    [RangeIndex(start, stop)] (0 and N for a dataset of N rows), the
    merged error map has an entry for every row index of the range; the
    entry of a row that had none before and for which no column holds an
    error is the empty map. *)
Theorem frame_validate_dense (frame frame' : PandasValidationFrame.t)
    (df : Pd.DataFrame) (start stop : Z) :
  Pd.index df = Pd.RangeIndex start stop →
  PandasValidationFrame.validate frame df = Ok frame' →
  ∀ i, start ≤ i < stop →
    ∃ fe, em_rows (PandasValidationFrame.errors frame') !! i = Some fe
          ∧ (em_rows (PandasValidationFrame.errors frame) !! i = None →
             (∀ nc, nc ∈ PandasValidationFrame.cached_fields frame' →
                    PandasValidationColumn.errors nc.2 !! i = None) →
             fe = ∅).
Proof.
  intros Hidx Hval i Hi. unfold PandasValidationFrame.validate in Hval.
  rewrite Hidx in Hval.
  destruct (PandasValidationFrame.validate_fields _ _ _ _ _)
    as [[[fields rows'] valid']|] eqn:Hf; simpl in Hval; [|done].
  injection Hval as <-. simpl.
  destruct (validate_fields_spec _ _ _ _ _ _ _ _ Hf)
    as (cols & -> & _ & Hdom & Hsame & _).
  pose proof (init_errors_lookup start stop
                (em_rows (PandasValidationFrame.errors frame)) i) as Hinit.
  rewrite decide_True in Hinit by done.
  destruct (proj2 (Hdom i)) as [fe Hfe]; [by rewrite Hinit|].
  exists fe. split; [done|]. intros Hnone Hcols.
  rewrite Hsame, Hinit, Hnone in Hfe by done. by injection Hfe as <-.
Qed.

(** ** The scenarios *)

(** Codes 1, 3, 2 against the candidates 1 and 2, without [nullable]:
    the frame's [validate] records row 1 under ["code"], leaves rows 0
    and 2 with an empty entry, and sets [valid] to [False]. *)
Example code_scenario :
  ∃ frame',
    PandasValidationFrame.validate (code_frame false) (Pd.from_records code_rows)
    = Ok frame'
    ∧ PandasValidationFrame.valid frame' = false
    ∧ em_rows (PandasValidationFrame.errors frame') !! 0 = Some ∅
    ∧ cell_errors (em_rows (PandasValidationFrame.errors frame')) 1 "code"
      = [get_error (IsInCheck "code" [VInt 1; VInt 2])]
    ∧ em_rows (PandasValidationFrame.errors frame') !! 2 = Some ∅.
Proof. eexists. split; [vm_compute; reflexivity|]. by vm_compute. Qed.

(** Names ["abc"] and ["abcdef"] with the maximum length 5, without
    [nullable]: row 1 fails, with the message written for 5. *)
Example name_scenario :
  ∃ col',
    PandasValidationColumn.validate (name_column false)
      (Pd.from_records name_rows) = Ok col'
    ∧ PandasValidationColumn.errors col' !! 0 = None
    ∧ cell_errors (PandasValidationColumn.errors col') 1 "name"
      = [mkValidationError
           "Komórka przekracza maksymalną długość (5 znaków)!"].
Proof. eexists. split; [vm_compute; reflexivity|]. by vm_compute. Qed.

(** C5 (nullable set).  With [nullable] both checks return the frame
    indexed by their mask instead of a vector: for the three rows of
    codes and the two rows of names the result has no row, and its
    enumeration yields one item, the column label, not one per row. *)
Theorem nullable_validate_not_a_vector :
  Check_validate (IsInCheck "code" [VInt 1; VInt 2])
    (Pd.from_records code_rows) true
  = Ok (VFrame (Pd.mkDataFrame ["code"] (Pd.Int64Index []) []))
  ∧ Check_validate (LengthCheck "name" 5) (Pd.from_records name_rows) true
    = Ok (VFrame (Pd.mkDataFrame ["name"] (Pd.Int64Index []) []))
  ∧ truth_items (VFrame (Pd.mkDataFrame ["code"] (Pd.Int64Index []) []))
    = [true]
  ∧ length (Pd.rows (Pd.from_records code_rows)) = 3%nat
  ∧ length (Pd.rows (Pd.from_records name_rows)) = 2%nat.
Proof. repeat split. Qed.

(** C6 (nullable set).  Codes 1, [None], 3 against the candidates 1 and
    2 with [nullable]: membership and nullness hold together for no row,
    yet the frame's [validate] records no error and [valid] stays
    [True]. *)
Theorem isin_nullable_records_nothing :
  let df := Pd.from_records code_null_rows in
  (∀ col, Pd.getitem "code" df = Ok col →
          Pd.and_series (Pd.isin [VInt 1; VInt 2] col) (Pd.isnull col)
          = [false; false; false])
  ∧ ∃ frame',
      PandasValidationFrame.validate (code_frame true) df = Ok frame'
      ∧ PandasValidationFrame.valid frame' = true
      ∧ ∀ i, 0 ≤ i < 3 →
             em_rows (PandasValidationFrame.errors frame') !! i = Some ∅.
Proof.
  split.
  - intros col [= <-]. reflexivity.
  - eexists. split; [vm_compute; reflexivity|]. split; [reflexivity|].
    intros i Hi.
    assert (i = 0 ∨ i = 1 ∨ i = 2) as [->|[->| ->]] by lia; by vm_compute.
Qed.

(** C7 (nullable set).  Names ["abc"] and ["abcdef"] with the maximum
    length 5 and [nullable]: the column validator records nothing, not
    even for the name of six characters.  The mask itself is not the
    conjunction of the length comparison and the null test: for an
    empty name it is true, the conjunction false. *)
Theorem length_nullable_records_nothing :
  PandasValidationColumn.validate (name_column true) (Pd.from_records name_rows)
  = Ok (name_column true)
  ∧ PandasValidationColumn.errors (name_column true) = ∅
  ∧ Pd.le_series [Some 0] (Pd.rand_int 5 (Pd.isnull [Pd.Str ""])) = [true]
  ∧ Pd.and_series (Pd.le_scalar 5 [Some 0]) (Pd.isnull [Pd.Str ""]) = [false].
Proof. repeat split. Qed.

(** ** The row cleaner *)

Section PyDictFacts.
Context {V : Type}.

Lemma get_set_eq (k : string) (v : V) (d : PyDict.t V) :
  PyDict.get k (PyDict.set k v d) = Some v.
Proof.
  induction d as [|[k' v'] d IH]; simpl.
  - by rewrite String.eqb_refl.
  - destruct (String.eqb k' k) eqn:E; simpl; by rewrite E.
Qed.

Lemma get_set_ne (k k' : string) (v : V) (d : PyDict.t V) :
  k ≠ k' → PyDict.get k' (PyDict.set k v d) = PyDict.get k' d.
Proof.
  intros Hne. induction d as [|[k0 v0] d IH]; simpl.
  - destruct (String.eqb_spec k k'); [done|done].
  - destruct (String.eqb_spec k0 k) as [->|Hk]; simpl.
    + by destruct (String.eqb_spec k k').
    + by rewrite IH.
Qed.

Lemma get_set_is_Some (k k' : string) (v : V) (d : PyDict.t V) :
  is_Some (PyDict.get k' d) → is_Some (PyDict.get k' (PyDict.set k v d)).
Proof.
  intros H. destruct (decide (k = k')) as [->|Hne].
  - by rewrite get_set_eq.
  - by rewrite get_set_ne.
Qed.
End PyDictFacts.

Section RowCleaner.
Variable cls : FormClass.

(** Before the hook runs the field holds the raw value when that is
    truthy, the default otherwise. *)
Lemma pre_hook_row_get (values row : PyDict.t Value) (item : string) :
  PyDict.get item (PandasForm.pre_hook_row cls values row item)
  = Some (PandasForm.assigned cls values item).
Proof.
  unfold PandasForm.pre_hook_row, PandasForm.assigned, PandasForm.raw_truthy.
  destruct (PyDict.get item values) as [v|]; [|by rewrite get_set_eq].
  destruct (truthy v); by rewrite get_set_eq.
Qed.

Lemma pre_hook_row_other (values row : PyDict.t Value) (item k : string) :
  item ≠ k →
  PyDict.get k (PandasForm.pre_hook_row cls values row item)
  = PyDict.get k row.
Proof.
  intros Hne. unfold PandasForm.pre_hook_row.
  destruct (PandasForm.raw_truthy item values);
    [destruct (PyDict.get item values)|]; by rewrite ?get_set_ne.
Qed.

Lemma clean_field_other (idx : Z) (values : PyDict.t Value)
    (st : PandasForm.CleanState) (item k : string) :
  item ≠ k →
  PyDict.get k (PandasForm.cs_row (PandasForm.clean_field cls idx values st item))
  = PyDict.get k (PandasForm.cs_row st).
Proof.
  intros Hne. unfold PandasForm.clean_field.
  destruct (clean_hook cls item) as [func|]; simpl;
    [destruct (func _); simpl|]; by rewrite ?get_set_ne, pre_hook_row_other.
Qed.

Lemma clean_field_has (idx : Z) (values : PyDict.t Value)
    (st : PandasForm.CleanState) (item : string) :
  is_Some (PyDict.get item
             (PandasForm.cs_row (PandasForm.clean_field cls idx values st item))).
Proof.
  unfold PandasForm.clean_field.
  destruct (clean_hook cls item) as [func|]; simpl;
    [destruct (func _); simpl|];
    by rewrite ?get_set_eq, ?pre_hook_row_get.
Qed.

Lemma clean_fields_other (idx : Z) (values : PyDict.t Value)
    (fields : list string) (k : string) :
  k ∉ fields →
  ∀ st, PyDict.get k (PandasForm.cs_row
                        (fold_left (PandasForm.clean_field cls idx values)
                                   fields st))
        = PyDict.get k (PandasForm.cs_row st).
Proof.
  induction fields as [|item fields IH]; intros Hk st; [done|].
  simpl. apply not_elem_of_cons in Hk as [Hne Hk].
  rewrite IH by done. by apply clean_field_other.
Qed.

(** Every field gets an entry in the cleaned row, and entries stay. *)
Lemma clean_fields_keys (idx : Z) (values : PyDict.t Value)
    (fields : list string) (k : string) :
  ∀ st,
  k ∈ fields ∨ is_Some (PyDict.get k (PandasForm.cs_row st)) →
  is_Some (PyDict.get k (PandasForm.cs_row
                           (fold_left (PandasForm.clean_field cls idx values)
                                      fields st))).
Proof.
  induction fields as [|item fields IH]; intros st Hk; simpl.
  - destruct Hk as [Hk|Hk]; [by apply not_elem_of_nil in Hk|done].
  - apply IH. destruct (decide (item = k)) as [->|Hne].
    + right. apply clean_field_has.
    + destruct Hk as [Hk|Hk].
      * apply elem_of_cons in Hk as [->|Hk]; [done|by left].
      * right. by rewrite clean_field_other.
Qed.

(** The cleaned row does not depend on the index, on the error map, on
    the flag or on the count of calls. *)
Lemma clean_row_cleaned_row (fields : list string) (idx : Z)
    (values : PyDict.t Value) (em : ErrorMap) (valid : option bool)
    (calls : nat) :
  PandasForm.cs_row (PandasForm.clean_row cls fields idx values em valid calls)
  = cleaned_row cls values fields.
Proof.
  unfold cleaned_row, PandasForm.clean_row.
  by destruct (clean_fields_sim cls idx 0 values fields
                 (PandasForm.mkCleanState [] em valid calls)
                 (PandasForm.mkCleanState [] empty_errors None O) eq_refl)
    as (_ & H & _).
Qed.

(** An error once in a cell stays there while the fields are cleaned. *)
Lemma clean_field_errors_grow (idx : Z) (values : PyDict.t Value)
    (st : PandasForm.CleanState) (item : string) (j : Z) (k : string)
    (e : ValidationError) :
  e ∈ cell_errors (em_rows (PandasForm.cs_errors st)) j k →
  e ∈ cell_errors
        (em_rows (PandasForm.cs_errors
                    (PandasForm.clean_field cls idx values st item))) j k.
Proof.
  intros He. unfold PandasForm.clean_field.
  destruct (clean_hook cls item) as [func|]; [|done].
  destruct (func _); [done|]. cbn [PandasForm.cs_errors].
  rewrite record_error_cell.
  case_decide; [|done]. apply elem_of_app. by left.
Qed.

Lemma clean_fields_errors_grow (idx : Z) (values : PyDict.t Value)
    (fields : list string) (j : Z) (k : string) (e : ValidationError) :
  ∀ st,
  e ∈ cell_errors (em_rows (PandasForm.cs_errors st)) j k →
  e ∈ cell_errors
        (em_rows (PandasForm.cs_errors
                    (fold_left (PandasForm.clean_field cls idx values)
                               fields st))) j k.
Proof.
  induction fields as [|item fields IH]; intros st He; [done|].
  simpl. apply IH. by apply clean_field_errors_grow.
Qed.

Lemma clean_fields_valid_false (idx : Z) (values : PyDict.t Value)
    (fields : list string) :
  ∀ st,
  PandasForm.cs_valid st = Some false →
  PandasForm.cs_valid
    (fold_left (PandasForm.clean_field cls idx values) fields st)
  = Some false.
Proof.
  induction fields as [|item fields IH]; intros st Hv; [done|].
  simpl. apply IH. unfold PandasForm.clean_field.
  destruct (clean_hook cls item) as [func|]; [|done].
  by destruct (func _).
Qed.

(** One row in which the hook of [item] raises: the field keeps the
    value assigned before the hook, the remaining fields are cleaned,
    the error is recorded and the flag is [False]. *)
Lemma clean_row_hook_raises (idx : Z) (values : PyDict.t Value)
    (before after : list string) (item : string) (e : ValidationError)
    (em : ErrorMap) (valid : option bool) (calls : nat) :
  item ∉ after →
  hook_raises cls values before item e →
  let st := PandasForm.clean_row cls (before ++ item :: after) idx values
              em valid calls in
  PyDict.get item (PandasForm.cs_row st)
  = Some (PandasForm.assigned cls values item)
  ∧ e ∈ cell_errors (em_rows (PandasForm.cs_errors st)) idx item
  ∧ PandasForm.cs_valid st = Some false.
Proof.
  intros Hafter (func & Hhook & Hraise). simpl.
  unfold PandasForm.clean_row. rewrite fold_left_app. simpl.
  set (st1 := fold_left _ before _).
  assert (PandasForm.cs_row st1 = cleaned_row cls values before) as Hrow
    by apply clean_row_cleaned_row.
  assert (PandasForm.clean_field cls idx values st1 item
          = PandasForm.mkCleanState
              (PandasForm.pre_hook_row cls values (PandasForm.cs_row st1) item)
              (PandasForm.record_error idx item e (PandasForm.cs_errors st1))
              (Some false) (S (PandasForm.cs_calls st1))) as Hstep.
  { unfold PandasForm.clean_field. by rewrite Hhook, Hrow, Hraise. }
  rewrite Hstep. split; [|split].
  - rewrite clean_fields_other by done. simpl. apply pre_hook_row_get.
  - apply clean_fields_errors_grow. cbn [PandasForm.cs_errors].
    rewrite record_error_cell.
    rewrite decide_True by done. apply elem_of_app. right.
    by apply list_elem_of_singleton.
  - by apply clean_fields_valid_false.
Qed.

End RowCleaner.

Section RowCleanerRows.
Variable cls : FormClass.
Variable fields : list string.

Lemma clean_rows_cleaned (rows : list (PyDict.t Value)) :
  ∀ (idx : Z) (cleaned : list (PyDict.t Value)) (em : ErrorMap)
    (valid : option bool) (calls : nat),
  (PandasForm.clean_rows cls fields idx rows cleaned em valid calls).1.1.1
  = cleaned ++ map (λ values, cleaned_row cls values fields) rows.
Proof.
  induction rows as [|values rows IH]; intros; simpl.
  - by rewrite app_nil_r.
  - by rewrite IH, clean_row_cleaned_row, <- app_assoc.
Qed.

Lemma clean_rows_errors_grow (j : Z) (k : string) (e : ValidationError)
    (rows : list (PyDict.t Value)) :
  ∀ (idx : Z) (cleaned : list (PyDict.t Value)) (em : ErrorMap)
    (valid : option bool) (calls : nat),
  e ∈ cell_errors (em_rows em) j k →
  e ∈ cell_errors
        (em_rows (PandasForm.clean_rows cls fields idx rows cleaned em valid
                    calls).1.1.2) j k.
Proof.
  induction rows as [|values rows IH]; intros; [done|].
  simpl. apply IH. unfold PandasForm.clean_row.
  by apply clean_fields_errors_grow.
Qed.

Lemma clean_rows_valid_false (rows : list (PyDict.t Value)) :
  ∀ (idx : Z) (cleaned : list (PyDict.t Value)) (em : ErrorMap) (calls : nat),
  (PandasForm.clean_rows cls fields idx rows cleaned em (Some false) calls).1.2
  = Some false.
Proof.
  induction rows as [|values rows IH]; intros; [done|].
  simpl. unfold PandasForm.clean_row.
  rewrite (clean_fields_valid_false cls idx values fields) by done.
  apply IH.
Qed.

(** The loop over the rows goes on after a hook has raised: the error
    of row [n] is in the final error map and the flag is [False]. *)
Lemma clean_rows_hook_raises (before after : list string) (item : string)
    (e : ValidationError) (rows : list (PyDict.t Value)) :
  fields = before ++ item :: after →
  item ∉ after →
  ∀ (n : nat) (values : PyDict.t Value) (idx : Z)
    (cleaned : list (PyDict.t Value)) (em : ErrorMap) (valid : option bool)
    (calls : nat),
  rows !! n = Some values →
  hook_raises cls values before item e →
  let r := PandasForm.clean_rows cls fields idx rows cleaned em valid calls in
  e ∈ cell_errors (em_rows r.1.1.2) (idx + Z.of_nat n) item
  ∧ r.1.2 = Some false.
Proof.
  intros Hfields Hafter. induction rows as [|values0 rows IH];
    intros n values idx cleaned em valid calls Hn Hraise; [done|].
  destruct n as [|n]; simpl in Hn.
  - injection Hn as ->. simpl.
    pose proof (clean_row_hook_raises cls idx values before after item e em
                  valid calls Hafter Hraise) as (_ & He & Hv).
    simpl in He, Hv. rewrite <- Hfields in He, Hv.
    rewrite Z.add_0_r. split.
    + by apply clean_rows_errors_grow.
    + rewrite Hv. apply clean_rows_valid_false.
  - simpl. replace (idx + Z.of_nat (S n)) with (idx + 1 + Z.of_nat n) by lia.
    by apply (IH n values).
Qed.

End RowCleanerRows.

(** C10.  When the hook of [item] raises for the row of index [n], the
    cleaned row keeps for [item] the value assigned before the hook ran
    (the raw value when truthy, the default otherwise); every row of the
    data is cleaned and holds every field; the error is in the cell of
    ([n], [item]) and the flag is [False]. *)
Theorem hook_error_keeps_assigned_value (cls : FormClass) (f : PandasForm.t)
    (n : nat) (values : PyDict.t Value) (before after : list string)
    (item : string) (e : ValidationError) :
  PandasForm.data f !! n = Some values →
  PandasForm.fields f = before ++ item :: after →
  item ∉ after →
  hook_raises cls values before item e →
  ∃ cleaned row,
    PandasForm.cleaned_data (PandasForm._clean_data cls f) = Some cleaned
    ∧ length cleaned = length (PandasForm.data f)
    ∧ cleaned !! n = Some row
    ∧ PyDict.get item row = Some (PandasForm.assigned cls values item)
    ∧ (∀ row' k, row' ∈ cleaned → k ∈ PandasForm.fields f →
                 is_Some (PyDict.get k row'))
    ∧ e ∈ cell_errors
            (em_rows (PandasForm.errors (PandasForm._clean_data cls f)))
            (Z.of_nat n) item
    ∧ PandasForm.cached_valid (PandasForm._clean_data cls f) = Some false.
Proof.
  intros Hn Hfields Hafter Hraise.
  destruct (clean_data_spec cls f) as (_ & _ & Hv & He & Hc & _).
  rewrite Hc, He, Hv, clean_rows_cleaned. simpl.
  exists (map (λ values, cleaned_row cls values (PandasForm.fields f))
              (PandasForm.data f)),
         (cleaned_row cls values (PandasForm.fields f)).
  split; [done|]. split; [by rewrite length_map|].
  split; [by rewrite list_lookup_fmap, Hn|].
  pose proof (clean_row_hook_raises cls 0 values before after item e
                empty_errors None O Hafter Hraise) as (Hget & _).
  simpl in Hget. rewrite <- Hfields in Hget.
  split; [exact Hget|]. split.
  - intros row' k Hrow Hk. apply list_elem_of_fmap in Hrow as (vals & -> & _).
    unfold cleaned_row, PandasForm.clean_row.
    apply clean_fields_keys. by left.
  - pose proof (clean_rows_hook_raises cls (PandasForm.fields f) before after
                  item e (PandasForm.data f) Hfields Hafter n values 0 []
                  (schema_errors f) (PandasForm.cached_valid f)
                  (PandasForm.hook_calls f) Hn Hraise) as [H1 H2].
    by rewrite Z.add_0_l in H1.
Qed.

Lemma hook_error_keeps_assigned_value_witness :
  let f := PandasForm.init total_form total_rows in
  let values := [("name", VStr "x"); ("total", VInt 9)] in
  PandasForm.data f !! 1%nat = Some values
  ∧ PandasForm.fields f = ["name"] ++ ("total" :: [])
  ∧ ("total" ∉ ([] : list string))
  ∧ hook_raises total_form values ["name"] "total"
      (mkValidationError "bad total")
  ∧ ∃ cleaned row,
      PandasForm.cleaned_data (PandasForm._clean_data total_form f)
      = Some cleaned
      ∧ length cleaned = length (PandasForm.data f)
      ∧ cleaned !! 1%nat = Some row
      ∧ PyDict.get "total" row
        = Some (PandasForm.assigned total_form values "total")
      ∧ (∀ row' k, row' ∈ cleaned → k ∈ PandasForm.fields f →
                   is_Some (PyDict.get k row'))
      ∧ (mkValidationError "bad total" ∈
         cell_errors
           (em_rows (PandasForm.errors (PandasForm._clean_data total_form f)))
           (Z.of_nat 1) "total")
      ∧ PandasForm.cached_valid (PandasForm._clean_data total_form f)
        = Some false.
Proof.
  assert ("total" ∉ ([] : list string)) as Hnil by apply not_elem_of_nil.
  assert (hook_raises total_form [("name", VStr "x"); ("total", VInt 9)]
            ["name"] "total" (mkValidationError "bad total")) as Hraise.
  { eexists. split; reflexivity. }
  split; [reflexivity|]. split; [reflexivity|]. split; [exact Hnil|].
  split; [exact Hraise|].
  exact (hook_error_keeps_assigned_value total_form
           (PandasForm.init total_form total_rows) 1
           [("name", VStr "x"); ("total", VInt 9)] ["name"] [] "total"
           (mkValidationError "bad total") eq_refl eq_refl Hnil Hraise).
Defined.

(** In that run the cleaned rows are these: row 1 keeps the raw 9 for
    ["total"], and row 2, cleaned after the failure, holds the value its
    hook returned. *)
Example total_rows_cleaned :
  PandasForm.cleaned_data
    (PandasForm._clean_data total_form (PandasForm.init total_form total_rows))
  = Some [[("name", VStr "a"); ("total", VInt 0)];
          [("name", VStr "x"); ("total", VInt 9)];
          [("name", VStr "b"); ("total", VInt 0)]].
Proof. reflexivity. Qed.

(** ** Instances of the conditional statements *)

Lemma column_validate_vectors_witness :
  let col := name_column_two_checks in
  let df := Pd.from_records name_rows in
  let ss := [[true; false]; [true; false]] in
  Forall2 (λ c s, Check_validate c df (PandasValidationColumn.nullable col)
                  = Ok (VSeries s))
          (PandasValidationColumn.checks col) ss
  ∧ ∃ col', PandasValidationColumn.validate col df = Ok col'
            ∧ PandasValidationColumn.name col' = PandasValidationColumn.name col
            ∧ ∀ j, cell_errors (PandasValidationColumn.errors col') j
                               (PandasValidationColumn.name col)
                   = cell_errors (PandasValidationColumn.errors col) j
                                 (PandasValidationColumn.name col)
                     ++ vector_failures (PandasValidationColumn.checks col)
                          ss j.
Proof.
  assert (Forall2
            (λ c s, Check_validate c (Pd.from_records name_rows)
                      (PandasValidationColumn.nullable name_column_two_checks)
                    = Ok (VSeries s))
            (PandasValidationColumn.checks name_column_two_checks)
            [[true; false]; [true; false]]) as Hall.
  { repeat constructor. }
  split; [exact Hall|].
  exact (column_validate_vectors name_column_two_checks
           (Pd.from_records name_rows)
           [[true; false]; [true; false]] Hall).
Defined.

(** Two checks that both fail on row 1: the cell holds exactly their two
    messages, in the order of the checks, and row 0 holds none. *)
Example two_checks_two_messages :
  ∃ col',
    PandasValidationColumn.validate name_column_two_checks
      (Pd.from_records name_rows) = Ok col'
    ∧ cell_errors (PandasValidationColumn.errors col') 1 "name"
      = [get_error (IsInCheck "name" [VStr "abc"]);
         get_error (LengthCheck "name" 5)]
    ∧ cell_errors (PandasValidationColumn.errors col') 0 "name" = [].
Proof. eexists. split; [vm_compute; reflexivity|]. by vm_compute. Qed.

(** C9 (nullable set).  The names ["abc"] and ["abcdef"] under two
    checks, both refusing ["abcdef"]: as vectors both checks are [False]
    at row 1.  The column validator with [nullable] returns with its
    error map as it was, empty: the cell of row 1 holds none of the two
    messages, where the validator without [nullable] holds both, in the
    order of the checks. *)
Theorem nullable_two_checks_record_nothing :
  let df := Pd.from_records name_rows in
  Check_validate (IsInCheck "name" [VStr "abc"]) df false
  = Ok (VSeries [true; false])
  ∧ Check_validate (LengthCheck "name" 5) df false
    = Ok (VSeries [true; false])
  ∧ PandasValidationColumn.validate name_column_two_checks_nullable df
    = Ok name_column_two_checks_nullable
  ∧ cell_errors
      (PandasValidationColumn.errors name_column_two_checks_nullable)
      1 "name" = []
  ∧ ∃ col',
      PandasValidationColumn.validate name_column_two_checks df = Ok col'
      ∧ cell_errors (PandasValidationColumn.errors col') 1 "name"
        = [get_error (IsInCheck "name" [VStr "abc"]);
           get_error (LengthCheck "name" 5)].
Proof.
  cbv zeta. split; [reflexivity|]. split; [reflexivity|].
  split; [reflexivity|]. split; [reflexivity|].
  eexists. split; [vm_compute; reflexivity|]. by vm_compute.
Qed.

Lemma frame_validate_dense_witness :
  let frame := code_frame false in
  let df := Pd.from_records code_rows in
  Pd.index df = Pd.RangeIndex 0 3
  ∧ PandasValidationFrame.validate frame df = Ok (validated frame df)
  ∧ ∀ i, 0 ≤ i < 3 →
      ∃ fe, em_rows (PandasValidationFrame.errors (validated frame df)) !! i
            = Some fe
            ∧ (em_rows (PandasValidationFrame.errors frame) !! i = None →
               (∀ nc, nc ∈ PandasValidationFrame.cached_fields
                             (validated frame df) →
                      PandasValidationColumn.errors nc.2 !! i = None) →
               fe = ∅).
Proof.
  assert (PandasValidationFrame.validate (code_frame false)
            (Pd.from_records code_rows)
          = Ok (validated (code_frame false) (Pd.from_records code_rows)))
    as Hval by (vm_compute; reflexivity).
  split; [reflexivity|]. split; [exact Hval|].
  exact (frame_validate_dense (code_frame false)
           (validated (code_frame false) (Pd.from_records code_rows))
           (Pd.from_records code_rows) 0 3 eq_refl Hval).
Defined.


(** ** The frame's [validate] returns *)

Section FrameReturns.

Lemma bind_row_returns (idx : Z) (curr : FieldErrors)
    (rows : gmap Z FieldErrors) :
  is_Some (rows !! idx) →
  ∃ rows', PandasValidationFrame.bind_row idx curr (Ok rows) = Ok rows'.
Proof.
  intros Hidx. unfold PandasValidationFrame.bind_row.
  cut (∃ rows', map_fold
                  (λ key val acc',
                     rows0 ← acc';
                     match rows0 !! idx with
                     | Some fe => Ok (<[idx := <[key := val]> fe]> rows0)
                     | None => Raise KeyError
                     end) (Ok rows) curr = Ok rows'
                ∧ is_Some (rows' !! idx)).
  { intros (rows' & H & _). by exists rows'. }
  apply (map_fold_weak_ind (λ r _, ∃ rows', r = Ok rows' ∧ is_Some (rows' !! idx))).
  - by exists rows.
  - intros key val m r _ (rows1 & -> & [fe Hfe]). simpl. rewrite Hfe.
    eexists. split; [done|]. by rewrite lookup_insert_eq.
Qed.

Lemma bind_errors_returns (rows errs : gmap Z FieldErrors) :
  (∀ i, is_Some (errs !! i) → is_Some (rows !! i)) →
  ∃ rows', PandasValidationFrame.bind_errors rows errs = Ok rows'.
Proof.
  unfold PandasValidationFrame.bind_errors.
  cut ((∀ i, is_Some (errs !! i) → is_Some (rows !! i)) →
       ∃ rows', map_fold PandasValidationFrame.bind_row (Ok rows) errs = Ok rows'
                ∧ ∀ j, is_Some (rows' !! j) ↔ is_Some (rows !! j)).
  { intros H Hk. destruct (H Hk) as (rows' & Hr & _). by exists rows'. }
  apply (map_fold_weak_ind
           (λ r m, (∀ i, is_Some (m !! i) → is_Some (rows !! i)) →
                   ∃ rows', r = Ok rows'
                            ∧ ∀ j, is_Some (rows' !! j) ↔ is_Some (rows !! j))).
  - intros _. by exists rows.
  - intros idx curr m r Hm IH Hkeys.
    destruct IH as (rows1 & -> & Hdom).
    { intros i Hi. apply Hkeys. rewrite lookup_insert_ne; [done|].
      intros <-. rewrite Hm in Hi. by destruct Hi. }
    assert (is_Some (rows1 !! idx)) as Hidx.
    { apply Hdom, Hkeys. by rewrite lookup_insert_eq. }
    destruct (bind_row_returns idx curr rows1 Hidx) as (rows2 & Hb).
    exists rows2. split; [done|].
    destruct (bind_row_ok idx curr rows1 rows2 Hb) as [Hother Hsame].
    intros j. rewrite <- Hdom. destruct (decide (j = idx)) as [->|Hne].
    + by rewrite Hsame, fmap_is_Some.
    + by rewrite Hother.
Qed.

Lemma handle_items_keys (check : Check) (items : list bool) :
  ∀ (col : PandasValidationColumn.t) (index j : Z),
  is_Some (PandasValidationColumn.errors
             (PandasValidationColumn.handle_items col check index items) !! j) →
  index ≤ j < index + Z.of_nat (length items)
  ∨ is_Some (PandasValidationColumn.errors col !! j).
Proof.
  induction items as [|row items IH]; intros col index j; simpl; [by right|].
  intros H. apply IH in H as [H|H]; [left; lia|].
  destruct row; [by right|].
  unfold PandasValidationColumn.handle_error in H.
  destruct (PandasValidationColumn.errors col !! index); simpl in H;
    rewrite lookup_insert in H; case_decide; subst; try (by right);
    left; lia.
Qed.

Lemma check_returns (df : Pd.DataFrame) (c : Check) :
  check_applies df c →
  ∃ s, Check_validate c df false = Ok (VSeries s)
       ∧ length s = length (Pd.rows df).
Proof.
  destruct c as [f l|f n]; simpl.
  - intros [col Hcol]. unfold Pd.getitem in Hcol.
    destruct (Pd.position f (Pd.columns df)) as [k|] eqn:Hk; [|done].
    destruct (IsInCheck_validate_member f l df) as (s & Hs & Hlen & _).
    { by rewrite Hk. }
    by exists s.
  - intros (col & Hcol & Hok).
    destruct (LengthCheck_validate_length f n df col Hcol Hok)
      as (s & Hs & Hlen & _).
    by exists s.
Qed.

(** The checks of a column that apply all return, and the column
    validator records errors for rows of the frame only. *)
Lemma validate_checks_returns (df : Pd.DataFrame) (cs : list Check) :
  ∀ col : PandasValidationColumn.t,
  PandasValidationColumn.nullable col = false →
  Forall (check_applies df) cs →
  ∃ col', PandasValidationColumn.validate_checks col cs df = Ok col'
          ∧ ∀ j, is_Some (PandasValidationColumn.errors col' !! j) →
                 0 ≤ j < Z.of_nat (length (Pd.rows df))
                 ∨ is_Some (PandasValidationColumn.errors col !! j).
Proof.
  induction cs as [|c cs IH]; intros col Hnull Hall; simpl.
  - exists col. split; [done|]. by right.
  - inversion Hall as [|? ? Hc Hcs]; subst.
    destruct (check_returns df c Hc) as (s & Hs & Hlen).
    rewrite Hnull, Hs. simpl.
    destruct (IH (PandasValidationColumn.handle_items col c 0 s))
      as (col' & Hval & Hkeys); [|done|].
    { by destruct (handle_items_spec c s col 0) as (_ & _ & -> & _). }
    exists col'. split; [done|]. intros j Hj.
    apply Hkeys in Hj as [Hj|Hj]; [by left|].
    apply handle_items_keys in Hj as [Hj|Hj]; [left; lia|by right].
Qed.

Lemma validate_fields_returns (df : Pd.DataFrame)
    (todo : PyDict.t PandasValidationColumn.t) :
  ∀ (done : PyDict.t PandasValidationColumn.t) (rows : gmap Z FieldErrors)
    (valid : bool),
  Forall (λ nc, column_applies df nc.2) todo →
  (∀ j, 0 ≤ j < Z.of_nat (length (Pd.rows df)) → is_Some (rows !! j)) →
  ∃ r, PandasValidationFrame.validate_fields done todo rows valid df = Ok r.
Proof.
  induction todo as [|[name field] todo IH]; intros done rows valid Hall Hrows;
    simpl; [by eexists|].
  inversion Hall as [|? ? (Hempty & Hnull & Hchecks) Htodo]; subst.
  simpl in *.
  destruct (validate_checks_returns df _ field Hnull Hchecks)
    as (field' & Hval & Hkeys).
  unfold PandasValidationColumn.validate. rewrite Hval. simpl.
  case_bool_decide; [by apply IH|].
  destruct (bind_errors_returns rows (PandasValidationColumn.errors field'))
    as (rows1 & Hb).
  { intros i Hi. apply Hkeys in Hi as [Hi|Hi]; [by apply Hrows|].
    rewrite Hempty, lookup_empty in Hi. by destruct Hi. }
  rewrite Hb. simpl. apply IH; [done|].
  intros j Hj. rewrite (bind_errors_ok _ _ _ Hb), fmap_is_Some.
  by apply Hrows.
Qed.

(** On a dataset of N rows, indexed from 0 to N, the [validate] of a
    frame whose columns apply to it returns. *)
Lemma frame_validate_returns (frame : PandasValidationFrame.t)
    (df : Pd.DataFrame) :
  Pd.index df = Pd.RangeIndex 0 (Z.of_nat (length (Pd.rows df))) →
  Forall (λ nc, column_applies df nc.2)
         (PandasValidationFrame.cached_fields frame) →
  ∃ frame', PandasValidationFrame.validate frame df = Ok frame'.
Proof.
  intros Hidx Hall. unfold PandasValidationFrame.validate. rewrite Hidx.
  destruct (validate_fields_returns df
              (PandasValidationFrame.cached_fields frame) []
              (PandasValidationFrame.init_errors 0
                 (Z.of_nat (length (Pd.rows df)))
                 (em_rows (PandasValidationFrame.errors frame)))
              (PandasValidationFrame.valid frame) Hall)
    as ([[fields rows'] valid'] & Hr).
  - intros j Hj. by rewrite init_errors_lookup, decide_True.
  - rewrite Hr. simpl. by eexists.
Qed.

(** A frame built from N records has N rows, indexed from 0 to N. *)
Lemma from_records_index (records : list (PyDict.t Value)) :
  length (Pd.rows (Pd.from_records records)) = length records
  ∧ Pd.index (Pd.from_records records)
    = Pd.RangeIndex 0 (Z.of_nat (length (Pd.rows (Pd.from_records records)))).
Proof. simpl. by rewrite length_map. Qed.

(** For N cleaned rows and a frame whose columns apply to them,
    [validate] returns and the error map has an entry for each of the
    indices 0 to N-1. *)
Lemma frame_validate_records (frame : PandasValidationFrame.t)
    (records : list (PyDict.t Value)) :
  Forall (λ nc, column_applies (Pd.from_records records) nc.2)
         (PandasValidationFrame.cached_fields frame) →
  ∃ frame',
    PandasValidationFrame.validate frame (Pd.from_records records) = Ok frame'
    ∧ ∀ i, 0 ≤ i < Z.of_nat (length records) →
           is_Some (em_rows (PandasValidationFrame.errors frame') !! i).
Proof.
  intros Hall. destruct (from_records_index records) as [Hlen Hidx].
  destruct (frame_validate_returns frame _ Hidx Hall) as (frame' & Hval).
  exists frame'. split; [done|]. intros i Hi.
  unfold PandasValidationFrame.validate in Hval. rewrite Hidx, Hlen in Hval.
  destruct (PandasValidationFrame.validate_fields _ _ _ _ _)
    as [[[fields rows'] valid']|] eqn:Hf; simpl in Hval; [|done].
  injection Hval as <-. simpl.
  destruct (validate_fields_spec _ _ _ _ _ _ _ _ Hf) as (_ & _ & _ & Hdom & _).
  apply Hdom. by rewrite init_errors_lookup, decide_True.
Qed.

End FrameReturns.

(** * Further properties *)

(** ** [add_error], every case *)

Lemma add_error_map_with_row (field : option string) (error : string)
    (r : Z) (em : ErrorMap) :
  r ≠ 0 →
  PandasForm.add_error_map field error (Some r) em
  = PandasForm.record_error r (error_key field) (mkValidationError error) em.
Proof.
  intros Hr. unfold PandasForm.add_error_map, PandasForm.row_key,
    PandasForm.row_truthy, PandasForm.record_error, error_key,
    PandasForm.field_truthy.
  destruct (Z.eqb_spec r 0) as [|_]; [done|]. simpl.
  destruct field as [s|]; [|done]. by destruct (String.eqb s "").
Qed.

(** X1.  Without a row, and with the row index 0, [add_error] appends
    the error to the list under ['__all__'], whatever the field is, and
    leaves the entries of all rows as they are. *)
Theorem add_error_without_row (f : PandasForm.t) (field : option string)
    (error : string) :
  let appended (f' : PandasForm.t) :=
    em_rows (PandasForm.errors f') = em_rows (PandasForm.errors f)
    ∧ em_all (PandasForm.errors f')
      = Some (default [] (em_all (PandasForm.errors f))
              ++ [mkValidationError error]) in
  appended (PandasForm.add_error f field error None)
  ∧ appended (PandasForm.add_error f field error (Some 0)).
Proof.
  simpl. unfold PandasForm.add_error. rewrite !with_errors_errors.
  unfold PandasForm.add_error_map. simpl.
  by destruct (em_all (PandasForm.errors f)).
Qed.

(** X2.  With a row index other than 0, [add_error] appends the error to
    the cell of that row under the field (under ['__all__'] when the
    field is [None] or empty), creates the row entry when missing, and
    changes no other cell, no other row entry and not the list under
    ['__all__']. *)
Theorem add_error_with_row (f : PandasForm.t) (field : option string)
    (error : string) (r : Z) :
  r ≠ 0 →
  let f' := PandasForm.add_error f field error (Some r) in
  cell_errors (em_rows (PandasForm.errors f')) r (error_key field)
  = cell_errors (em_rows (PandasForm.errors f)) r (error_key field)
    ++ [mkValidationError error]
  ∧ (∀ j k, ¬ (j = r ∧ k = error_key field) →
            cell_errors (em_rows (PandasForm.errors f')) j k
            = cell_errors (em_rows (PandasForm.errors f)) j k)
  ∧ is_Some (em_rows (PandasForm.errors f') !! r)
  ∧ (∀ j, j ≠ r →
          em_rows (PandasForm.errors f') !! j
          = em_rows (PandasForm.errors f) !! j)
  ∧ em_all (PandasForm.errors f') = em_all (PandasForm.errors f).
Proof.
  intros Hr. cbv zeta. unfold PandasForm.add_error.
  rewrite with_errors_errors, add_error_map_with_row by done.
  split; [|split; [|split; [|split]]].
  - by rewrite record_error_cell, decide_True.
  - intros j k Hjk. rewrite record_error_cell, decide_False; [done|].
    intros [? ?]. by apply Hjk.
  - unfold PandasForm.record_error. simpl.
    rewrite lookup_alter_eq, ensure_row_lookup, decide_True by done. done.
  - intros j Hj. unfold PandasForm.record_error. simpl.
    rewrite lookup_alter_ne, ensure_row_lookup, decide_False by done. done.
  - done.
Qed.

Lemma add_error_with_row_witness :
  let f := PandasForm.add_error (PandasForm.init email_form [])
             (Some "email") "first" (Some 2) in
  let f' := PandasForm.add_error f None "second" (Some 2) in
  2 ≠ 0
  ∧ cell_errors (em_rows (PandasForm.errors f')) 2 (error_key None)
    = cell_errors (em_rows (PandasForm.errors f)) 2 (error_key None)
      ++ [mkValidationError "second"]
  ∧ (∀ j k, ¬ (j = 2 ∧ k = error_key None) →
            cell_errors (em_rows (PandasForm.errors f')) j k
            = cell_errors (em_rows (PandasForm.errors f)) j k)
  ∧ is_Some (em_rows (PandasForm.errors f') !! 2)
  ∧ (∀ j, j ≠ 2 →
          em_rows (PandasForm.errors f') !! j
          = em_rows (PandasForm.errors f) !! j)
  ∧ em_all (PandasForm.errors f') = em_all (PandasForm.errors f).
Proof.
  assert (2 ≠ 0) as H2 by lia.
  split; [exact H2|].
  exact (add_error_with_row
           (PandasForm.add_error (PandasForm.init email_form [])
              (Some "email") "first" (Some 2))
           None "second" 2 H2).
Defined.

(** X3.  On a form without schema, [_clean_data] starts from an empty
    error dictionary: an error added before with [add_error] is gone
    after it, as if it had never been added. *)
Theorem clean_data_drops_added_errors (cls : FormClass) (f : PandasForm.t)
    (field : option string) (error : string) (row : option Z) :
  PandasForm.schema f = None →
  PandasForm._clean_data cls (PandasForm.add_error f field error row)
  = PandasForm._clean_data cls f.
Proof.
  intros Hs. unfold PandasForm.add_error, PandasForm.with_errors.
  rewrite Hs. unfold PandasForm._clean_data. simpl. rewrite Hs.
  by destruct (PandasForm.errors_is_schema f).
Qed.

Lemma clean_data_drops_added_errors_witness :
  let f := PandasForm.init total_form total_rows in
  PandasForm.schema f = None
  ∧ PandasForm._clean_data total_form
      (PandasForm.add_error f (Some "name") "manual" (Some 1))
    = PandasForm._clean_data total_form f.
Proof.
  split; [reflexivity|].
  exact (clean_data_drops_added_errors total_form
           (PandasForm.init total_form total_rows) (Some "name") "manual"
           (Some 1) eq_refl).
Defined.

(** ** The shape of the cleaned rows *)

Section CleanedShape.

Lemma add_key_present (acc : list string) (k : string) :
  k ∈ acc → Pd.add_key acc k = acc.
Proof. intros H. unfold Pd.add_key. by rewrite bool_decide_eq_true_2. Qed.

Lemma add_key_absent (acc : list string) (k : string) :
  k ∉ acc → Pd.add_key acc k = acc ++ [k].
Proof. intros H. unfold Pd.add_key. by rewrite bool_decide_eq_false_2. Qed.

Lemma add_key_elem (acc : list string) (k x : string) :
  x ∈ Pd.add_key acc k ↔ x ∈ acc ∨ x = k.
Proof.
  destruct (decide (k ∈ acc)) as [Hin|Hnin].
  - rewrite add_key_present by done. split; [by left|].
    intros [?| ->]; done.
  - rewrite add_key_absent by done.
    by rewrite elem_of_app, list_elem_of_singleton.
Qed.

Lemma keys_set {V} (k : string) (v : V) (d : PyDict.t V) :
  PyDict.keys (PyDict.set k v d) = Pd.add_key (PyDict.keys d) k.
Proof.
  induction d as [|[k' v'] d IH]; simpl.
  - by rewrite add_key_absent by apply not_elem_of_nil.
  - destruct (String.eqb_spec k' k) as [->|Hne]; simpl.
    + by rewrite add_key_present by apply list_elem_of_here.
    + rewrite IH. fold (PyDict.keys d).
      destruct (decide (k ∈ PyDict.keys d)) as [Hin|Hnin].
      * rewrite !add_key_present; [done|by apply list_elem_of_further|done].
      * rewrite !add_key_absent; [done| |done].
        rewrite elem_of_cons. intros [?|?]; congruence.
Qed.

Lemma add_key_twice (acc : list string) (k : string) :
  Pd.add_key (Pd.add_key acc k) k = Pd.add_key acc k.
Proof. apply add_key_present, add_key_elem. by right. Qed.

Lemma clean_field_key_list (cls : FormClass) (idx : Z)
    (values : PyDict.t Value) (st : PandasForm.CleanState) (item : string) :
  PyDict.keys (PandasForm.cs_row (PandasForm.clean_field cls idx values st item))
  = Pd.add_key (PyDict.keys (PandasForm.cs_row st)) item.
Proof.
  assert (PyDict.keys (PandasForm.pre_hook_row cls values
                         (PandasForm.cs_row st) item)
          = Pd.add_key (PyDict.keys (PandasForm.cs_row st)) item) as Hpre.
  { unfold PandasForm.pre_hook_row.
    destruct (PandasForm.raw_truthy item values);
      [destruct (PyDict.get item values)|];
      by rewrite ?keys_set, ?add_key_twice. }
  unfold PandasForm.clean_field.
  destruct (clean_hook cls item) as [func|]; simpl; [|done].
  destruct (func _); simpl; by rewrite ?keys_set, Hpre, ?add_key_twice.
Qed.

Lemma clean_fields_key_list (cls : FormClass) (idx : Z)
    (values : PyDict.t Value) (fields : list string) :
  ∀ st,
  PyDict.keys (PandasForm.cs_row
                 (fold_left (PandasForm.clean_field cls idx values) fields st))
  = fold_left Pd.add_key fields (PyDict.keys (PandasForm.cs_row st)).
Proof.
  induction fields as [|item fields IH]; intros st; [done|].
  simpl. by rewrite IH, clean_field_key_list.
Qed.

Lemma cleaned_row_keys (cls : FormClass) (values : PyDict.t Value)
    (fields : list string) :
  PyDict.keys (cleaned_row cls values fields) = fold_left Pd.add_key fields [].
Proof. unfold cleaned_row, PandasForm.clean_row. by rewrite clean_fields_key_list. Qed.

Lemma add_key_NoDup (acc : list string) (k : string) :
  NoDup acc → NoDup (Pd.add_key acc k).
Proof.
  intros Hnd. destruct (decide (k ∈ acc)) as [Hin|Hnin].
  - by rewrite add_key_present.
  - rewrite add_key_absent by done. apply NoDup_app. split; [done|].
    split; [|apply NoDup_singleton].
    intros x Hx Hk. apply list_elem_of_singleton in Hk. by subst.
Qed.

Lemma fold_add_key_NoDup (l : list string) :
  ∀ acc, NoDup acc → NoDup (fold_left Pd.add_key l acc).
Proof.
  induction l as [|k l IH]; intros acc Hnd; [done|].
  simpl. by apply IH, add_key_NoDup.
Qed.

Lemma fold_add_key_absorb (l : list string) :
  ∀ acc, (∀ x, x ∈ l → x ∈ acc) → fold_left Pd.add_key l acc = acc.
Proof.
  induction l as [|k l IH]; intros acc Hl; [done|].
  simpl. rewrite add_key_present by apply Hl, list_elem_of_here.
  apply IH. intros x Hx. by apply Hl, list_elem_of_further.
Qed.

Lemma fold_add_key_fresh (l : list string) :
  ∀ acc, NoDup (acc ++ l) → fold_left Pd.add_key l acc = acc ++ l.
Proof.
  induction l as [|k l IH]; intros acc Hnd; simpl.
  - by rewrite app_nil_r.
  - apply NoDup_app in Hnd as (Hacc & Hdisj & Hkl).
    apply NoDup_cons in Hkl as [Hk Hl].
    rewrite add_key_absent.
    + rewrite IH; [by rewrite <- app_assoc|].
      apply NoDup_app. split; [|split; [|done]].
      * apply NoDup_app. split; [done|]. split; [|apply NoDup_singleton].
        intros x Hx Hxk. apply list_elem_of_singleton in Hxk. subst.
        apply (Hdisj k Hx), list_elem_of_here.
      * intros x Hx Hxl. apply elem_of_app in Hx as [Hx|Hx].
        -- apply (Hdisj x Hx). by apply list_elem_of_further.
        -- apply list_elem_of_singleton in Hx. by subst.
    + intros Hin. apply (Hdisj k Hin), list_elem_of_here.
Qed.

(** The columns of a frame built from records that all have the same
    keys, without duplicates, are these keys. *)
Lemma record_columns_uniform (keys : list string)
    (records : list (PyDict.t Value)) :
  NoDup keys →
  Forall (λ r, PyDict.keys r = keys) records →
  Pd.record_columns records = match records with [] => [] | _ => keys end.
Proof.
  intros Hnd Hall. unfold Pd.record_columns.
  destruct records as [|r records]; [done|].
  inversion Hall as [|? ? Hr Hrest]; subst. simpl.
  rewrite fold_add_key_fresh by done. simpl.
  clear Hall. induction records as [|r' records IH]; [done|].
  inversion Hrest as [|? ? Hr' Hrest']; subst. simpl.
  rewrite Hr', fold_add_key_absorb by done. by apply IH.
Qed.

End CleanedShape.

(** X4.  [_clean_data] produces one cleaned row per input row, and the
    keys of every cleaned row are the declared fields, each once, in the
    order of their first occurrence, whatever keys the raw row has;
    [row_data] is empty again afterwards. *)
Theorem clean_data_shape (cls : FormClass) (f : PandasForm.t) :
  ∃ cleaned,
    PandasForm.cleaned_data (PandasForm._clean_data cls f) = Some cleaned
    ∧ length cleaned = length (PandasForm.data f)
    ∧ (∀ row, row ∈ cleaned →
              PyDict.keys row = fold_left Pd.add_key (PandasForm.fields f) []
              ∧ NoDup (PyDict.keys row))
    ∧ PandasForm.row_data (PandasForm._clean_data cls f) = [].
Proof.
  destruct (clean_data_spec cls f) as (_ & _ & _ & _ & Hc & _).
  rewrite Hc, clean_rows_cleaned. simpl. eexists. split; [done|].
  split; [by rewrite length_map|]. split.
  - intros row Hrow. apply list_elem_of_fmap in Hrow as (values & -> & _).
    rewrite cleaned_row_keys. split; [done|].
    apply fold_add_key_NoDup, NoDup_nil_2.
  - unfold PandasForm._clean_data.
    destruct (PandasForm.clean_rows _ _ _ _ _ _ _ _) as [[[? ?] ?] ?].
    by destruct (PandasForm.schema f).
Qed.

(** X5.  The frame [is_valid] builds from the cleaned rows has one row
    per input row, indexed from 0, and its columns are the declared
    fields, each once, in the order of their first occurrence; with no
    input row the frame has no column at all. *)
Theorem cleaned_frame_columns (cls : FormClass) (f : PandasForm.t) :
  ∃ cleaned,
    PandasForm.cleaned_data (PandasForm._clean_data cls f) = Some cleaned
    ∧ Pd.columns (Pd.from_records cleaned)
      = match PandasForm.data f with
        | [] => []
        | _ :: _ => fold_left Pd.add_key (PandasForm.fields f) []
        end
    ∧ Pd.index (Pd.from_records cleaned)
      = Pd.RangeIndex 0 (Z.of_nat (length (PandasForm.data f)))
    ∧ length (Pd.rows (Pd.from_records cleaned)) = length (PandasForm.data f).
Proof.
  destruct (clean_data_spec cls f) as (_ & _ & _ & _ & Hc & _).
  rewrite Hc, clean_rows_cleaned. simpl. eexists. split; [done|].
  rewrite !length_map. split; [|done].
  rewrite (record_columns_uniform (fold_left Pd.add_key (PandasForm.fields f) [])).
  - by destruct (PandasForm.data f).
  - apply fold_add_key_NoDup, NoDup_nil_2.
  - apply Forall_forall. intros row Hrow.
    apply list_elem_of_fmap in Hrow as (values & -> & _).
    apply cleaned_row_keys.
Qed.

(** ** The cleaned values, the hook calls and the recorded errors *)

Section CleanedValues.
Variable cls : FormClass.

Lemma clean_field_cases (idx : Z) (values : PyDict.t Value)
    (st : PandasForm.CleanState) (before : list string) (item : string) :
  PandasForm.cs_row st = cleaned_row cls values before →
  let st' := PandasForm.clean_field cls idx values st item in
  PyDict.get item (PandasForm.cs_row st')
  = Some (final_value cls values before item)
  ∧ PandasForm.cs_errors st'
    = match raised cls values before item with
      | e :: _ => PandasForm.record_error idx item e (PandasForm.cs_errors st)
      | [] => PandasForm.cs_errors st
      end
  ∧ PandasForm.cs_calls st'
    = (PandasForm.cs_calls st
       + if bool_decide (is_Some (clean_hook cls item)) then 1 else 0)%nat.
Proof.
  intros Hrow. simpl. unfold PandasForm.clean_field, final_value, raised.
  rewrite Hrow. destruct (clean_hook cls item) as [func|]; simpl.
  - destruct (func _); simpl.
    + rewrite get_set_eq. repeat split. lia.
    + rewrite pre_hook_row_get. repeat split. lia.
  - rewrite pre_hook_row_get. repeat split. lia.
Qed.

Lemma cleaned_row_snoc (values : PyDict.t Value) (before : list string)
    (item : string) (idx : Z) (st : PandasForm.CleanState) :
  PandasForm.cs_row st = cleaned_row cls values before →
  PandasForm.cs_row (PandasForm.clean_field cls idx values st item)
  = cleaned_row cls values (before ++ [item]).
Proof.
  intros Hrow. unfold cleaned_row, PandasForm.clean_row.
  rewrite fold_left_app. simpl.
  destruct (clean_field_sim cls idx 0 values st
              (fold_left (PandasForm.clean_field cls 0 values) before
                 (PandasForm.mkCleanState [] empty_errors None O)) item)
    as (_ & H & _); [|done].
  by rewrite Hrow.
Qed.

(** The value of a field in the cleaned row, read at its last
    occurrence among the fields. *)
Lemma cleaned_row_value (values : PyDict.t Value) (before after : list string)
    (item : string) :
  item ∉ after →
  PyDict.get item (cleaned_row cls values (before ++ item :: after))
  = Some (final_value cls values before item).
Proof.
  intros Hafter. unfold cleaned_row at 1, PandasForm.clean_row.
  rewrite fold_left_app. simpl. rewrite clean_fields_other by done.
  apply clean_field_cases. apply clean_row_cleaned_row.
Qed.

(** The hooks called while one row is cleaned. *)
Lemma clean_fields_calls (idx : Z) (values : PyDict.t Value)
    (fields : list string) :
  ∀ st,
  PandasForm.cs_calls
    (fold_left (PandasForm.clean_field cls idx values) fields st)
  = (PandasForm.cs_calls st + hooked_fields cls fields)%nat.
Proof.
  unfold hooked_fields.
  induction fields as [|item fields IH]; intros st; simpl; [lia|].
  rewrite IH. unfold PandasForm.clean_field.
  destruct (clean_hook cls item) as [func|]; [destruct (func _)|];
    simpl; lia.
Qed.

Lemma clean_rows_calls (fields : list string) (rows : list (PyDict.t Value)) :
  ∀ (idx : Z) (cleaned : list (PyDict.t Value)) (em : ErrorMap)
    (valid : option bool) (calls : nat),
  (PandasForm.clean_rows cls fields idx rows cleaned em valid calls).2
  = (calls + length rows * hooked_fields cls fields)%nat.
Proof.
  induction rows as [|values rows IH]; intros; simpl; [lia|].
  rewrite IH. unfold PandasForm.clean_row. rewrite clean_fields_calls.
  simpl. lia.
Qed.








(** The error map a pass leaves depends on the map it starts from, not
    on the flag or on the count of calls. *)
Lemma clean_fields_errors_indep (idx : Z) (values : PyDict.t Value)
    (fields : list string) :
  ∀ st st',
  PandasForm.cs_row st = PandasForm.cs_row st' →
  PandasForm.cs_errors st = PandasForm.cs_errors st' →
  PandasForm.cs_errors
    (fold_left (PandasForm.clean_field cls idx values) fields st)
  = PandasForm.cs_errors
      (fold_left (PandasForm.clean_field cls idx values) fields st').
Proof.
  induction fields as [|item fields IH]; intros st st' Hrow Herr; [done|].
  simpl. apply IH; unfold PandasForm.clean_field; rewrite Hrow, ?Herr;
    destruct (clean_hook cls item) as [func|]; try done;
    by destruct (func _).
Qed.

Lemma clean_rows_errors_indep (fields : list string)
    (rows : list (PyDict.t Value)) :
  ∀ (idx : Z) (cleaned cleaned' : list (PyDict.t Value)) (em : ErrorMap)
    (valid valid' : option bool) (calls calls' : nat),
  (PandasForm.clean_rows cls fields idx rows cleaned em valid calls).1.1.2
  = (PandasForm.clean_rows cls fields idx rows cleaned' em valid' calls').1.1.2.
Proof.
  induction rows as [|values rows IH]; intros; [done|].
  simpl. unfold PandasForm.clean_row.
  rewrite (clean_fields_errors_indep idx values fields
             (PandasForm.mkCleanState [] em valid calls)
             (PandasForm.mkCleanState [] em valid' calls')) by done.
  apply IH.
Qed.

End CleanedValues.

(** X6.  The cleaned value of a field, read at its last occurrence among
    the fields: it is what the field's hook returns; without a hook, or
    when the hook raises, it is the raw value if that is truthy and the
    default otherwise. *)
Theorem clean_data_value (cls : FormClass) (f : PandasForm.t) (n : nat)
    (values : PyDict.t Value) (before after : list string) (item : string) :
  PandasForm.data f !! n = Some values →
  PandasForm.fields f = before ++ item :: after →
  item ∉ after →
  ∃ cleaned row,
    PandasForm.cleaned_data (PandasForm._clean_data cls f) = Some cleaned
    ∧ cleaned !! n = Some row
    ∧ PyDict.get item row = Some (final_value cls values before item).
Proof.
  intros Hn Hfields Hafter.
  destruct (clean_data_spec cls f) as (_ & _ & _ & _ & Hc & _).
  rewrite Hc, clean_rows_cleaned. simpl. eexists _, _. split; [done|].
  split; [by rewrite list_lookup_fmap, Hn|].
  rewrite Hfields. by apply cleaned_row_value.
Qed.

Lemma clean_data_value_witness :
  let f := PandasForm.init total_form total_rows in
  let values := [("name", VStr "a"); ("total", VInt 7)] in
  PandasForm.data f !! 0%nat = Some values
  ∧ PandasForm.fields f = ["name"] ++ ("total" :: [])
  ∧ ("total" ∉ ([] : list string))
  ∧ ∃ cleaned row,
      PandasForm.cleaned_data (PandasForm._clean_data total_form f)
      = Some cleaned
      ∧ cleaned !! 0%nat = Some row
      ∧ PyDict.get "total" row
        = Some (final_value total_form values ["name"] "total").
Proof.
  assert ("total" ∉ ([] : list string)) as Hnil by apply not_elem_of_nil.
  split; [reflexivity|]. split; [reflexivity|]. split; [exact Hnil|].
  exact (clean_data_value total_form (PandasForm.init total_form total_rows)
           0 [("name", VStr "a"); ("total", VInt 7)] ["name"] [] "total"
           eq_refl eq_refl Hnil).
Defined.

(** X7.  For a field without hook, a raw value that is missing, [None],
    0 or the empty string is replaced by the default of the field. *)
Theorem falsy_raw_value_gets_default (cls : FormClass) (f : PandasForm.t)
    (n : nat) (values : PyDict.t Value) (before after : list string)
    (item : string) :
  PandasForm.data f !! n = Some values →
  PandasForm.fields f = before ++ item :: after →
  item ∉ after →
  clean_hook cls item = None →
  PyDict.get item values = None
  ∨ PyDict.get item values = Some VNone
  ∨ PyDict.get item values = Some (VInt 0)
  ∨ PyDict.get item values = Some (VStr "") →
  ∃ cleaned row,
    PandasForm.cleaned_data (PandasForm._clean_data cls f) = Some cleaned
    ∧ cleaned !! n = Some row
    ∧ PyDict.get item row = Some (handle_default cls item).
Proof.
  intros Hn Hfields Hafter Hhook Hraw.
  destruct (clean_data_spec cls f) as (_ & _ & _ & _ & Hc & _).
  rewrite Hc, clean_rows_cleaned. simpl. eexists _, _. split; [done|].
  split; [by rewrite list_lookup_fmap, Hn|].
  rewrite Hfields, cleaned_row_value by done.
  unfold final_value, PandasForm.assigned. rewrite Hhook.
  by destruct Hraw as [->|[->|[->| ->]]].
Qed.

Lemma falsy_raw_value_gets_default_witness :
  let f := PandasForm.init email_form [[("email", VStr "")]] in
  PandasForm.data f !! 0%nat = Some [("email", VStr "")]
  ∧ PandasForm.fields f = [] ++ ("email" :: [])
  ∧ ("email" ∉ ([] : list string))
  ∧ clean_hook email_form "email" = None
  ∧ (PyDict.get "email" [("email", VStr "")] = None
     ∨ PyDict.get "email" [("email", VStr "")] = Some VNone
     ∨ PyDict.get "email" [("email", VStr "")] = Some (VInt 0)
     ∨ PyDict.get "email" [("email", VStr "")] = Some (VStr ""))
  ∧ ∃ cleaned row,
      PandasForm.cleaned_data (PandasForm._clean_data email_form f)
      = Some cleaned
      ∧ cleaned !! 0%nat = Some row
      ∧ PyDict.get "email" row = Some (handle_default email_form "email").
Proof.
  assert ("email" ∉ ([] : list string)) as Hnil by apply not_elem_of_nil.
  assert (PyDict.get "email" [("email", VStr "")] = None
          ∨ PyDict.get "email" [("email", VStr "")] = Some VNone
          ∨ PyDict.get "email" [("email", VStr "")] = Some (VInt 0)
          ∨ PyDict.get "email" [("email", VStr "")] = Some (VStr ""))
    as Hraw by (right; right; right; reflexivity).
  split; [reflexivity|]. split; [reflexivity|]. split; [exact Hnil|].
  split; [reflexivity|]. split; [exact Hraw|].
  exact (falsy_raw_value_gets_default email_form
           (PandasForm.init email_form [[("email", VStr "")]]) 0
           [("email", VStr "")] [] [] "email" eq_refl eq_refl Hnil eq_refl Hraw).
Defined.

(** X8.  [_clean_data] calls the hook of every listed field that has one
    exactly once per row, whether or not hooks raise: the count of hook
    calls grows by the number of rows times the number of listed fields
    with a hook. *)
Theorem clean_data_hook_calls (cls : FormClass) (f : PandasForm.t) :
  PandasForm.hook_calls (PandasForm._clean_data cls f)
  = (PandasForm.hook_calls f
     + length (PandasForm.data f) * hooked_fields cls (PandasForm.fields f))%nat.
Proof.
  destruct (clean_data_spec cls f) as (_ & _ & _ & _ & _ & Hcalls).
  rewrite Hcalls. apply clean_rows_calls.
Qed.





(** X11.  On a form without schema a second [_clean_data] changes
    nothing but the count of hook calls: the cleaned rows, the error map
    and the flag are those of the first pass. *)
Theorem clean_data_twice_no_schema (cls : FormClass) (f : PandasForm.t) :
  PandasForm.schema f = None →
  let f1 := PandasForm._clean_data cls f in
  let f2 := PandasForm._clean_data cls f1 in
  PandasForm.cleaned_data f2 = PandasForm.cleaned_data f1
  ∧ PandasForm.errors f2 = PandasForm.errors f1
  ∧ PandasForm.cached_valid f2 = PandasForm.cached_valid f1
  ∧ PandasForm.hook_calls f2
    = (PandasForm.hook_calls f1
       + length (PandasForm.data f) * hooked_fields cls (PandasForm.fields f))%nat.
Proof.
  intros Hs. cbv zeta.
  assert (PandasForm.schema (PandasForm._clean_data cls f) = None) as Hs1.
  { unfold PandasForm._clean_data. rewrite Hs.
    by destruct (PandasForm.clean_rows _ _ _ _ _ _ _ _) as [[[? ?] ?] ?]. }
  destruct (clean_data_spec cls f) as (Hf & Hd & Hv & He & Hc & Hk).
  destruct (clean_data_spec cls (PandasForm._clean_data cls f))
    as (_ & _ & Hv2 & He2 & Hc2 & Hk2).
  assert (schema_errors f = empty_errors) as Hse
    by (unfold schema_errors; by rewrite Hs).
  assert (schema_errors (PandasForm._clean_data cls f) = empty_errors) as Hse1
    by (unfold schema_errors; by rewrite Hs1).
  rewrite Hse in *. rewrite Hse1, Hf, Hd in *.
  split; [by rewrite Hc2, Hc, !clean_rows_cleaned|].
  split; [rewrite He2, He; apply clean_rows_errors_indep|].
  split; [|by rewrite Hk2, clean_rows_calls].
  destruct (clean_rows_sim cls (PandasForm.fields f) (PandasForm.data f) 0 0 []
              empty_errors empty_errors (PandasForm.cached_valid f)
              (PandasForm.cached_valid (PandasForm._clean_data cls f))
              (PandasForm.hook_calls f)
              (PandasForm.hook_calls (PandasForm._clean_data cls f)))
    as (b & _ & Hb1 & Hb2).
  rewrite Hv2, Hb2, Hv, Hb1. by destruct b.
Qed.

Lemma clean_data_twice_no_schema_witness :
  let f := PandasForm.init total_form total_rows in
  let f1 := PandasForm._clean_data total_form f in
  let f2 := PandasForm._clean_data total_form f1 in
  PandasForm.schema f = None
  ∧ PandasForm.cleaned_data f2 = PandasForm.cleaned_data f1
  ∧ PandasForm.errors f2 = PandasForm.errors f1
  ∧ PandasForm.cached_valid f2 = PandasForm.cached_valid f1
  ∧ PandasForm.hook_calls f2
    = (PandasForm.hook_calls f1
       + length (PandasForm.data f)
         * hooked_fields total_form (PandasForm.fields f))%nat.
Proof.
  split; [reflexivity|].
  exact (clean_data_twice_no_schema total_form
           (PandasForm.init total_form total_rows) eq_refl).
Defined.

(** ** [is_valid] when no verdict is cached *)

(** X12.  Were [cached_valid] [None] when [is_valid] is called, the call
    would clean the rows and return [None] or [False], never [True]; it
    stores no [True] either, and when it returns [None] the flag is
    still [None], so that the next call computes everything again. *)
Theorem is_valid_uncomputed_never_true (cls : FormClass) (f f' : PandasForm.t)
    (v : option bool) :
  PandasForm.cached_valid f = None →
  PandasForm.is_valid cls f = Ok (v, f') →
  v ≠ Some true
  ∧ PandasForm.cached_valid f' ≠ Some true
  ∧ (v = None → PandasForm.cached_valid f' = None)
  ∧ PandasForm.cleaned_data f' ≠ None.
Proof.
  intros Hc Hv. unfold PandasForm.is_valid in Hv. rewrite Hc in Hv.
  destruct (clean_data_spec cls f) as (_ & _ & Hflag & _ & Hcl & _).
  destruct (clean_rows_sim cls (PandasForm.fields f) (PandasForm.data f) 0 0 []
              (schema_errors f) (schema_errors f) (PandasForm.cached_valid f)
              (PandasForm.cached_valid f) (PandasForm.hook_calls f)
              (PandasForm.hook_calls f)) as (b & _ & Hb & _).
  rewrite Hb, Hc in Hflag.
  destruct (PandasForm.schema (PandasForm._clean_data cls f)) as [s|].
  - destruct (PandasValidationFrame.validate s _) as [s'|]; simpl in Hv;
      [|done].
    injection Hv as <- <-. simpl. rewrite Hflag, Hcl.
    by destruct (PandasValidationFrame.valid s'), b.
  - injection Hv as <- <-. rewrite Hflag, Hcl. by destruct b.
Qed.

Lemma is_valid_uncomputed_never_true_witness :
  let f := uncomputed_form total_form total_rows in
  let f' := PandasForm._clean_data total_form f in
  PandasForm.cached_valid f = None
  ∧ PandasForm.is_valid total_form f = Ok (Some false, f')
  ∧ Some false ≠ Some true
  ∧ PandasForm.cached_valid f' ≠ Some true
  ∧ (Some false = None → PandasForm.cached_valid f' = None)
  ∧ PandasForm.cleaned_data f' ≠ None.
Proof.
  split; [reflexivity|]. split; [reflexivity|].
  exact (is_valid_uncomputed_never_true total_form
           (uncomputed_form total_form total_rows)
           (PandasForm._clean_data total_form
              (uncomputed_form total_form total_rows))
           (Some false) eq_refl eq_refl).
Defined.

(** ** The checks on frames built from records *)

Section ChecksOnRecords.

Lemma position_None (k : string) (l : list string) :
  k ∉ l → Pd.position k l = None.
Proof.
  induction l as [|k' l IH]; intros Hk; simpl; [done|].
  apply not_elem_of_cons in Hk as [Hne Hk].
  destruct (String.eqb_spec k' k); [congruence|]. by rewrite IH.
Qed.

Lemma position_Some (k : string) (l : list string) :
  k ∈ l → ∃ j, Pd.position k l = Some j ∧ l !! j = Some k.
Proof.
  induction l as [|k' l IH]; intros Hk; simpl.
  - by apply not_elem_of_nil in Hk.
  - destruct (String.eqb_spec k' k) as [->|Hne]; [by exists O|].
    apply elem_of_cons in Hk as [?|Hk]; [congruence|].
    destruct (IH Hk) as (j & -> & Hj). by exists (S j).
Qed.

Lemma get_Some_keys {V} (k : string) (v : V) (d : PyDict.t V) :
  PyDict.get k d = Some v → k ∈ PyDict.keys d.
Proof.
  induction d as [|[k' v'] d IH]; simpl; [done|].
  destruct (String.eqb_spec k' k) as [->|Hne]; intros H.
  - apply list_elem_of_here.
  - by apply list_elem_of_further, IH.
Qed.

Lemma fold_add_key_elem (l : list string) (x : string) :
  ∀ acc, x ∈ fold_left Pd.add_key l acc ↔ x ∈ acc ∨ x ∈ l.
Proof.
  induction l as [|k l IH]; intros acc; simpl.
  - split; [by left|]. intros [?|H]; [done|by apply not_elem_of_nil in H].
  - rewrite IH, add_key_elem, elem_of_cons. tauto.
Qed.

Lemma record_columns_elem (records : list (PyDict.t Value)) (x : string) :
  x ∈ Pd.record_columns records
  ↔ ∃ r, r ∈ records ∧ x ∈ PyDict.keys r.
Proof.
  unfold Pd.record_columns.
  cut (∀ acc, x ∈ fold_left (λ acc r, fold_left Pd.add_key (PyDict.keys r) acc)
                      records acc
              ↔ x ∈ acc ∨ ∃ r, r ∈ records ∧ x ∈ PyDict.keys r).
  { intros H. rewrite H. split; [|by right].
    intros [Hx|?]; [by apply not_elem_of_nil in Hx|done]. }
  induction records as [|r records IH]; intros acc; simpl.
  - split; [by left|]. intros [?|(r & Hr & _)]; [done|].
    by apply not_elem_of_nil in Hr.
  - rewrite IH, fold_add_key_elem. split.
    + intros [[?|?]|(r' & Hr' & Hx)]; [by left| |].
      * right. exists r. split; [apply list_elem_of_here|done].
      * right. exists r'. split; [by apply list_elem_of_further|done].
    + intros [?|(r' & Hr' & Hx)]; [by left; left|].
      apply elem_of_cons in Hr' as [->|Hr']; [by left; right|].
      right. by exists r'.
Qed.

(** The cell of a frame built from records, for a key the record has. *)
Lemma cell_at_from_records (records : list (PyDict.t Value)) (i : nat)
    (r : PyDict.t Value) (f : string) (v : Value) :
  records !! i = Some r →
  PyDict.get f r = Some v →
  ∃ col,
    Pd.getitem f (Pd.from_records records) = Ok col
    ∧ length col = length records
    ∧ (∀ i' r', records !! i' = Some r' →
         col !! i'
         = Some (Pd.to_cell
                   (Pd.float_column (map (PyDict.get f) records))
                   (PyDict.get f r'))).
Proof.
  intros Hi Hget.
  assert (f ∈ Pd.record_columns records) as Hcol.
  { apply record_columns_elem. exists r. split.
    - by apply list_elem_of_lookup_2 in Hi.
    - by apply get_Some_keys in Hget. }
  destruct (position_Some _ _ Hcol) as (j & Hpos & Hj).
  unfold Pd.getitem. simpl. rewrite Hpos. eexists. split; [done|].
  split; [by rewrite !length_map|].
  intros i' r' Hi'. rewrite !list_lookup_fmap, Hi'. simpl. f_equal.
  rewrite nth_lookup, list_lookup_fmap, Hj. done.
Qed.

(** An integer of at most 53 bits is stored as it is. *)
Lemma round_double_exact (z : Z) : Z.abs z ≤ 2 ^ 53 → Pd.round_double z = z.
Proof.
  intros H. unfold Pd.round_double. cbv zeta.
  by rewrite (proj2 (Z.leb_le _ _) H).
Qed.

Lemma to_cell_exact (float : bool) (v : Value) :
  exact_as_float v = true →
  v ≠ VNone →
  Pd.cell_isnull (Pd.to_cell float (Some v)) = false
  ∧ ∀ l, Pd.cell_isin l (Pd.to_cell float (Some v)) = bool_decide (v ∈ l).
Proof.
  intros Hex Hv. destruct v as [|z|s]; [done| |done]. simpl in *.
  apply Z.leb_le in Hex. rewrite round_double_exact by done.
  by destruct float.
Qed.

End ChecksOnRecords.

(** X13.  A check whose column the frame lacks raises [KeyError], with
    and without [nullable]; so does every check on the frame built from
    an empty list of rows, which has no column. *)
Theorem check_missing_column (c : Check) (df : Pd.DataFrame) (nullable : bool) :
  field_name c ∉ Pd.columns df →
  Check_validate c df nullable = Raise KeyError.
Proof.
  intros Hk. apply position_None in Hk.
  destruct c as [f l|f n]; simpl in *;
    unfold IsInCheck_validate, LengthCheck_validate, Pd.getitem;
    rewrite Hk; by destruct nullable.
Qed.

Lemma check_missing_column_witness :
  let c := IsInCheck "code" [VInt 1; VInt 2] in
  (field_name c ∉ Pd.columns (Pd.from_records []))
  ∧ Check_validate c (Pd.from_records []) false = Raise KeyError.
Proof.
  assert (field_name (IsInCheck "code" [VInt 1; VInt 2])
          ∉ Pd.columns (Pd.from_records [])) as H by apply not_elem_of_nil.
  split; [exact H|].
  exact (check_missing_column (IsInCheck "code" [VInt 1; VInt 2])
           (Pd.from_records []) false H).
Defined.

(** X14.  On the frame built from a list of records, [IsInCheck] without
    [nullable] returns one boolean per record, and the boolean of a
    record whose value for the field is a string, or a number that
    [float64] holds exactly, tells whether that value is in the list of
    candidates, when the candidates that are numbers are held exactly
    too.  (A column of numbers with a [None] is a [float64] column: a
    number of more than 53 bits is rounded there before it is
    compared, see [rounded_number_passes].) *)
Theorem isin_on_records (records : list (PyDict.t Value)) (i : nat)
    (r : PyDict.t Value) (f : string) (l : list Value) (v : Value) :
  records !! i = Some r →
  PyDict.get f r = Some v →
  v ≠ VNone →
  exact_as_float v = true →
  forallb exact_as_float l = true →
  ∃ s, Check_validate (IsInCheck f l) (Pd.from_records records) false
       = Ok (VSeries s)
       ∧ length s = length records
       ∧ s !! i = Some (bool_decide (v ∈ l)).
Proof.
  intros Hi Hget Hv Hex _.
  destruct (cell_at_from_records records i r f v Hi Hget)
    as (col & Hcol & Hlen & Hcells).
  simpl. unfold IsInCheck_validate. rewrite Hcol. simpl.
  eexists. split; [done|]. unfold Pd.isin.
  split; [by rewrite length_map|].
  rewrite list_lookup_fmap, (Hcells i r Hi), Hget. simpl.
  f_equal. by apply to_cell_exact.
Qed.

Lemma isin_on_records_witness :
  code_null_rows !! 2%nat = Some [("code", VInt 3)]
  ∧ PyDict.get "code" [("code", VInt 3)] = Some (VInt 3)
  ∧ VInt 3 ≠ VNone
  ∧ exact_as_float (VInt 3) = true
  ∧ forallb exact_as_float [VInt 1; VInt 2] = true
  ∧ ∃ s, Check_validate (IsInCheck "code" [VInt 1; VInt 2])
           (Pd.from_records code_null_rows) false = Ok (VSeries s)
         ∧ length s = length code_null_rows
         ∧ s !! 2%nat = Some (bool_decide (VInt 3 ∈ [VInt 1; VInt 2])).
Proof.
  assert (VInt 3 ≠ VNone) as H by discriminate.
  split; [reflexivity|]. split; [reflexivity|]. split; [exact H|].
  split; [reflexivity|]. split; [reflexivity|].
  exact (isin_on_records code_null_rows 2 [("code", VInt 3)] "code"
           [VInt 1; VInt 2] (VInt 3) eq_refl eq_refl H eq_refl eq_refl).
Defined.

(** Beyond 53 bits the stored number is the rounded one: next to a
    [None], [2^53 + 1] is stored as [2^53] and passes a check whose only
    candidate is [2^53]; alone in its column it is stored as it is and
    fails. *)
Example rounded_number_passes :
  Check_validate (IsInCheck "code" [VInt (2 ^ 53)])
    (Pd.from_records [[("code", VInt (2 ^ 53 + 1))]; [("code", VNone)]]) false
  = Ok (VSeries [true; false])
  ∧ Check_validate (IsInCheck "code" [VInt (2 ^ 53)])
      (Pd.from_records [[("code", VInt (2 ^ 53 + 1))]]) false
    = Ok (VSeries [false]).
Proof. by vm_compute. Qed.

(** An integer outside 64 bits makes its column a column of objects,
    where [None] stays [None]. *)
Example wide_number_keeps_none :
  Pd.getitem "code"
    (Pd.from_records [[("code", VInt (2 ^ 64))]; [("code", VNone)]])
  = Ok [Pd.Int (2 ^ 64); Pd.PyNone]
  ∧ Pd.getitem "code"
      (Pd.from_records [[("code", VInt 1)]; [("code", VNone)]])
    = Ok [Pd.Int 1; Pd.NaN].
Proof. by vm_compute. Qed.

(** X15.  On the frame built from a list of records, [LengthCheck]
    without [nullable] returns one boolean per record as soon as one
    record holds a string for the field: a string passes exactly when
    its number of characters is at most the maximum, and a record whose
    value is [None] or a number fails. *)
Theorem length_on_records (records : list (PyDict.t Value)) (i : nat)
    (r : PyDict.t Value) (f : string) (n : Z) (str : string) :
  records !! i = Some r →
  PyDict.get f r = Some (VStr str) →
  ∃ s, Check_validate (LengthCheck f n) (Pd.from_records records) false
       = Ok (VSeries s)
       ∧ length s = length records
       ∧ s !! i = Some (bool_decide (Z.of_nat (Pd.py_len str) ≤ n))
       ∧ ∀ i' r' v', records !! i' = Some r' →
                     PyDict.get f r' = Some v' →
                     (∀ str', v' ≠ VStr str') →
                     s !! i' = Some false.
Proof.
  intros Hi Hget.
  destruct (cell_at_from_records records i r f (VStr str) Hi Hget)
    as (col & Hcol & Hlen & Hcells).
  assert (col !! i = Some (Pd.Str str)) as Hcell.
  { by rewrite (Hcells i r Hi), Hget. }
  assert (Pd.str_accessor_ok col = true) as Hok.
  { unfold Pd.str_accessor_ok. apply orb_true_iff. left.
    apply existsb_exists. exists (Pd.Str str). split; [|done].
    apply list_elem_of_In. by apply list_elem_of_lookup_2 in Hcell. }
  simpl. unfold LengthCheck_validate. rewrite Hcol. simpl.
  unfold Pd.str_len. rewrite Hok. simpl.
  eexists. split; [done|]. unfold Pd.le_scalar.
  split; [by rewrite !length_map|]. split.
  - rewrite !list_lookup_fmap, Hcell. simpl. f_equal.
    destruct (Z.leb_spec (Z.of_nat (Pd.py_len str)) n).
    + by rewrite bool_decide_eq_true_2.
    + rewrite bool_decide_eq_false_2; [done|lia].
  - intros i' r' v' Hi' Hget' Hv'.
    rewrite !list_lookup_fmap, (Hcells i' r' Hi'), Hget'. simpl.
    destruct v'; simpl; [by destruct (Pd.float_column _)|done|].
    by destruct (Hv' s).
Qed.

Lemma length_on_records_witness :
  name_rows !! 1%nat = Some [("name", VStr "abcdef")]
  ∧ PyDict.get "name" [("name", VStr "abcdef")] = Some (VStr "abcdef")
  ∧ ∃ s, Check_validate (LengthCheck "name" 5) (Pd.from_records name_rows)
           false = Ok (VSeries s)
         ∧ length s = length name_rows
         ∧ s !! 1%nat
           = Some (bool_decide (Z.of_nat (Pd.py_len "abcdef") ≤ 5))
         ∧ ∀ i' r' v', name_rows !! i' = Some r' →
                       PyDict.get "name" r' = Some v' →
                       (∀ str', v' ≠ VStr str') →
                       s !! i' = Some false.
Proof.
  split; [reflexivity|]. split; [reflexivity|].
  exact (length_on_records name_rows 1 [("name", VStr "abcdef")] "name" 5
           "abcdef" eq_refl eq_refl).
Defined.

(** Characters, not bytes: the four letters of a word of eight bytes
    pass a maximum of 4. *)
Example length_counts_characters :
  String.length "żółć" = 8%nat
  ∧ Pd.py_len "żółć" = 4%nat
  ∧ Check_validate (LengthCheck "name" 4)
      (Pd.from_records [[("name", VStr "żółć")]; [("name", VStr "abcde")]])
      false
    = Ok (VSeries [true; false]).
Proof. by vm_compute. Qed.

(** ** The checks with [nullable] *)

Section NullableChecks.

Lemma handle_items_all_true (col : PandasValidationColumn.t) (check : Check)
    (items : list bool) :
  Forall (λ b, b = true) items →
  ∀ index, PandasValidationColumn.handle_items col check index items = col.
Proof.
  induction 1 as [|b items -> _ IH]; intros index; [done|]. simpl. apply IH.
Qed.

Lemma select_none {A} (l : list A) (mask : list bool) :
  Forall (λ b, b = false) mask → Pd.select mask l = [].
Proof.
  intros H. revert l.
  induction H as [|b mask -> _ IH]; intros [|x l]; simpl; done.
Qed.

Lemma length_nullable_mask (n : Z) (col : list Pd.Cell) :
  Pd.le_series (map Pd.cell_str_len col) (Pd.rand_int n (Pd.isnull col))
  = map is_empty_str col.
Proof.
  unfold Pd.le_series, Pd.rand_int, Pd.isnull.
  induction col as [|c col IH]; [done|]. simpl. rewrite IH. f_equal.
  destruct c as [| |z|s]; simpl; try done.
  rewrite Z.land_0_r. simpl. by destruct s.
Qed.

Lemma isin_nullable_mask (l : list Value) (col : list Pd.Cell) :
  Pd.and_series (Pd.isin l col) (Pd.isnull col)
  = map (λ c, Pd.is_pynone c && bool_decide (VNone ∈ l)) col.
Proof.
  unfold Pd.and_series, Pd.isin, Pd.isnull.
  induction col as [|c col IH]; [done|]. simpl. rewrite IH. f_equal.
  destruct c; simpl; by rewrite ?andb_false_r, ?andb_true_r.
Qed.

End NullableChecks.

(** X16.  On a frame none of whose column labels is empty, a column
    validator with [nullable] set records nothing, for any checks and
    any rows: each check hands it a frame, whose enumeration yields the
    column labels, and a label is falsy only when empty. *)
Theorem nullable_column_records_nothing (col col' : PandasValidationColumn.t)
    (df : Pd.DataFrame) :
  PandasValidationColumn.nullable col = true →
  "" ∉ Pd.columns df →
  PandasValidationColumn.validate col df = Ok col' →
  col' = col.
Proof.
  intros Hnull Hlabels. unfold PandasValidationColumn.validate.
  generalize (PandasValidationColumn.checks col) as cs.
  induction cs as [|c cs IH]; simpl; [by intros [= <-]|].
  rewrite Hnull.
  destruct (Check_validate c df true) as [v|] eqn:Hv; simpl; [|done].
  destruct (validate_nullable c df v Hv) as (df' & -> & Hcols & _).
  rewrite handle_items_all_true; [done|]. simpl. unfold Pd.iter_frame.
  rewrite Hcols. apply Forall_fmap, Forall_forall. intros k Hk. simpl.
  destruct (String.eqb_spec k ""); [by subst|done].
Qed.

Lemma nullable_column_records_nothing_witness :
  PandasValidationColumn.nullable (name_column true) = true
  ∧ ("" ∉ Pd.columns (Pd.from_records name_rows))
  ∧ PandasValidationColumn.validate (name_column true)
      (Pd.from_records name_rows) = Ok (name_column true)
  ∧ name_column true = name_column true.
Proof.
  assert ("" ∉ Pd.columns (Pd.from_records name_rows)) as H.
  { intros Hin. apply list_elem_of_singleton in Hin. discriminate Hin. }
  split; [reflexivity|]. split; [exact H|]. split; [reflexivity|].
  exact (nullable_column_records_nothing (name_column true) (name_column true)
           (Pd.from_records name_rows) eq_refl H eq_refl).
Defined.

(** X17.  With [nullable], [LengthCheck] returns the rows of the frame
    whose cell is the empty string, whatever the maximum length is: the
    lengths are compared with [self.length & isnull], which is 0 for
    every string. *)
Theorem length_nullable_keeps_empty_strings (f : string) (n : Z)
    (df : Pd.DataFrame) (col : list Pd.Cell) :
  Pd.getitem f df = Ok col →
  Pd.str_accessor_ok col = true →
  Check_validate (LengthCheck f n) df true
  = Ok (VFrame (Pd.getitem_mask (map is_empty_str col) df)).
Proof.
  intros Hcol Hok. simpl. unfold LengthCheck_validate. rewrite Hcol. simpl.
  unfold Pd.str_len. rewrite Hok. simpl. by rewrite length_nullable_mask.
Qed.

Lemma length_nullable_keeps_empty_strings_witness :
  let df := Pd.from_records empty_name_rows in
  Pd.getitem "name" df = Ok [Pd.Str ""; Pd.Str "abc"]
  ∧ Pd.str_accessor_ok [Pd.Str ""; Pd.Str "abc"] = true
  ∧ Check_validate (LengthCheck "name" 5) df true
    = Ok (VFrame (Pd.getitem_mask
                    (map is_empty_str [Pd.Str ""; Pd.Str "abc"]) df)).
Proof.
  split; [reflexivity|]. split; [reflexivity|].
  exact (length_nullable_keeps_empty_strings "name" 5
           (Pd.from_records empty_name_rows) [Pd.Str ""; Pd.Str "abc"]
           eq_refl eq_refl).
Defined.

(** X18.  With [nullable], [IsInCheck] returns the rows of the frame
    whose cell is [None], and only when [None] is a candidate: without
    [None] among the candidates the returned frame has no row. *)
Theorem isin_nullable_keeps_none_rows (f : string) (l : list Value)
    (df : Pd.DataFrame) (col : list Pd.Cell) :
  Pd.getitem f df = Ok col →
  Check_validate (IsInCheck f l) df true
  = Ok (VFrame (Pd.getitem_mask
                  (map (λ c, Pd.is_pynone c && bool_decide (VNone ∈ l)) col)
                  df))
  ∧ (VNone ∉ l →
     Pd.rows (Pd.getitem_mask
                (map (λ c, Pd.is_pynone c && bool_decide (VNone ∈ l)) col) df)
     = []).
Proof.
  intros Hcol. split.
  - simpl. unfold IsInCheck_validate. rewrite Hcol. simpl.
    by rewrite isin_nullable_mask.
  - intros Hnone. simpl. apply select_none, Forall_fmap, Forall_forall.
    intros c _. simpl. rewrite bool_decide_eq_false_2 by done.
    apply andb_false_r.
Qed.

Lemma isin_nullable_keeps_none_rows_witness :
  let df := Pd.from_records code_null_rows in
  let col := [Pd.Int 1; Pd.NaN; Pd.Int 3] in
  let l := [VInt 1; VInt 2] in
  Pd.getitem "code" df = Ok col
  ∧ Check_validate (IsInCheck "code" l) df true
    = Ok (VFrame (Pd.getitem_mask
                    (map (λ c, Pd.is_pynone c && bool_decide (VNone ∈ l)) col)
                    df))
  ∧ (VNone ∉ l →
     Pd.rows (Pd.getitem_mask
                (map (λ c, Pd.is_pynone c && bool_decide (VNone ∈ l)) col) df)
     = []).
Proof.
  split; [reflexivity|].
  exact (isin_nullable_keeps_none_rows "code" [VInt 1; VInt 2]
           (Pd.from_records code_null_rows) [Pd.Int 1; Pd.NaN; Pd.Int 3]
           eq_refl).
Defined.

(** ** The column validator, further *)

Section ColumnValidatorFurther.

(** [handle_error] touches the row [index] only, and there only the
    list under the column's name. *)
Lemma handle_error_lookup_other (col : PandasValidationColumn.t)
    (check : Check) (index j : Z) (k : string) :
  j ≠ index ∨ k ≠ PandasValidationColumn.name col →
  PandasValidationColumn.errors
    (PandasValidationColumn.handle_error col check index) !! j
    ≫= (λ fe, fe !! k)
  = PandasValidationColumn.errors col !! j ≫= (λ fe, fe !! k).
Proof.
  intros Hne. unfold PandasValidationColumn.handle_error.
  destruct (PandasValidationColumn.errors col !! index) as [row|] eqn:E;
    simpl; rewrite lookup_insert; destruct (decide (index = j)) as [<-|Hj];
    try done; destruct Hne as [?|Hk]; try done; rewrite E; simpl.
  - rewrite append_field_error_lookup. by rewrite decide_False.
  - by rewrite lookup_singleton_ne.
Qed.

Lemma handle_items_lookup_other (check : Check) (items : list bool)
    (j : Z) (k : string) :
  ∀ (col : PandasValidationColumn.t) (index : Z),
  j < index ∨ k ≠ PandasValidationColumn.name col →
  PandasValidationColumn.errors
    (PandasValidationColumn.handle_items col check index items) !! j
    ≫= (λ fe, fe !! k)
  = PandasValidationColumn.errors col !! j ≫= (λ fe, fe !! k).
Proof.
  induction items as [|row items IH]; intros col index Hne; [done|].
  simpl. rewrite IH.
  - destruct row; [done|]. apply handle_error_lookup_other.
    destruct Hne as [?|?]; [left; lia|by right].
  - destruct Hne as [?|Hk]; [left; lia|right].
    destruct row; [done|].
    by destruct (handle_error_keeps col check index) as (-> & _).
Qed.

Lemma handle_items_coerce (check : Check) (items : list bool) :
  ∀ (col : PandasValidationColumn.t) (index : Z),
  PandasValidationColumn.coerce
    (PandasValidationColumn.handle_items col check index items)
  = PandasValidationColumn.coerce col.
Proof.
  induction items as [|b items IH]; intros col index; [done|].
  simpl. rewrite IH. destruct b; [done|].
  unfold PandasValidationColumn.handle_error.
  by destruct (PandasValidationColumn.errors col !! index).
Qed.

Lemma validate_checks_lookup_other (df : Pd.DataFrame) (cs : list Check)
    (j : Z) (k : string) :
  ∀ col col' : PandasValidationColumn.t,
  PandasValidationColumn.validate_checks col cs df = Ok col' →
  PandasValidationColumn.name col' = PandasValidationColumn.name col
  ∧ PandasValidationColumn.checks col' = PandasValidationColumn.checks col
  ∧ PandasValidationColumn.coerce col' = PandasValidationColumn.coerce col
  ∧ PandasValidationColumn.nullable col' = PandasValidationColumn.nullable col
  ∧ (j < 0 ∨ k ≠ PandasValidationColumn.name col →
     PandasValidationColumn.errors col' !! j ≫= (λ fe, fe !! k)
     = PandasValidationColumn.errors col !! j ≫= (λ fe, fe !! k)).
Proof.
  induction cs as [|c cs IH]; intros col col'; simpl.
  - by intros [= <-].
  - destruct (Check_validate c df (PandasValidationColumn.nullable col))
      as [v|]; simpl; [|done].
    intros H. apply IH in H as (Hn & Hc & Hco & Hu & Hother).
    destruct (handle_items_spec c (truth_items v) col 0)
      as (Hn' & Hc' & Hu' & _).
    pose proof (handle_items_coerce c (truth_items v) col 0) as Hco'.
    split; [congruence|]. split; [congruence|]. split; [congruence|].
    split; [congruence|]. intros Hjk. rewrite Hother.
    + apply handle_items_lookup_other. destruct Hjk; [by left|by right].
    + rewrite Hn'. destruct Hjk; [by left|by right].
Qed.

(** A column validator created by the constructor holds, after
    [validate], lists under its own name only. *)
Lemma fresh_column_own_name (df : Pd.DataFrame)
    (col col' : PandasValidationColumn.t) (j : Z) (k : string) :
  PandasValidationColumn.errors col = ∅ →
  PandasValidationColumn.validate col df = Ok col' →
  k ≠ PandasValidationColumn.name col' →
  default ∅ (PandasValidationColumn.errors col' !! j) !! k = None.
Proof.
  intros Hempty Hval Hk.
  destruct (validate_checks_lookup_other df _ j k col col' Hval)
    as (Hn & _ & _ & _ & Hother).
  rewrite Hn in Hk. specialize (Hother (or_intror Hk)).
  rewrite Hempty, lookup_empty in Hother. simpl in Hother.
  destruct (PandasValidationColumn.errors col' !! j); [done|].
  apply lookup_empty.
Qed.

End ColumnValidatorFurther.

(** X19.  [validate] of a column validator changes nothing but its error
    map, and there only the lists under the column's own name, in rows
    of index 0 and above: the name, the checks and the options stay, and
    so do the lists under every other field and in every row of negative
    index. *)
Theorem column_validate_own_cells (col col' : PandasValidationColumn.t)
    (df : Pd.DataFrame) :
  PandasValidationColumn.validate col df = Ok col' →
  PandasValidationColumn.name col' = PandasValidationColumn.name col
  ∧ PandasValidationColumn.checks col' = PandasValidationColumn.checks col
  ∧ PandasValidationColumn.coerce col' = PandasValidationColumn.coerce col
  ∧ PandasValidationColumn.nullable col' = PandasValidationColumn.nullable col
  ∧ ∀ j k, j < 0 ∨ k ≠ PandasValidationColumn.name col →
           cell_errors (PandasValidationColumn.errors col') j k
           = cell_errors (PandasValidationColumn.errors col) j k.
Proof.
  intros Hval. unfold PandasValidationColumn.validate in Hval.
  split; [|split; [|split; [|split]]];
    try (by destruct (validate_checks_lookup_other df _ 0 "" col col' Hval)
          as (? & ? & ? & ? & _)).
  intros j k Hjk.
  destruct (validate_checks_lookup_other df _ j k col col' Hval)
    as (_ & _ & _ & _ & Hother).
  unfold cell_errors. by rewrite Hother.
Qed.

Lemma column_validate_own_cells_witness :
  let col := name_column_two_checks in
  let df := Pd.from_records name_rows in
  let col' := match PandasValidationColumn.validate col df with
              | Ok c => c
              | Raise _ => col
              end in
  PandasValidationColumn.validate col df = Ok col'
  ∧ PandasValidationColumn.name col' = PandasValidationColumn.name col
  ∧ PandasValidationColumn.checks col' = PandasValidationColumn.checks col
  ∧ PandasValidationColumn.coerce col' = PandasValidationColumn.coerce col
  ∧ PandasValidationColumn.nullable col' = PandasValidationColumn.nullable col
  ∧ ∀ j k, j < 0 ∨ k ≠ PandasValidationColumn.name col →
           cell_errors (PandasValidationColumn.errors col') j k
           = cell_errors (PandasValidationColumn.errors col) j k.
Proof.
  assert (PandasValidationColumn.validate name_column_two_checks
            (Pd.from_records name_rows)
          = Ok (match PandasValidationColumn.validate name_column_two_checks
                        (Pd.from_records name_rows) with
                | Ok c => c
                | Raise _ => name_column_two_checks
                end)) as H by (vm_compute; reflexivity).
  split; [exact H|].
  exact (column_validate_own_cells name_column_two_checks _
           (Pd.from_records name_rows) H).
Defined.

(** X20.  When a check raises, [validate] of the column validator raises
    the same exception: the checks before it have run, the checks after
    it are not reached. *)
Theorem column_validate_raises (col : PandasValidationColumn.t)
    (df : Pd.DataFrame) (before after : list Check) (c : Check) (e : PyExc) :
  PandasValidationColumn.checks col = before ++ c :: after →
  Forall (λ c', ∃ v, Check_validate c' df (PandasValidationColumn.nullable col)
                     = Ok v) before →
  Check_validate c df (PandasValidationColumn.nullable col) = Raise e →
  PandasValidationColumn.validate col df = Raise e.
Proof.
  intros Hchecks Hbefore Hc. unfold PandasValidationColumn.validate.
  rewrite Hchecks. clear Hchecks.
  revert col Hbefore Hc. induction before as [|c' before IH];
    intros col Hbefore Hc; simpl.
  - by rewrite Hc.
  - inversion Hbefore as [|? ? [v Hv] Hrest]; subst. rewrite Hv. simpl.
    destruct (handle_items_spec c' (truth_items v) col 0)
      as (_ & _ & Hnull & _).
    apply IH; by rewrite Hnull.
Qed.

Lemma column_validate_raises_witness :
  let col := name_column_bad_check in
  let df := Pd.from_records name_rows in
  PandasValidationColumn.checks col
  = [IsInCheck "name" [VStr "abc"]]
    ++ (LengthCheck "title" 5 :: [LengthCheck "name" 5])
  ∧ Forall (λ c', ∃ v, Check_validate c' df
                         (PandasValidationColumn.nullable col) = Ok v)
           [IsInCheck "name" [VStr "abc"]]
  ∧ Check_validate (LengthCheck "title" 5) df
      (PandasValidationColumn.nullable col) = Raise KeyError
  ∧ PandasValidationColumn.validate col df = Raise KeyError.
Proof.
  assert (Forall (λ c', ∃ v, Check_validate c' (Pd.from_records name_rows)
                               (PandasValidationColumn.nullable
                                  name_column_bad_check) = Ok v)
                 [IsInCheck "name" [VStr "abc"]]) as H.
  { constructor; [|constructor]. eexists. reflexivity. }
  split; [reflexivity|]. split; [exact H|]. split; [reflexivity|].
  exact (column_validate_raises name_column_bad_check
           (Pd.from_records name_rows) [IsInCheck "name" [VStr "abc"]]
           [LengthCheck "name" 5] (LengthCheck "title" 5) KeyError
           eq_refl H eq_refl).
Defined.

(** X21.  A column validator keeps its error map between calls: when
    its checks return pass/fail vectors, a second [validate] on the same
    rows appends the same messages again, so that every cell where a
    vector is [False] holds its messages twice. *)
Theorem column_validate_twice (col : PandasValidationColumn.t)
    (df : Pd.DataFrame) (ss : list (list bool)) :
  Forall2 (λ c s, Check_validate c df (PandasValidationColumn.nullable col)
                  = Ok (VSeries s))
          (PandasValidationColumn.checks col) ss →
  ∃ col1 col2,
    PandasValidationColumn.validate col df = Ok col1
    ∧ PandasValidationColumn.validate col1 df = Ok col2
    ∧ ∀ j, cell_errors (PandasValidationColumn.errors col2) j
                       (PandasValidationColumn.name col)
           = cell_errors (PandasValidationColumn.errors col) j
                         (PandasValidationColumn.name col)
             ++ vector_failures (PandasValidationColumn.checks col) ss j
             ++ vector_failures (PandasValidationColumn.checks col) ss j.
Proof.
  intros Hall.
  destruct (validate_vectors_spec df ss col Hall)
    as (col1 & Hval1 & Hn1 & Hc1 & Hu1 & Hcell1).
  destruct (validate_vectors_spec df ss col1)
    as (col2 & Hval2 & Hn2 & Hc2 & Hu2 & Hcell2).
  { by rewrite Hc1, Hu1. }
  exists col1, col2. split; [done|]. split; [done|].
  intros j. rewrite <- Hn1 at 1. rewrite Hcell2, Hn1, Hcell1, Hc1.
  by rewrite <- app_assoc.
Qed.

Lemma column_validate_twice_witness :
  let col := name_column_two_checks in
  let df := Pd.from_records name_rows in
  let ss := [[true; false]; [true; false]] in
  Forall2 (λ c s, Check_validate c df (PandasValidationColumn.nullable col)
                  = Ok (VSeries s))
          (PandasValidationColumn.checks col) ss
  ∧ ∃ col1 col2,
      PandasValidationColumn.validate col df = Ok col1
      ∧ PandasValidationColumn.validate col1 df = Ok col2
      ∧ ∀ j, cell_errors (PandasValidationColumn.errors col2) j
                         (PandasValidationColumn.name col)
             = cell_errors (PandasValidationColumn.errors col) j
                           (PandasValidationColumn.name col)
               ++ vector_failures (PandasValidationColumn.checks col) ss j
               ++ vector_failures (PandasValidationColumn.checks col) ss j.
Proof.
  assert (Forall2
            (λ c s, Check_validate c (Pd.from_records name_rows)
                      (PandasValidationColumn.nullable name_column_two_checks)
                    = Ok (VSeries s))
            (PandasValidationColumn.checks name_column_two_checks)
            [[true; false]; [true; false]]) as Hall.
  { repeat constructor. }
  split; [exact Hall|].
  exact (column_validate_twice name_column_two_checks
           (Pd.from_records name_rows)
           [[true; false]; [true; false]] Hall).
Defined.

(** The row of the example, validated twice: four messages in the cell
    of row 1. *)
Example two_checks_twice_four_messages :
  ∃ col1 col2,
    PandasValidationColumn.validate name_column_two_checks
      (Pd.from_records name_rows) = Ok col1
    ∧ PandasValidationColumn.validate col1 (Pd.from_records name_rows)
      = Ok col2
    ∧ cell_errors (PandasValidationColumn.errors col2) 1 "name"
      = [get_error (IsInCheck "name" [VStr "abc"]);
         get_error (LengthCheck "name" 5);
         get_error (IsInCheck "name" [VStr "abc"]);
         get_error (LengthCheck "name" 5)].
Proof.
  eexists _, _. split; [vm_compute; reflexivity|].
  split; [vm_compute; reflexivity|]. by vm_compute.
Qed.

(** ** The validation frame, further *)

Section ValidationFrameFurther.

Lemma bind_row_empty (idx : Z) (acc : Result (gmap Z FieldErrors)) :
  PandasValidationFrame.bind_row idx ∅ acc = acc.
Proof. unfold PandasValidationFrame.bind_row. apply map_fold_empty. Qed.

Lemma bind_row_missing (idx : Z) (curr : FieldErrors)
    (rows : gmap Z FieldErrors) :
  rows !! idx = None → curr ≠ ∅ →
  PandasValidationFrame.bind_row idx curr (Ok rows) = Raise KeyError.
Proof.
  intros Hidx. unfold PandasValidationFrame.bind_row.
  cut ((curr = ∅ ∧ map_fold
                      (λ key val acc',
                         rows0 ← acc';
                         match rows0 !! idx with
                         | Some fe => Ok (<[idx := <[key := val]> fe]> rows0)
                         | None => Raise KeyError
                         end) (Ok rows) curr = Ok rows)
       ∨ (curr ≠ ∅ ∧ map_fold
                        (λ key val acc',
                           rows0 ← acc';
                           match rows0 !! idx with
                           | Some fe => Ok (<[idx := <[key := val]> fe]> rows0)
                           | None => Raise KeyError
                           end) (Ok rows) curr = Raise KeyError)).
  { intros [[? _]|[_ ?]]; [done|by intros _]. }
  apply (map_fold_weak_ind
           (λ r m, (m = ∅ ∧ r = Ok rows) ∨ (m ≠ ∅ ∧ r = Raise KeyError))).
  - by left.
  - intros key val m r _ [[_ ->]|[_ ->]]; right; simpl.
    + rewrite Hidx. split; [apply insert_non_empty|done].
    + split; [apply insert_non_empty|done].
Qed.

(** [bind_errors] returns exactly when every row of the column that
    holds a field has an entry in the merged map; it raises [KeyError]
    otherwise. *)
Lemma bind_errors_cases (rows errs : gmap Z FieldErrors) :
  (rows_present rows errs
   ∧ ∃ rows', PandasValidationFrame.bind_errors rows errs = Ok rows')
  ∨ (¬ rows_present rows errs
     ∧ PandasValidationFrame.bind_errors rows errs = Raise KeyError).
Proof.
  unfold PandasValidationFrame.bind_errors.
  cut ((rows_present rows errs
        ∧ ∃ rows', map_fold PandasValidationFrame.bind_row (Ok rows) errs
                   = Ok rows'
                   ∧ ∀ j, is_Some (rows' !! j) ↔ is_Some (rows !! j))
       ∨ (¬ rows_present rows errs
          ∧ map_fold PandasValidationFrame.bind_row (Ok rows) errs
            = Raise KeyError)).
  { intros [[? (rows' & ? & _)]|?]; [left|by right]. split; [done|by eexists]. }
  apply (map_fold_weak_ind
           (λ r m,
              (rows_present rows m
               ∧ ∃ rows', r = Ok rows'
                          ∧ ∀ j, is_Some (rows' !! j) ↔ is_Some (rows !! j))
              ∨ (¬ rows_present rows m ∧ r = Raise KeyError))).
  - left. split; [|by exists rows]. intros idx curr Hl. by rewrite lookup_empty in Hl.
  - intros i x m r Hm [[Hgood (rows1 & -> & Hdom)]|[Hbad ->]].
    + assert (rows_present rows (<[i:=x]> m)
              ↔ (x ≠ ∅ → is_Some (rows !! i))) as Hiff.
      { split.
        - intros H. apply (H i x). by rewrite lookup_insert_eq.
        - intros H idx curr Hl Hne.
          destruct (decide (idx = i)) as [->|Hi].
          + rewrite lookup_insert_eq in Hl. injection Hl as <-. by apply H.
          + rewrite lookup_insert_ne in Hl by done. by apply (Hgood idx curr). }
      destruct (decide (x = ∅)) as [->|Hx].
      * left. split; [by apply Hiff|]. rewrite bind_row_empty. by exists rows1.
      * destruct (rows !! i) as [fe|] eqn:Hi.
        -- left. split; [by apply Hiff|].
           destruct (bind_row_returns i x rows1) as (rows2 & Hb).
           { apply Hdom. by rewrite Hi. }
           exists rows2. split; [done|].
           destruct (bind_row_ok i x rows1 rows2 Hb) as [Hother Hsame].
           intros j. rewrite <- Hdom. destruct (decide (j = i)) as [->|Hne].
           ++ by rewrite Hsame, fmap_is_Some.
           ++ by rewrite Hother.
        -- right. split.
           ++ rewrite Hiff. intros H. by destruct (H Hx).
           ++ apply bind_row_missing; [|done].
              apply eq_None_not_Some. rewrite Hdom, Hi. by intros [? ?].
    + right. split; [|apply bind_row_raise].
      intros H. apply Hbad. intros idx curr Hl Hne.
      apply (H idx curr); [|done].
      rewrite lookup_insert_ne; [done|]. intros <-. by rewrite Hm in Hl.
Qed.

Lemma init_errors_field (start stop j : Z) (k : string)
    (rows : gmap Z FieldErrors) :
  PandasValidationFrame.init_errors start stop rows !! j ≫= (λ fe, fe !! k)
  = rows !! j ≫= (λ fe, fe !! k).
Proof.
  rewrite init_errors_lookup. case_decide; [|done].
  destruct (rows !! j); [done|]. simpl. apply lookup_empty.
Qed.

(** The loop over the columns, in full: each column is validated once,
    in order; the flag falls when a validated column holds errors; a
    bound column has all its rows in the merged map; and each row entry
    of the merged map is the former entry overwritten by the columns. *)
Lemma validate_fields_full (df : Pd.DataFrame)
    (todo : PyDict.t PandasValidationColumn.t) :
  ∀ (done done' : PyDict.t PandasValidationColumn.t)
    (rows rows' : gmap Z FieldErrors) (valid valid' : bool),
  PandasValidationFrame.validate_fields done todo rows valid df
  = Ok (done', rows', valid') →
  ∃ cols,
    done' = done ++ cols
    ∧ Forall2 (λ nc nc', nc'.1 = nc.1
                         ∧ PandasValidationColumn.validate nc.2 df = Ok nc'.2)
              todo cols
    ∧ valid'
      = valid && forallb (λ nc, bool_decide
                                  (PandasValidationColumn.errors nc.2 = ∅))
                         cols
    ∧ Forall (λ nc, rows_present rows (PandasValidationColumn.errors nc.2)) cols
    ∧ ∀ j, rows' !! j = merge_columns cols j <$> rows !! j.
Proof.
  induction todo as [|[name field] todo IH];
    intros done done' rows rows' valid valid'; simpl.
  - intros [= <- <- <-]. exists []. rewrite app_nil_r, andb_true_r.
    split; [done|]. split; [constructor|]. split; [done|].
    split; [constructor|]. intros j. simpl. by destruct (rows !! j).
  - destruct (PandasValidationColumn.validate field df) as [field'|] eqn:Hval;
      simpl; [|done].
    case_bool_decide as Hempty.
    + intros H. destruct (IH _ _ _ _ _ _ H)
        as (cols & -> & Hcols & -> & Hpres & Hrows).
      exists ((name, field') :: cols). rewrite <- app_assoc. simpl.
      split; [done|]. split; [by constructor|].
      split; [by rewrite bool_decide_eq_true_2|]. split.
      * constructor; [|done]. simpl. intros idx curr Hl.
        by rewrite Hempty, lookup_empty in Hl.
      * intros j. rewrite Hrows, Hempty, lookup_empty. simpl.
        destruct (rows !! j); simpl; [|done]. by rewrite (left_id_L ∅ (∪)).
    + destruct (bind_errors_cases rows (PandasValidationColumn.errors field'))
        as [[Hgood (rows1 & Hb)]|[_ Hb]]; rewrite Hb; simpl; [|done].
      pose proof (bind_errors_ok _ _ _ Hb) as Hrows1.
      intros H. destruct (IH _ _ _ _ _ _ H)
        as (cols & -> & Hcols & -> & Hpres & Hrows).
      exists ((name, field') :: cols). rewrite <- app_assoc. simpl.
      split; [done|]. split; [by constructor|]. split.
      { rewrite bool_decide_eq_false_2 by done. simpl.
        by rewrite andb_false_r. }
      split.
      * constructor; [done|]. eapply Forall_impl; [exact Hpres|].
        intros nc Hnc idx curr Hl Hne. simpl in *.
        specialize (Hnc idx curr Hl Hne).
        by rewrite Hrows1, fmap_is_Some in Hnc.
      * intros j. rewrite Hrows, Hrows1. by destruct (rows !! j).
Qed.

Lemma merge_columns_absent (cols : PyDict.t PandasValidationColumn.t)
    (j : Z) (k : string) :
  Forall (λ nc, default ∅ (PandasValidationColumn.errors nc.2 !! j) !! k = None)
         cols →
  ∀ fe, merge_columns cols j fe !! k = fe !! k.
Proof.
  induction 1 as [|nc cols Hnc _ IH]; intros fe; [done|].
  simpl. rewrite IH, lookup_union, Hnc. by destruct (fe !! k).
Qed.

End ValidationFrameFurther.

(** X22.  When the frame's [validate] returns, every column validator
    has been validated once, in the order of the dictionary and under
    its key; the flag [valid] is the former flag lowered when a
    validated column holds errors, so it never rises again; the list
    under ['__all__'] is untouched. *)
Theorem frame_validate_flag (frame frame' : PandasValidationFrame.t)
    (df : Pd.DataFrame) :
  PandasValidationFrame.validate frame df = Ok frame' →
  Forall2 (λ nc nc', nc'.1 = nc.1
                     ∧ PandasValidationColumn.validate nc.2 df = Ok nc'.2)
          (PandasValidationFrame.cached_fields frame)
          (PandasValidationFrame.cached_fields frame')
  ∧ PandasValidationFrame.valid frame'
    = PandasValidationFrame.valid frame
      && forallb (λ nc, bool_decide (PandasValidationColumn.errors nc.2 = ∅))
                 (PandasValidationFrame.cached_fields frame')
  ∧ em_all (PandasValidationFrame.errors frame')
    = em_all (PandasValidationFrame.errors frame).
Proof.
  intros Hval. unfold PandasValidationFrame.validate in Hval.
  destruct (Pd.index df) as [start stop|]; [|done].
  destruct (PandasValidationFrame.validate_fields _ _ _ _ _)
    as [[[fields rows'] valid']|] eqn:Hf; simpl in Hval; [|done].
  injection Hval as <-. simpl.
  destruct (validate_fields_full _ _ _ _ _ _ _ _ Hf)
    as (cols & -> & Hcols & -> & _).
  by repeat split.
Qed.

Lemma frame_validate_flag_witness :
  let frame := code_frame false in
  let df := Pd.from_records code_rows in
  PandasValidationFrame.validate frame df = Ok (validated frame df)
  ∧ Forall2 (λ nc nc', nc'.1 = nc.1
                       ∧ PandasValidationColumn.validate nc.2 df = Ok nc'.2)
            (PandasValidationFrame.cached_fields frame)
            (PandasValidationFrame.cached_fields (validated frame df))
  ∧ PandasValidationFrame.valid (validated frame df)
    = PandasValidationFrame.valid frame
      && forallb (λ nc, bool_decide (PandasValidationColumn.errors nc.2 = ∅))
                 (PandasValidationFrame.cached_fields (validated frame df))
  ∧ em_all (PandasValidationFrame.errors (validated frame df))
    = em_all (PandasValidationFrame.errors frame).
Proof.
  assert (PandasValidationFrame.validate (code_frame false)
            (Pd.from_records code_rows)
          = Ok (validated (code_frame false) (Pd.from_records code_rows)))
    as Hval by (vm_compute; reflexivity).
  split; [exact Hval|].
  exact (frame_validate_flag (code_frame false) _ (Pd.from_records code_rows)
           Hval).
Defined.

(** X23.  [bind_errors] returns exactly when every row for which the
    column holds a field has an entry in the merged map, and raises
    [KeyError] otherwise; when it returns, every row keeps its entry,
    with the column's lists written over the lists of the same fields
    and the other fields kept. *)
Theorem bind_errors_returns_iff (rows errs : gmap Z FieldErrors) :
  ((∃ rows', PandasValidationFrame.bind_errors rows errs = Ok rows')
   ↔ rows_present rows errs)
  ∧ (∀ e, PandasValidationFrame.bind_errors rows errs = Raise e → e = KeyError)
  ∧ (∀ rows', PandasValidationFrame.bind_errors rows errs = Ok rows' →
       ∀ j, rows' !! j = (λ fe, default ∅ (errs !! j) ∪ fe) <$> rows !! j).
Proof.
  split; [|split].
  - destruct (bind_errors_cases rows errs) as [[Hgood Hret]|[Hbad Hraise]].
    + by split.
    + split; [|done]. intros [rows' Hr]. by rewrite Hraise in Hr.
  - intros e He.
    destruct (bind_errors_cases rows errs) as [[_ [rows' Hr]]|[_ Hraise]].
    + by rewrite Hr in He.
    + rewrite Hraise in He. by injection He as <-.
  - apply bind_errors_ok.
Qed.

(** X24.  A frame whose column validators are as the constructor made
    them and have distinct names: when [validate] returns, the merged
    map holds, for each row and each column, the list of the column
    validator if it has one for that row, and otherwise what the merged
    map held before.  A list recorded before for the same cell, such as
    a hook's error, is replaced by the column's list. *)
Theorem frame_merge_cell (frame frame' : PandasValidationFrame.t)
    (df : Pd.DataFrame) :
  PandasValidationFrame.validate frame df = Ok frame' →
  NoDup (map (λ nc, PandasValidationColumn.name nc.2)
             (PandasValidationFrame.cached_fields frame)) →
  Forall (λ nc, PandasValidationColumn.errors nc.2 = ∅)
         (PandasValidationFrame.cached_fields frame) →
  ∀ nc j, nc ∈ PandasValidationFrame.cached_fields frame' →
    em_rows (PandasValidationFrame.errors frame') !! j
      ≫= (λ fe, fe !! PandasValidationColumn.name nc.2)
    = match PandasValidationColumn.errors nc.2 !! j
              ≫= (λ fe, fe !! PandasValidationColumn.name nc.2) with
      | Some l => Some l
      | None => em_rows (PandasValidationFrame.errors frame) !! j
                  ≫= (λ fe, fe !! PandasValidationColumn.name nc.2)
      end.
Proof.
  intros Hval Hnd Hfresh nc j Hnc.
  unfold PandasValidationFrame.validate in Hval.
  destruct (Pd.index df) as [start stop|]; [|done].
  destruct (PandasValidationFrame.validate_fields _ _ _ _ _)
    as [[[fields rows'] valid']|] eqn:Hf; simpl in Hval; [|done].
  injection Hval as <-. simpl in *.
  destruct (validate_fields_full _ _ _ _ _ _ _ _ Hf)
    as (cols & -> & Hcols & _ & Hpres & Hrows).
  simpl in Hnc.
  (* the validated columns keep the names and hold their own name only *)
  assert (map (λ nc, PandasValidationColumn.name nc.2) cols
          = map (λ nc, PandasValidationColumn.name nc.2)
                (PandasValidationFrame.cached_fields frame)) as Hnames.
  { clear -Hcols. induction Hcols as [|x y l l' [_ Hxy] _ IH]; [done|].
    simpl. rewrite IH. f_equal.
    by destruct (validate_checks_lookup_other df _ 0 "" _ _ Hxy) as (-> & _). }
  assert (Forall (λ nc', ∀ k, k ≠ PandasValidationColumn.name nc'.2 →
                    default ∅ (PandasValidationColumn.errors nc'.2 !! j) !! k
                    = None) cols) as Hown.
  { clear -Hcols Hfresh. induction Hcols as [|x y l l' [_ Hxy] _ IH];
      [constructor|].
    inversion Hfresh as [|? ? Hx Hl]; subst. constructor; [|by apply IH].
    intros k Hk. by apply (fresh_column_own_name df x.2 y.2). }
  rewrite <- Hnames in Hnd. clear Hnames Hcols Hfresh Hf.
  apply list_elem_of_split in Hnc as (pre & post & ->).
  rewrite map_app in Hnd. simpl in Hnd.
  apply NoDup_app in Hnd as (_ & Hpre & Hpost).
  apply NoDup_cons in Hpost as [Hpost _].
  apply Forall_app in Hown as [Hown_pre Hown_post].
  apply Forall_cons in Hown_post as [_ Hown_post].
  apply Forall_app in Hpres as [_ Hpres].
  apply Forall_cons in Hpres as [Hpres _].
  set (k := PandasValidationColumn.name nc.2) in *.
  assert (Forall (λ nc', default ∅ (PandasValidationColumn.errors nc'.2 !! j) !! k
                         = None) pre) as Habs_pre.
  { apply Forall_forall. intros nc' Hin.
    rewrite Forall_forall in Hown_pre. apply (Hown_pre nc' Hin).
    intros Heq. apply (Hpre k).
    - rewrite Heq. apply list_elem_of_fmap. by exists nc'.
    - apply list_elem_of_here. }
  assert (Forall (λ nc', default ∅ (PandasValidationColumn.errors nc'.2 !! j) !! k
                         = None) post) as Habs_post.
  { apply Forall_forall. intros nc' Hin.
    rewrite Forall_forall in Hown_post. apply (Hown_post nc' Hin).
    intros Heq. apply Hpost. rewrite Heq.
    apply list_elem_of_fmap. by exists nc'. }
  assert (∀ l1 l2 fe0, merge_columns (l1 ++ l2) j fe0
                       = merge_columns l2 j (merge_columns l1 j fe0)) as Happ.
  { induction l1 as [|x l1 IH]; intros l2 fe0; [done|]. simpl. apply IH. }
  assert (default ∅ (PandasValidationColumn.errors nc.2 !! j) !! k
          = PandasValidationColumn.errors nc.2 !! j ≫= (λ fe, fe !! k)) as Hdef.
  { destruct (PandasValidationColumn.errors nc.2 !! j); [done|].
    apply lookup_empty. }
  rewrite Hrows, <- Hdef.
  rewrite <- (init_errors_field start stop j k
                (em_rows (PandasValidationFrame.errors frame))).
  destruct (PandasValidationFrame.init_errors start stop _ !! j) as [fe0|] eqn:E0;
    simpl.
  - rewrite Happ. simpl.
    rewrite merge_columns_absent, lookup_union, merge_columns_absent by done.
    by destruct (default ∅ (PandasValidationColumn.errors nc.2 !! j) !! k),
         (fe0 !! k).
  - destruct (default ∅ (PandasValidationColumn.errors nc.2 !! j) !! k)
      as [l|] eqn:El; [|done].
    destruct (PandasValidationColumn.errors nc.2 !! j) as [curr|] eqn:Ec;
      [|simpl in El; by rewrite lookup_empty in El].
    simpl in El. destruct (Hpres j curr Ec) as [fe Hfe].
    + intros ->. by rewrite lookup_empty in El.
    + by rewrite E0 in Hfe.
Qed.

Lemma frame_merge_cell_witness :
  let frame := two_column_frame in
  let df := Pd.from_records two_column_rows in
  PandasValidationFrame.validate frame df = Ok (validated frame df)
  ∧ NoDup (map (λ nc, PandasValidationColumn.name nc.2)
               (PandasValidationFrame.cached_fields frame))
  ∧ Forall (λ nc, PandasValidationColumn.errors nc.2 = ∅)
           (PandasValidationFrame.cached_fields frame)
  ∧ ∀ nc j, nc ∈ PandasValidationFrame.cached_fields (validated frame df) →
      em_rows (PandasValidationFrame.errors (validated frame df)) !! j
        ≫= (λ fe, fe !! PandasValidationColumn.name nc.2)
      = match PandasValidationColumn.errors nc.2 !! j
                ≫= (λ fe, fe !! PandasValidationColumn.name nc.2) with
        | Some l => Some l
        | None => em_rows (PandasValidationFrame.errors frame) !! j
                    ≫= (λ fe, fe !! PandasValidationColumn.name nc.2)
        end.
Proof.
  assert (PandasValidationFrame.validate two_column_frame
            (Pd.from_records two_column_rows)
          = Ok (validated two_column_frame (Pd.from_records two_column_rows)))
    as Hval by (vm_compute; reflexivity).
  assert (NoDup (map (λ nc, PandasValidationColumn.name nc.2)
                     (PandasValidationFrame.cached_fields two_column_frame)))
    as Hnd.
  { simpl. apply NoDup_cons. split.
    - intros H. apply list_elem_of_singleton in H. discriminate H.
    - apply NoDup_singleton. }
  assert (Forall (λ nc, PandasValidationColumn.errors nc.2 = ∅)
                 (PandasValidationFrame.cached_fields two_column_frame))
    as Hfresh by (repeat constructor).
  split; [exact Hval|]. split; [exact Hnd|]. split; [exact Hfresh|].
  exact (frame_merge_cell two_column_frame _
           (Pd.from_records two_column_rows) Hval Hnd Hfresh).
Defined.

(** In that run the code of row 1 failed its check: the cell held the
    error of a hook before and holds the message of the check alone
    afterwards. *)
Example hook_error_overwritten :
  cell_errors (em_rows (PandasValidationFrame.errors two_column_frame)) 1 "code"
  = [mkValidationError "from a hook"]
  ∧ cell_errors
      (em_rows (PandasValidationFrame.errors
                  (validated two_column_frame
                     (Pd.from_records two_column_rows)))) 1 "code"
    = [get_error (IsInCheck "code" [VInt 1; VInt 2])].
Proof. split; by vm_compute. Qed.

(** ** The validation fields of a model form *)

Section ValidationTypes.
Variable model : list Field.t.

Lemma get_field_name (item : string) (fld : Field.t) :
  get_field model item = Some fld →
  (Field.name fld = item ∨ Field.attname fld = item) ∧ fld ∈ model.
Proof.
  intros H. apply find_some in H as [Hin Heq].
  unfold answers_to in Heq. apply orb_true_iff in Heq.
  rewrite !String.eqb_eq in Heq. split; [done|].
  apply list_elem_of_In. by apply in_rev.
Qed.

Lemma handle_type_column (cache : PyDict.t (list Check)) (fld : Field.t) :
  PandasValidationColumn.name (handle_type cache fld).1 = Field.name fld
  ∧ PandasValidationColumn.errors (handle_type cache fld).1 = ∅
  ∧ PandasValidationColumn.nullable (handle_type cache fld).1
    = Field.null fld || Field.blank fld.
Proof.
  unfold handle_type.
  by destruct (if is_relation fld then _ else _) as [rel cache'].
Qed.

Lemma validation_types_spec (fields : list string) :
  ∀ cache_dict cache,
  (is_Some (validation_types model fields cache_dict cache)
   ↔ ∀ item, item ∈ fields → is_Some (get_field model item))
  ∧ ∀ vf cache',
      validation_types model fields cache_dict cache = Some (vf, cache') →
      PyDict.keys vf = fold_left Pd.add_key fields (PyDict.keys cache_dict)
      ∧ (columns_named model cache_dict → columns_named model vf).
Proof.
  induction fields as [|item fields IH]; intros cache_dict cache; simpl.
  - split.
    + split; [|by eexists]. intros _ item Hin. by apply not_elem_of_nil in Hin.
    + by intros vf cache' [= <- <-].
  - destruct (get_field model item) as [fld|] eqn:Hfld.
    + destruct (handle_type cache fld) as [col cache1] eqn:Hht.
      destruct (IH (PyDict.set item col cache_dict) cache1) as [Hiff Hres].
      split.
      * rewrite Hiff. split.
        -- intros H x Hx. apply elem_of_cons in Hx as [->|Hx];
             [by rewrite Hfld|by apply H].
        -- intros H x Hx. by apply H, list_elem_of_further.
      * intros vf cache' Hv. destruct (Hres vf cache' Hv) as [Hkeys Hnamed].
        split; [by rewrite Hkeys, keys_set|].
        intros Hcd. apply Hnamed. intros k col' Hget.
        destruct (decide (item = k)) as [->|Hne].
        -- rewrite get_set_eq in Hget. injection Hget as <-.
           exists fld.
           pose proof (handle_type_column cache fld) as (Hn & He & Hu).
           rewrite Hht in Hn, He, Hu. by simpl in *.
        -- rewrite get_set_ne in Hget by done. by apply Hcd.
    + split; [|done]. split; [by intros [? ?]|].
      intros H. specialize (H item (list_elem_of_here _ _)).
      rewrite Hfld in H. by destruct H.
Qed.

Lemma handle_type_targets (cache : PyDict.t (list Check)) (fld : Field.t) :
  (∀ f1 f2, f1 ∈ model → f2 ∈ model →
            Field.label f1 = Field.label f2 → Field.name f1 = Field.name f2) →
  fld ∈ model →
  cache_targets model cache →
  Forall (λ c, field_name c = Field.name fld)
         (PandasValidationColumn.checks (handle_type cache fld).1)
  ∧ cache_targets model (handle_type cache fld).2.
Proof.
  intros Hlabels Hin Hcache. unfold handle_type.
  assert (Forall (λ c, field_name c = Field.name fld)
            (match Field.max_length fld with
             | Some n => if Z.eqb n 0 then [] else [LengthCheck (Field.name fld) n]
             | None => []
             end)) as H1.
  { destruct (Field.max_length fld) as [n|]; [|constructor].
    destruct (Z.eqb n 0); repeat constructor. }
  assert (Forall (λ c, field_name c = Field.name fld)
            (if is_relation fld then handle_relation cache fld
             else ([], cache)).1
          ∧ cache_targets model (if is_relation fld then handle_relation cache fld
                           else ([], cache)).2) as [H2 H3].
  { destruct (is_relation fld); [|by split; [constructor|]].
    unfold handle_relation.
    destruct (PyDict.get (Field.label fld) cache) as [cs|] eqn:Hget; simpl.
    - split; [|done]. destruct (Hcache _ _ Hget) as (fld' & Hin' & Hl & Hcs).
      by rewrite (Hlabels fld fld' Hin Hin') by done.
    - split; [repeat constructor|]. intros lbl cs Hl.
      destruct (decide (Field.label fld = lbl)) as [<-|Hne].
      + rewrite get_set_eq in Hl. injection Hl as <-.
        exists fld. repeat split; [done|]. repeat constructor.
      + rewrite get_set_ne in Hl by done. by apply Hcache. }
  destruct (if is_relation fld then _ else _) as [rel cache']. simpl in *.
  split; [|done].
  destruct (Field.choices fld); rewrite ?Forall_app; repeat split; try done.
  repeat constructor.
Qed.

Lemma validation_types_targets (fields : list string) :
  (∀ f1 f2, f1 ∈ model → f2 ∈ model →
            Field.label f1 = Field.label f2 → Field.name f1 = Field.name f2) →
  ∀ cache_dict cache vf cache',
  validation_types model fields cache_dict cache = Some (vf, cache') →
  cache_targets model cache →
  (∀ k col, PyDict.get k cache_dict = Some col →
            Forall (λ c, field_name c = PandasValidationColumn.name col)
                   (PandasValidationColumn.checks col)) →
  ∀ k col, PyDict.get k vf = Some col →
           Forall (λ c, field_name c = PandasValidationColumn.name col)
                  (PandasValidationColumn.checks col).
Proof.
  intros Hlabels. induction fields as [|item fields IH];
    intros cache_dict cache vf cache'; simpl.
  - by intros [= <- <-].
  - destruct (get_field model item) as [fld|] eqn:Hfld; [|done].
    destruct (get_field_name item fld Hfld) as [_ Hin].
    destruct (handle_type cache fld) as [col cache1] eqn:Hht.
    intros Hv Hcache Hcd.
    destruct (handle_type_targets cache fld Hlabels Hin Hcache) as [Hc Hc1].
    pose proof (handle_type_column cache fld) as (Hn & _ & _).
    rewrite Hht in Hc, Hc1, Hn. simpl in *.
    apply (IH _ _ _ _ Hv Hc1). intros k col' Hget.
    destruct (decide (item = k)) as [->|Hne].
    + rewrite get_set_eq in Hget. injection Hget as <-. by rewrite Hn.
    + rewrite get_set_ne in Hget by done. by apply (Hcd k).
Qed.

End ValidationTypes.


(** X26.  The validation fields of a model form: one column validator
    per listed item, keyed by the item in the order of first
    occurrence.  The validator is named after the model field the item
    resolves to, which answers to the item by its name or by its
    attribute name; it has no recorded errors, and is nullable when the
    model field allows null or blank. *)
Theorem validation_fields_columns (model : list Field.t) (fields : list string)
    (vf : PyDict.t PandasValidationColumn.t) (cache : PyDict.t (list Check)) :
  init_validation_types model fields = Some (vf, cache) →
  PyDict.keys vf = fold_left Pd.add_key fields []
  ∧ ∀ k col, PyDict.get k vf = Some col →
      ∃ fld, get_field model k = Some fld
             ∧ fld ∈ model
             ∧ (Field.name fld = k ∨ Field.attname fld = k)
             ∧ PandasValidationColumn.name col = Field.name fld
             ∧ PandasValidationColumn.errors col = ∅
             ∧ PandasValidationColumn.nullable col
               = Field.null fld || Field.blank fld.
Proof.
  intros Hv. destruct (validation_types_spec model fields [] []) as [_ Hres].
  destruct (Hres vf cache Hv) as [Hkeys Hnamed]. split; [done|].
  intros k col Hget.
  assert (columns_named model []) as Hnil by (by intros k' col').
  destruct (Hnamed Hnil k col Hget)
    as (fld & Hfld & Hn & He & Hu).
  destruct (get_field_name model k fld Hfld) as [Hk Hin].
  exists fld. by repeat split.
Qed.

Lemma validation_fields_columns_witness :
  let fields := ["title"; "owner_id"] in
  let r := match init_validation_types book_model fields with
           | Some r => r
           | None => ([], [])
           end in
  init_validation_types book_model fields = Some (r.1, r.2)
  ∧ PyDict.keys r.1 = fold_left Pd.add_key fields []
  ∧ ∀ k col, PyDict.get k r.1 = Some col →
      ∃ fld, get_field book_model k = Some fld
             ∧ fld ∈ book_model
             ∧ (Field.name fld = k ∨ Field.attname fld = k)
             ∧ PandasValidationColumn.name col = Field.name fld
             ∧ PandasValidationColumn.errors col = ∅
             ∧ PandasValidationColumn.nullable col
               = Field.null fld || Field.blank fld.
Proof.
  split; [reflexivity|].
  exact (validation_fields_columns book_model ["title"; "owner_id"] _ _
           eq_refl).
Defined.

(** X27.  When the labels of the model's fields tell their names apart,
    every check of every column validator of a model form reads the
    column named like the model field its key resolves to, which is
    the validator's own name, also a relation check taken from the
    cache. *)
Theorem validation_fields_targets (model : list Field.t)
    (fields : list string) (vf : PyDict.t PandasValidationColumn.t)
    (cache : PyDict.t (list Check)) :
  (∀ f1 f2, f1 ∈ model → f2 ∈ model →
            Field.label f1 = Field.label f2 → Field.name f1 = Field.name f2) →
  init_validation_types model fields = Some (vf, cache) →
  ∀ k col, PyDict.get k vf = Some col →
    ∃ fld, get_field model k = Some fld
           ∧ PandasValidationColumn.name col = Field.name fld
           ∧ Forall (λ c, field_name c = Field.name fld)
                    (PandasValidationColumn.checks col).
Proof.
  intros Hlabels Hv k col Hget.
  destruct (validation_types_spec model fields [] []) as [_ Hres].
  destruct (Hres vf cache Hv) as [_ Hnamed].
  assert (columns_named model []) as Hnil by (by intros k' col').
  destruct (Hnamed Hnil k col Hget)
    as (fld & Hfld & Hn & _).
  exists fld. split; [done|]. split; [done|]. rewrite <- Hn.
  apply (validation_types_targets model fields Hlabels [] [] vf cache Hv)
    with (k := k); [by intros lbl cs|by intros k' col'|done].
Qed.

Lemma validation_fields_targets_witness :
  let fields := ["title"; "owner_id"; "owner"] in
  let r := match init_validation_types book_model fields with
           | Some r => r
           | None => ([], [])
           end in
  (∀ f1 f2, f1 ∈ book_model → f2 ∈ book_model →
            Field.label f1 = Field.label f2 → Field.name f1 = Field.name f2)
  ∧ init_validation_types book_model fields = Some (r.1, r.2)
  ∧ ∀ k col, PyDict.get k r.1 = Some col →
      ∃ fld, get_field book_model k = Some fld
             ∧ PandasValidationColumn.name col = Field.name fld
             ∧ Forall (λ c, field_name c = Field.name fld)
                      (PandasValidationColumn.checks col).
Proof.
  assert (∀ f1 f2, f1 ∈ book_model → f2 ∈ book_model →
                   Field.label f1 = Field.label f2 →
                   Field.name f1 = Field.name f2) as Hlabels.
  { intros f1 f2 H1 H2. unfold book_model in H1, H2.
    repeat (apply elem_of_cons in H1 as [->|H1]);
      try (by apply not_elem_of_nil in H1);
      repeat (apply elem_of_cons in H2 as [->|H2]);
      try (by apply not_elem_of_nil in H2);
      simpl; intros Heq; first [reflexivity | discriminate Heq]. }
  split; [exact Hlabels|]. split; [reflexivity|].
  exact (validation_fields_targets book_model ["title"; "owner_id"; "owner"]
           _ _ Hlabels eq_refl).
Defined.

(** A relation listed by its attribute name: the validator under the key
    ["owner_id"] is named ["owner"] and its check reads the column
    ["owner"], which the frame of the cleaned rows, whose columns are
    the listed items, does not have; the check raises [KeyError]. *)
Example attname_key_reads_field_name :
  ∃ vf cache,
    init_validation_types book_model ["owner_id"] = Some (vf, cache)
    ∧ vf = [("owner_id",
             PandasValidationColumn.init "owner"
               [IsInCheck "owner" [VInt 7; VInt 8]] true true)]
    ∧ PandasValidationFrame.validate (PandasValidationFrame.init vf)
        (Pd.from_records [[("owner_id", VInt 7)]])
      = Raise KeyError.
Proof. eexists _, _. split; [reflexivity|]. by vm_compute. Qed.

(** X28.  In a model form, a field without hook whose raw value is
    missing or falsy is cleaned to the default of the model field when
    the model provides one, and to [None] otherwise. *)
Theorem model_form_default (model : list Field.t) (fields : list string)
    (hooks : string → option (PyDict.t Value → HookResult))
    (data : list (PyDict.t Value)) (f : PandasForm.t) (n : nat)
    (values : PyDict.t Value) (before after : list string) (item : string)
    (fld : Field.t) :
  PandasModelForm_new model fields hooks data = Some f →
  data !! n = Some values →
  fields = before ++ item :: after →
  item ∉ after →
  hooks item = None →
  PandasForm.raw_truthy item values = false →
  get_field model item = Some fld →
  let cls := mkFormClass fields (PandasModelForm_handle_default model) hooks in
  ∃ cleaned row,
    PandasForm.cleaned_data (PandasForm._clean_data cls f) = Some cleaned
    ∧ cleaned !! n = Some row
    ∧ PyDict.get item row
      = Some (match Field.default fld with Some d => d | None => VNone end).
Proof.
  intros Hnew Hn Hfields Hafter Hhook Hraw Hfld cls.
  unfold PandasModelForm_new in Hnew.
  destruct (init_validation_types model fields) as [[vf cache]|]; [|done].
  injection Hnew as <-.
  destruct (clean_data_spec cls (PandasModelForm_init cls vf data))
    as (_ & _ & _ & _ & Hc & _).
  fold cls. rewrite Hc, clean_rows_cleaned. simpl. eexists _, _.
  split; [done|]. split; [by rewrite list_lookup_fmap, Hn|].
  rewrite Hfields, cleaned_row_value by done.
  unfold final_value, PandasForm.assigned. simpl. rewrite Hhook.
  unfold PandasForm.raw_truthy in Hraw.
  unfold PandasModelForm_handle_default. rewrite Hfld.
  destruct (PyDict.get item values) as [v|]; [|done]. by rewrite Hraw.
Qed.

Lemma model_form_default_witness :
  let fields := ["title"; "status"] in
  let hooks := (λ _ : string, @None (PyDict.t Value → HookResult)) in
  let cls := mkFormClass fields (PandasModelForm_handle_default book_model)
               hooks in
  let f := PandasModelForm_init cls
             (match init_validation_types book_model fields with
              | Some r => r.1
              | None => []
              end) book_rows in
  let values := [("title", VStr "Emma"); ("status", VStr "")] in
  let fld := Field.mk "status" "status" "shop.Book.status" "CharField" (Some 1)
               [(VStr "d", "Draft"); (VStr "p", "Published")] false true
               (Some (VStr "d")) [] in
  PandasModelForm_new book_model fields hooks book_rows = Some f
  ∧ book_rows !! 0%nat = Some values
  ∧ fields = ["title"] ++ ("status" :: [])
  ∧ ("status" ∉ ([] : list string))
  ∧ hooks "status" = None
  ∧ PandasForm.raw_truthy "status" values = false
  ∧ get_field book_model "status" = Some fld
  ∧ ∃ cleaned row,
      PandasForm.cleaned_data (PandasForm._clean_data cls f) = Some cleaned
      ∧ cleaned !! 0%nat = Some row
      ∧ PyDict.get "status" row
        = Some (match Field.default fld with Some d => d | None => VNone end).
Proof.
  assert ("status" ∉ ([] : list string)) as Hnil by apply not_elem_of_nil.
  split; [reflexivity|]. split; [reflexivity|]. split; [reflexivity|].
  split; [exact Hnil|]. split; [reflexivity|]. split; [reflexivity|].
  split; [reflexivity|].
  exact (model_form_default book_model ["title"; "status"]
           (λ _ : string, @None (PyDict.t Value → HookResult)) book_rows _ 0
           [("title", VStr "Emma"); ("status", VStr "")] ["title"] [] "status"
           _ eq_refl eq_refl eq_refl Hnil eq_refl eq_refl eq_refl).
Defined.
